(** * Research agent: data-access layer, tool adapters and retry loop

    A shallow embedding of the Python sources

    - [src/agents/crew_manager.py]      (the bounded retry loop of [run_research]),
    - [src/pinecone_ops/operations.py]  (job and content managers over the vector store),
    - [src/tools/serpapi_search_tool.py] and [src/tools/scraper_tool.py],
    - [src/tools/rag_tool.py]           (the retrieval tool),
    - [src/utils/helpers.py]            (the error handler),
    - [src/app.py]                      (the handler of the start button),

    together with the properties of these functions.

    Conventions.  A Python [str] is a Rocq [string] with one [ascii] per
    character, so the model covers text whose code points are below 256.
    A Python exception is a value of type [exn]; a call that can raise
    returns an [outcome].  Code that reads the clock, the vector store or
    the agent framework runs in the state-and-exception monad [M]; the
    external services themselves are oracles collected in a record. *)

From Stdlib Require Import ZArith NArith Ascii String List Sorting.Sorted Sorting.Permutation.
From Stdlib Require Import Floats.PrimFloat Floats.SpecFloat Floats.FloatOps.
From stdpp Require Import base option list gmap strings pretty.


(** ** Exceptions and the state-and-exception monad *)

(** An instance of a subclass of Python's [Exception]: its class name and
    the text [str(e)]. *)
Record exn := Exn { exn_class : string; exn_str : string }.

Inductive outcome (A : Type) :=
| Returns (a : A)
| Raises (e : exn).
Arguments Returns {A} a.
Arguments Raises {A} e.

#[export] Instance outcome_ret : MRet outcome := λ A a, Returns a.

#[export] Instance outcome_bind : MBind outcome := λ A B k o,
  match o with
  | Returns a => k a
  | Raises e => Raises e
  end.

Definition M (S A : Type) : Type := S → outcome A * S.

#[export] Instance M_ret {S} : MRet (M S) := λ A a s, (Returns a, s).

#[export] Instance M_bind {S} : MBind (M S) := λ A B k c s,
  match c s with
  | (Returns a, s') => k a s'
  | (Raises e, s') => (Raises e, s')
  end.

Definition raise {S A} (e : exn) : M S A := λ s, (Raises e, s).

(** [try: body / except Exception as e: handler e]. *)
Definition try_except {S A} (body : M S A) (handler : exn → M S A) : M S A := λ s,
  match body s with
  | (Returns a, s') => (Returns a, s')
  | (Raises e, s') => handler e s'
  end.

Definition get_state {S} : M S S := λ s, (Returns s, s).
Definition modify_state {S} (f : S → S) : M S unit := λ s, (Returns tt, f s).

(** Lifting the outcome of an external call. *)
Definition lift_outcome {S A} (o : outcome A) : M S A := λ s, (o, s).

(** A [for x in xs:] loop whose body may [return v] from the enclosing
    function ([Some v]) or fall through to the next iteration ([None]).
    The loop itself yields [None] when it runs to completion. *)
Fixpoint for_each {S A R} (xs : list A) (body : A → M S (option R)) : M S (option R) :=
  match xs with
  | [] => mret None
  | x :: xs' =>
      r ← body x;
      match r with
      | Some v => mret (Some v)
      | None => for_each xs' body
      end
  end.

(** ** Python strings *)

Module PyStr.

(** [str.lower()] on one character below U+0100: the ASCII capitals and
    the Latin-1 capitals U+00C0..U+00DE (the sign U+00D7 apart) move up
    by 32, every other character is its own lower case. *)
Definition lower_char (c : ascii) : ascii :=
  let n := N_of_ascii c in
  if ((65 <=? n) && (n <=? 90))%N then ascii_of_N (n + 32)
  else if ((192 <=? n) && (n <=? 222) && negb (n =? 215))%N then ascii_of_N (n + 32)
  else c.

Fixpoint lower (s : string) : string :=
  match s with
  | EmptyString => EmptyString
  | String c s' => String (lower_char c) (lower s')
  end.

(** [needle in hay] for two strings. *)
Fixpoint contains (needle hay : string) : bool :=
  match hay with
  | EmptyString => String.prefix needle EmptyString
  | String _ hay' => String.prefix needle hay || contains needle hay'
  end.

(** [s[:n]] for [n >= 0]. *)
Fixpoint take (n : nat) (s : string) : string :=
  match n, s with
  | O, _ => EmptyString
  | _, EmptyString => EmptyString
  | S n', String c s' => String c (take n' s')
  end.

(** The order of [<] on strings: lexicographic on code points. *)
Fixpoint ltb (a b : string) : bool :=
  match a, b with
  | _, EmptyString => false
  | EmptyString, String _ _ => true
  | String x a', String y b' =>
      if (N_of_ascii x <? N_of_ascii y)%N then true
      else if (N_of_ascii y <? N_of_ascii x)%N then false
      else ltb a' b'
  end.

End PyStr.

(** ** The agent orchestrator ([src/agents/crew_manager.py])

    [create_crew] only assembles objects of the agent framework (the LLM
    client, the agent, the task, the crew); the crew it returns is
    represented by the outcomes of its [kickoff].  The calls of [print]
    are left out; the calls of [time.sleep] and [crew.kickoff] are
    recorded in a trace. *)

Module Crew.

(** What the orchestrator does to the outside world, in order. *)
Inductive event :=
| ESleep (seconds : nat)
| EKickoff (topic : string).

(** The state is the chronological trace of events so far. *)
Abbreviation trace := (list event).

Definition is_kickoff (ev : event) : bool :=
  match ev with EKickoff _ => true | ESleep _ => false end.

Definition kickoff_count (tr : trace) : nat := length (List.filter is_kickoff tr).

(** The crew built by [create_crew]: the outcome of [crew.kickoff] for a
    topic, as a function of how many kickoffs came before. *)
Record crew := { kickoff_outcome : string → nat → outcome string }.

Definition sleep (seconds : nat) : M trace unit :=
  modify_state (λ tr, tr ++ [ESleep seconds]).

Definition kickoff (c : crew) (topic : string) : M trace string := λ tr,
  (kickoff_outcome c topic (kickoff_count tr), tr ++ [EKickoff topic]).

(** The two tests of the [except] branch, on [error_str = str(e).lower()]. *)
Definition is_rate_limit (e : exn) : bool :=
  let error_str := PyStr.lower (exn_str e) in
  PyStr.contains "rate_limit" error_str || PyStr.contains "ratelimit" error_str.

Definition is_empty_response (e : exn) : bool :=
  let error_str := PyStr.lower (exn_str e) in
  PyStr.contains "none or empty" error_str || PyStr.contains "invalid response" error_str.

(** The body of [for attempt in range(max_retries)]. *)
Definition attempt_body (c : crew) (topic : string) (max_retries retry_delay attempt : nat)
  : M trace (option string) :=
  try_except
    ((if 0 <? attempt then sleep retry_delay else mret tt);;
     result ← kickoff c topic;
     mret (Some result))
    (λ e,
       if is_rate_limit e then
         if attempt <? max_retries - 1 then sleep retry_delay;; mret None
         else raise e
       else if is_empty_response e then
         if attempt <? max_retries - 1 then sleep retry_delay;; mret None
         else raise e
       else raise e).

Definition retry_loop (c : crew) (topic : string) (max_retries retry_delay : nat)
  : M trace (option string) :=
  for_each (seq 0 max_retries) (attempt_body c topic max_retries retry_delay).

Definition initial_cooldown : nat := 15.
Definition max_retries : nat := 2.
Definition retry_delay : nat := 60.

(** [run_research]; the result [None] is Python's [None], returned when
    the loop ends without a [return]. *)
Definition run_research (c : crew) (topic : string) : M trace (option string) :=
  sleep initial_cooldown;;
  retry_loop c topic max_retries retry_delay.

(** Two crews for examples: one that is rate-limited at every kickoff,
    one whose first kickoff hits an empty response and whose later
    kickoffs fail with an authentication error. *)
Definition rate_limited_crew : crew :=
  {| kickoff_outcome := λ _ _,
       Raises (Exn "RateLimitError" "Error code: 429 - Rate_Limit reached for model") |}.

Definition unauthorized_crew : crew :=
  {| kickoff_outcome := λ _ n,
       match n with
       | 0 => Raises (Exn "ValueError" "Invalid response from LLM call - None or empty.")
       | _ => Raises (Exn "AuthenticationError" "Error code: 401 - Invalid API Key")
       end |}.

End Crew.

(** ** [hashlib.md5] and [str.encode] *)

Module Hashlib.
Local Open Scope Z_scope.

(** [str.encode()]: UTF-8, for code points below 256. *)
Definition encode_char (c : ascii) : list Z :=
  let n := Z.of_N (N_of_ascii c) in
  if n <? 128 then [n]
  else [Z.lor 192 (Z.shiftr n 6); Z.lor 128 (Z.land n 63)].

Fixpoint encode (s : string) : list Z :=
  match s with
  | EmptyString => []
  | String c s' => encode_char c ++ encode s'
  end.

Definition w32 (x : Z) : Z := Z.land x 4294967295.

Definition rotl (x c : Z) : Z :=
  w32 (Z.lor (Z.shiftl x c) (Z.shiftr x (32 - c))).

Definition not32 (x : Z) : Z := Z.lxor x 4294967295.

(** Per-round shift amounts and the sine table of RFC 1321. *)
Definition shifts : list Z :=
  [7; 12; 17; 22; 7; 12; 17; 22; 7; 12; 17; 22; 7; 12; 17; 22;
   5; 9; 14; 20; 5; 9; 14; 20; 5; 9; 14; 20; 5; 9; 14; 20;
   4; 11; 16; 23; 4; 11; 16; 23; 4; 11; 16; 23; 4; 11; 16; 23;
   6; 10; 15; 21; 6; 10; 15; 21; 6; 10; 15; 21; 6; 10; 15; 21].

Definition sines : list Z :=
  [0xd76aa478; 0xe8c7b756; 0x242070db; 0xc1bdceee;
   0xf57c0faf; 0x4787c62a; 0xa8304613; 0xfd469501;
   0x698098d8; 0x8b44f7af; 0xffff5bb1; 0x895cd7be;
   0x6b901122; 0xfd987193; 0xa679438e; 0x49b40821;
   0xf61e2562; 0xc040b340; 0x265e5a51; 0xe9b6c7aa;
   0xd62f105d; 0x02441453; 0xd8a1e681; 0xe7d3fbc8;
   0x21e1cde6; 0xc33707d6; 0xf4d50d87; 0x455a14ed;
   0xa9e3e905; 0xfcefa3f8; 0x676f02d9; 0x8d2a4c8a;
   0xfffa3942; 0x8771f681; 0x6d9d6122; 0xfde5380c;
   0xa4beea44; 0x4bdecfa9; 0xf6bb4b60; 0xbebfbc70;
   0x289b7ec6; 0xeaa127fa; 0xd4ef3085; 0x04881d05;
   0xd9d4d039; 0xe6db99e5; 0x1fa27cf8; 0xc4ac5665;
   0xf4292244; 0x432aff97; 0xab9423a7; 0xfc93a039;
   0x655b59c3; 0x8f0ccc92; 0xffeff47d; 0x85845dd1;
   0x6fa87e4f; 0xfe2ce6e0; 0xa3014314; 0x4e0811a1;
   0xf7537e82; 0xbd3af235; 0x2ad7d2bb; 0xeb86d391].

(** Little-endian bytes of a word, and back. *)
Fixpoint le_bytes (n : nat) (x : Z) : list Z :=
  match n with
  | O => []
  | S n' => Z.land x 255 :: le_bytes n' (Z.shiftr x 8)
  end.

Definition le_word (bs : list Z) : Z :=
  fold_right (λ b acc, b + 256 * acc) 0 bs.

(** The message followed by 0x80, zeros up to 56 modulo 64, and the bit
    length on 8 bytes. *)
Definition pad (msg : list Z) : list Z :=
  let len := Z.of_nat (length msg) in
  let zeros := Z.to_nat ((55 - len) mod 64) in
  msg ++ [128] ++ repeat 0 zeros ++ le_bytes 8 ((8 * len) mod 2 ^ 64).

Fixpoint words (n : nat) (bs : list Z) : list Z :=
  match n with
  | O => []
  | S n' => le_word (firstn 4 bs) :: words n' (skipn 4 bs)
  end.

Record digest_state := DS { da : Z; db : Z; dc : Z; dd : Z }.

Definition round (m : list Z) (st : digest_state) (i : Z) : digest_state :=
  let '(DS a b c d) := st in
  let '(f, g) :=
    if i <? 16 then (Z.lor (Z.land b c) (Z.land (not32 b) d), i)
    else if i <? 32 then (Z.lor (Z.land d b) (Z.land (not32 d) c), (5 * i + 1) mod 16)
    else if i <? 48 then (Z.lxor (Z.lxor b c) d, (3 * i + 5) mod 16)
    else (Z.lxor c (Z.lor b (not32 d)), (7 * i) mod 16) in
  let f' := w32 (f + a + nth (Z.to_nat i) sines 0 + nth (Z.to_nat g) m 0) in
  DS d (w32 (b + rotl f' (nth (Z.to_nat i) shifts 0))) b c.

Definition compress (st : digest_state) (block : list Z) : digest_state :=
  let m := words 16 block in
  let '(DS a b c d) := fold_left (round m) (map Z.of_nat (seq 0 64)) st in
  DS (w32 (da st + a)) (w32 (db st + b)) (w32 (dc st + c)) (w32 (dd st + d)).

Fixpoint blocks (n : nat) (st : digest_state) (bs : list Z) : digest_state :=
  match n with
  | O => st
  | S n' => blocks n' (compress st (firstn 64 bs)) (skipn 64 bs)
  end.

Definition md5 (msg : list Z) : list Z :=
  let padded := pad msg in
  let '(DS a b c d) :=
    blocks (length padded / 64)%nat (DS 0x67452301 0xefcdab89 0x98badcfe 0x10325476) padded in
  le_bytes 4 a ++ le_bytes 4 b ++ le_bytes 4 c ++ le_bytes 4 d.

Definition hex_digit (n : Z) : ascii :=
  nth (Z.to_nat n) (list_ascii_of_string "0123456789abcdef") "0"%char.

Fixpoint hex (bs : list Z) : string :=
  match bs with
  | [] => EmptyString
  | b :: bs' => String (hex_digit (Z.shiftr b 4)) (String (hex_digit (Z.land b 15)) (hex bs'))
  end.

(** [hashlib.md5(data).hexdigest()] *)
Definition md5_hexdigest (data : list Z) : string := hex (md5 data).

End Hashlib.

(** ** Python values *)

Module Py.

(** The values that occur in metadata dictionaries and search results. *)
Inductive value :=
| VStr (s : string)
| VInt (z : Z)
| VFloat (f : float).

Abbreviation dict := (gmap string value).

(** [d[k]] *)
Definition getitem (d : dict) (k : string) : outcome value :=
  match d !! k with
  | Some v => Returns v
  | None => Raises (Exn "KeyError" ("'" +:+ k +:+ "'"))
  end.

(** [d.get(k, dflt)] *)
Definition get (d : dict) (k : string) (dflt : value) : value := default dflt (d !! k).

(** Truth value of an optional string argument: [None] and [''] are false. *)
Definition str_truthy (o : option string) : bool :=
  match o with
  | Some (String _ _) => true
  | _ => false
  end.

(** [str(v)] as used by an f-string; [repr_float] is Python's shortest
    round-trip printing of floats, an external function. *)
Definition str (repr_float : float → string) (v : value) : string :=
  match v with
  | VStr s => s
  | VInt z => pretty z
  | VFloat f => repr_float f
  end.

Definition int_to_float (z : Z) : spec_float :=
  match z with
  | Z0 => S754_zero false
  | Zpos p => S754_finite false p 0
  | Zneg p => S754_finite true p 0
  end.

(** [a / b] on two ints with [b != 0]: the float nearest to the exact
    quotient. *)
Definition int_truediv (a b : Z) : float :=
  SF2Prim (SFdiv prec emax (int_to_float a) (int_to_float b)).

(** [1 / v] *)
Definition one_over (v : value) : outcome value :=
  match v with
  | VInt z =>
      if (z =? 0)%Z then Raises (Exn "ZeroDivisionError" "division by zero")
      else Returns (VFloat (int_truediv 1 z))
  | VFloat f =>
      if PrimFloat.eqb f 0 then Raises (Exn "ZeroDivisionError" "float division by zero")
      else Returns (VFloat (PrimFloat.div 1 f))
  | VStr _ =>
      Raises (Exn "TypeError" "unsupported operand type(s) for /: 'int' and 'str'")
  end.

(** Exact comparison of a float with an int; [None] for NaN. *)
Definition float_compare_int (f : float) (z : Z) : option comparison :=
  match Prim2SF f with
  | S754_nan => None
  | S754_infinity s => Some (if s then Lt else Gt)
  | S754_zero _ => Some (0 ?= z)%Z
  | S754_finite s m e =>
      let v := if s then Zneg m else Zpos m in
      if (0 <=? e)%Z then Some (v * 2 ^ e ?= z)%Z
      else Some (v ?= z * 2 ^ (- e))%Z
  end.

(** [a < b] *)
Definition lt (a b : value) : outcome bool :=
  match a, b with
  | VStr x, VStr y => Returns (PyStr.ltb x y)
  | VInt x, VInt y => Returns (x <? y)%Z
  | VFloat x, VFloat y => Returns (PrimFloat.ltb x y)
  | VFloat x, VInt y =>
      Returns (match float_compare_int x y with Some Lt => true | _ => false end)
  | VInt x, VFloat y =>
      Returns (match float_compare_int y x with Some Gt => true | _ => false end)
  | _, _ => Raises (Exn "TypeError" "'<' not supported between instances")
  end.

(** [l[:limit]] *)
Definition slice_to {A} (limit : Z) (l : list A) : list A :=
  if (0 <=? limit)%Z then take (Z.to_nat limit) l
  else take (Z.to_nat (Z.of_nat (length l) + limit)) l.

(** [l.sort(key=lambda x: x[k], reverse=True)].  The keys are computed
    first; the sort is stable, so among equal keys the original order
    is kept.  It is written as the insertion of each element, from the
    last to the first, after the elements whose key is strictly
    greater; every stable sort agrees with it as soon as [<] orders
    the keys (it does not when a key is NaN). *)
Fixpoint insert_desc {A} (x : value * A) (l : list (value * A)) : outcome (list (value * A)) :=
  match l with
  | [] => Returns [x]
  | y :: l' =>
      b ← lt x.1 y.1;
      if b : bool then r ← insert_desc x l'; mret (y :: r)
      else mret (x :: y :: l')
  end.

Fixpoint sort_desc {A} (l : list (value * A)) : outcome (list (value * A)) :=
  match l with
  | [] => Returns []
  | x :: l' => r ← sort_desc l'; insert_desc x r
  end.

Fixpoint with_keys (k : string) (l : list dict) : outcome (list (value * dict)) :=
  match l with
  | [] => Returns []
  | x :: l' => v ← getitem x k; r ← with_keys k l'; mret ((v, x) :: r)
  end.

Definition sort_by_key_desc (k : string) (l : list dict) : outcome (list dict) :=
  decorated ← with_keys k l;
  sorted ← sort_desc decorated;
  Returns (snd <$> (sorted : list (value * dict))).

End Py.

(** ** The data-access layer ([src/pinecone_ops/operations.py])

    The vector store is a pair of indexes, each a finite map from
    namespaces to finite maps from ids to vectors.  The calls of [print]
    in the exception handlers are left out. *)

Module Pinecone.
Import Py.

(** A stored vector: id, embedding values and metadata. *)
Record vector := Vector { v_id : string; v_values : list float; v_metadata : dict }.

(** An index: namespace, then id. *)
Abbreviation index := (gmap string (gmap string vector)).

Inductive index_name := JobIndex | ContentIndex.

(** One entry of [response['matches']]. *)
Record scored_match := Match {
  match_id : string;
  match_score : float;
  match_metadata : option dict
}.

(** The services outside the repository: the embedding model, the
    clock, and what the vector-store client does beyond reading and
    writing the index (raise, or rank by similarity). *)
Record services := {
  (** [embedding_model.encode(text, convert_to_numpy=True).tolist()] *)
  encode : string → outcome (list float);
  (** [datetime.now().isoformat()] at the n-th reading of the clock *)
  clock : nat → string;
  (** [index.fetch(ids, namespace)]: raises, or answers with
      ([true]) or without ([false]) an attribute [vectors] *)
  fetch_outcome : index_name → list string → string → outcome bool;
  (** [index.upsert(vectors, namespace)]: the exception it raises, if any *)
  upsert_fault : index_name → list vector → string → option exn;
  (** [index.query(vector, top_k, include_metadata=True, namespace, filter)['matches']] *)
  query_outcome : index_name → index → list float → Z → option string →
                  option (list (string * string)) → outcome (list scored_match);
  (** [str] on floats *)
  repr_float : float → string
}.

(** The state: both indexes and the number of clock readings so far. *)
Record world := World { job_index : index; content_index : index; clock_reads : nat }.

Definition get_index (n : index_name) (w : world) : index :=
  match n with JobIndex => job_index w | ContentIndex => content_index w end.

Definition set_index (n : index_name) (idx : index) (w : world) : world :=
  match n with
  | JobIndex => World idx (content_index w) (clock_reads w)
  | ContentIndex => World (job_index w) idx (clock_reads w)
  end.

Definition namespace_of (idx : index) (ns : string) : gmap string vector :=
  default ∅ (idx !! ns).

(** The job records, stored under the namespace ['jobs']. *)
Definition jobs (w : world) : gmap string vector := namespace_of (job_index w) "jobs".

Section WithServices.
Context (sv : services).

Definition now : M world string := λ w,
  (Returns (clock sv (clock_reads w)),
   World (job_index w) (content_index w) (S (clock_reads w))).

(** [response.vectors] is [None] when the response has no such attribute. *)
Definition fetch (n : index_name) (ids : list string) (ns : string)
  : M world (option (gmap string vector)) :=
  has_vectors ← lift_outcome (fetch_outcome sv n ids ns);
  w ← get_state;
  mret (if has_vectors : bool
        then Some (filter (λ kv, kv.1 ∈ ids) (namespace_of (get_index n w) ns))
        else None).

Definition upsert (n : index_name) (vs : list vector) (ns : string) : M world unit :=
  match upsert_fault sv n vs ns with
  | Some e => raise e
  | None =>
      modify_state (λ w,
        let idx := get_index n w in
        set_index n
          (<[ns := foldl (λ m v, <[v_id v := v]> m) (namespace_of idx ns) vs]> idx) w)
  end.

Definition query (n : index_name) (v : list float) (top_k : Z) (ns : option string)
    (flt : option (list (string * string))) : M world (list scored_match) :=
  w ← get_state;
  lift_outcome (query_outcome sv n (get_index n w) v top_k ns flt).

(** *** PineconeDataManager *)

Definition _generate_embedding (text : string) : M world (list float) :=
  lift_outcome (encode sv text).

Definition job_id_of (job_type topic timestamp : string) : string :=
  let content := job_type +:+ "_" +:+ topic +:+ "_" +:+ timestamp in
  PyStr.take 12 (Hashlib.md5_hexdigest (Hashlib.encode content)).

Definition _generate_job_id (topic job_type : string) : M world string :=
  timestamp ← now;
  mret (job_id_of job_type topic timestamp).

(** *** ResearchJobManager *)

Definition create_job (topic user_id : string) : M world (gmap string string) :=
  job_id ← _generate_job_id topic "research";
  let namespace := "job_" +:+ job_id in
  created_at ← now;
  updated_at ← now;
  let job_metadata : dict :=
    list_to_map
      [("job_id", VStr job_id); ("topic", VStr topic); ("user_id", VStr user_id);
       ("job_type", VStr "research"); ("status", VStr "pending");
       ("created_at", VStr created_at); ("updated_at", VStr updated_at);
       ("namespace", VStr namespace); ("source_count", VInt 0);
       ("processing_time_seconds", VInt 0); ("report", VStr "");
       ("error_message", VStr "")] in
  let embedding_text :=
    "Research job: " +:+ topic +:+ " Status: pending Type: research" in
  embedding ← _generate_embedding embedding_text;
  upsert JobIndex [Vector job_id embedding job_metadata] "jobs";;
  mret (list_to_map [("job_id", job_id); ("namespace", namespace)]).

Definition get_job (job_id : string) : M world (option vector) :=
  try_except
    (response ← fetch JobIndex [job_id] "jobs";
     match response with
     | Some vectors => mret (vectors !! job_id)
     | None => mret None
     end)
    (λ e, mret None).

(** The metadata written back by [update_job_status]: a copy of the
    stored metadata with [status] and [updated_at] replaced, and
    [report], [error_message] and [source_count] replaced under the
    tests [if report:], [if error_message:] and
    [if source_count is not None:]. *)
Definition merge_update (metadata : dict) (status updated_at : string)
    (report error_message : option string) (source_count : option Z) : dict :=
  let updated_metadata :=
    <["updated_at" := VStr updated_at]> (<["status" := VStr status]> metadata) in
  let updated_metadata :=
    if str_truthy report
    then <["report" := VStr (default "" report)]> updated_metadata
    else updated_metadata in
  let updated_metadata :=
    if str_truthy error_message
    then <["error_message" := VStr (default "" error_message)]> updated_metadata
    else updated_metadata in
  match source_count with
  | Some n => <["source_count" := VInt n]> updated_metadata
  | None => updated_metadata
  end.

(** The text embedded by [update_job_status]. *)
Definition update_embedding_text (topic : value) (status : string) (report : option string)
  : string :=
  let embedding_text :=
    "Research job: " +:+ Py.str (repr_float sv) topic +:+
    " Status: " +:+ status +:+ " Type: research" in
  if str_truthy report
  then embedding_text +:+ " Report: " +:+ PyStr.take 500 (default "" report)
  else embedding_text.

Definition update_job_status (job_id status : string) (report error_message : option string)
    (source_count : option Z) : M world bool :=
  try_except
    (job_data ← get_job job_id;
     match job_data with
     | None => mret false
     | Some job_data =>
         updated_at ← now;
         let updated_metadata :=
           merge_update (v_metadata job_data) status updated_at
             report error_message source_count in
         topic ← lift_outcome (getitem updated_metadata "topic");
         embedding ← _generate_embedding (update_embedding_text topic status report);
         upsert JobIndex [Vector job_id embedding updated_metadata] "jobs";;
         mret true
     end)
    (λ e, mret false).

(** [job_data = match['metadata']; job_data[key] = match['score']];
    a match without metadata makes the assignment raise. *)
Definition annotate (key : string) (m : scored_match) : outcome dict :=
  match match_metadata m with
  | Some job_data => Returns (<[key := VFloat (match_score m)]> job_data)
  | None => Raises (Exn "TypeError" "'NoneType' object does not support item assignment")
  end.

Fixpoint annotate_all (key : string) (ms : list scored_match) : outcome (list dict) :=
  match ms with
  | [] => Returns []
  | m :: ms' => d ← annotate key m; r ← annotate_all key ms'; mret (d :: r)
  end.

Definition history_query_text (user_id : option string) : string :=
  if str_truthy user_id
  then "Research jobs for user " +:+ default "" user_id +:+ " job history"
  else "Research job history all jobs".

Definition history_filter (user_id : option string) : list (string * string) :=
  if str_truthy user_id
  then [("job_type", "research"); ("user_id", default "" user_id)]
  else [("job_type", "research")].

Definition get_job_history (user_id : option string) (limit : Z) : M world (list dict) :=
  try_except
    (let query_text := history_query_text user_id in
     query_embedding ← _generate_embedding query_text;
     matches ← query JobIndex query_embedding limit (Some "jobs")
                 (Some (history_filter user_id));
     jobs ← lift_outcome (annotate_all "score" matches);
     lift_outcome (sort_by_key_desc "created_at" jobs))
    (λ e, mret []).

Definition search_jobs_by_topic (search_topic : string) (limit : Z) : M world (list dict) :=
  try_except
    (query_embedding ← _generate_embedding ("Research topic: " +:+ search_topic);
     matches ← query JobIndex query_embedding limit (Some "jobs") None;
     lift_outcome (annotate_all "similarity_score" matches))
    (λ e, mret []).

(** *** ContentManager *)

Definition job_namespace (job_id : string) : string := "job_" +:+ job_id.

Definition get_job_sources (job_id : string) (limit : Z) : M world (list (option dict)) :=
  try_except
    (query_embedding ← _generate_embedding "research sources content";
     matches ← query ContentIndex query_embedding limit (Some (job_namespace job_id)) None;
     mret (match_metadata <$> matches))
    (λ e, mret []).

Definition search_content (query_text : string) (job_id : option string) (top_k : Z)
  : M world (list dict) :=
  try_except
    (query_embedding ← _generate_embedding query_text;
     let namespace :=
       if str_truthy job_id then Some (job_namespace (default "" job_id)) else None in
     matches ← query ContentIndex query_embedding top_k namespace None;
     lift_outcome (annotate_all "relevance_score" matches))
    (λ e, mret []).

(** *** PineconeOperations *)

Definition create_research_job (topic user_id : string) : M world (gmap string string) :=
  create_job topic user_id.

Definition update_research_job (job_id status : string) (report error_message : option string)
    (source_count : option Z) : M world bool :=
  update_job_status job_id status report error_message source_count.

(** [PineconeOperations.get_job_history] *)
Definition operations_get_job_history (user_id : option string) (limit : Z)
  : M world (list dict) :=
  research_jobs ← get_job_history user_id limit;
  all_jobs ← lift_outcome (sort_by_key_desc "created_at" research_jobs);
  mret (slice_to limit all_jobs).

End WithServices.

(** *** Stand-ins for the external services

    The services as a test would mock them.  With [mock_services] the
    embeddings are empty, the clock advances by one microsecond at each
    reading, the store never fails, and a query answers with the first
    [top_k] records of the namespace.  [frozen_services] differs by a
    clock that shows the same instant at every reading;
    [offline_services] by an embedding model and a query that raise. *)

Definition ticking_clock (n : nat) : string :=
  "2024-05-01T10:00:00.00" +:+ pretty (1000 + n)%nat.

Definition mock_query (n : index_name) (idx : index) (v : list float) (top_k : Z)
    (ns : option string) (flt : option (list (string * string)))
  : outcome (list scored_match) :=
  Returns ((λ kv : string * vector, Match kv.1 1%float (Some (v_metadata kv.2)))
             <$> take (Z.to_nat top_k) (map_to_list (namespace_of idx (default "" ns)))).

Definition mock_services : services :=
  {| encode := λ _, Returns [];
     clock := ticking_clock;
     fetch_outcome := λ _ _ _, Returns true;
     upsert_fault := λ _ _ _, None;
     query_outcome := mock_query;
     repr_float := λ _, "1.0" |}.

Definition frozen_services : services :=
  {| encode := λ _, Returns [];
     clock := λ _, "2024-05-01T10:00:00.001000";
     fetch_outcome := λ _ _ _, Returns true;
     upsert_fault := λ _ _ _, None;
     query_outcome := mock_query;
     repr_float := λ _, "1.0" |}.

Definition offline_services : services :=
  {| encode := λ _, Raises (Exn "RuntimeError" "embedding model is not loaded");
     clock := ticking_clock;
     fetch_outcome := λ _ _ _, Returns true;
     upsert_fault := λ _ _ _, None;
     query_outcome := λ _ _ _ _ _ _, Raises (Exn "PineconeException" "connection refused");
     repr_float := λ _, "1.0" |}.

Definition empty_world : world := World ∅ ∅ 0.

(** The world after [create_job('quantum computing', 'alice')] on the
    empty store, and the id of that job. *)
Definition one_job_world : world :=
  Eval vm_compute in (create_job mock_services "quantum computing" "alice" empty_world).2.

Definition one_job_id : string :=
  Eval vm_compute in job_id_of "research" "quantum computing" (ticking_clock 0).

(** The world after three more jobs have been created. *)
Definition four_jobs_world : world :=
  Eval vm_compute in
    let w := (create_job mock_services "graph databases" "bob" one_job_world).2 in
    let w := (create_job mock_services "protein folding" "alice" w).2 in
    (create_job mock_services "quantum computing" "carol" w).2.

(** What the mocked query surfaces from it for the history of all users. *)
Definition four_jobs_matches : list scored_match :=
  Eval vm_compute in
  match mock_query JobIndex (job_index four_jobs_world) [] 10 (Some "jobs")
          (Some (history_filter None)) with
  | Returns ms => ms
  | Raises _ => []
  end.

End Pinecone.

(** ** The tool adapters ([src/tools]) *)

Module Tools.
Import Py.

(** The response of the search API.  Only the key ['organic_results']
    is read: [None] when the response has no such key, otherwise the
    list of result dictionaries. *)
Record raw_results := { organic_results : option (list dict) }.

Definition format_result (result : dict) : outcome dict :=
  relevance_score ← one_over (get result "position" (VInt 1));
  mret (list_to_map
          [("url", get result "link" (VStr ""));
           ("title", get result "title" (VStr ""));
           ("snippet", get result "snippet" (VStr ""));
           ("content", get result "snippet" (VStr ""));
           ("relevance_score", relevance_score)]).

Fixpoint format_all (results : list dict) : outcome (list dict) :=
  match results with
  | [] => Returns []
  | result :: rest => d ← format_result result; r ← format_all rest; mret (d :: r)
  end.

(** [SerpAPISearchTool._format_results] *)
Definition _format_results (raw : raw_results) : outcome (list dict) :=
  match organic_results raw with
  | Some results => format_all results
  | None => Returns []
  end.

(** [WebScraperTool._run] *)
Definition scraper_run (url : string) : string :=
  "Placeholder content for " +:+ url +:+ ". This tool is not fully implemented yet.".

(** A response of the search API with three organic results. *)
Definition sample_response : raw_results :=
  {| organic_results := Some
       [list_to_map [("position", VInt 1); ("link", VStr "https://a.example/qc");
                     ("title", VStr "Quantum computing"); ("snippet", VStr "An overview.")];
        list_to_map [("position", VInt 2); ("link", VStr "https://b.example/qubits");
                     ("title", VStr "Qubits"); ("snippet", VStr "What a qubit is.")];
        list_to_map [("position", VInt 3); ("link", VStr "https://c.example/shor");
                     ("title", VStr "Shor's algorithm")]] |}.

End Tools.

(** ** Predicates used in the statements *)

(** [x] does not come before [y] in the order of the keys: both keys are
    strings and the key of [x] is not below the key of [y]. *)
Definition key_ge {A} (x y : Py.value * A) : Prop :=
  ∃ a b, x.1 = Py.VStr a ∧ y.1 = Py.VStr b ∧ PyStr.ltb a b = false.

Definition str_key {A} (x : Py.value * A) : Prop := ∃ a, x.1 = Py.VStr a.

(** The record [a] is not older than [b]: both carry a string under the
    key [k], and the one of [a] is not below the one of [b]. *)
Definition desc_by (k : string) (a b : Py.dict) : Prop :=
  ∃ ta tb, a !! k = Some (Py.VStr ta) ∧ b !! k = Some (Py.VStr tb) ∧ PyStr.ltb ta tb = false.

Definition has_str_key (k : string) (d : Py.dict) : Prop := ∃ s, d !! k = Some (Py.VStr s).

(** A decorated element carries the value its record has under [k]. *)
Definition keyed (k : string) (p : Py.value * Py.dict) : Prop := p.2 !! k = Some p.1.

(** A match that carries a job record: metadata with a creation
    timestamp, as [create_job] writes it. *)
Definition job_record (m : Pinecone.scored_match) : Prop :=
  ∃ md ts, Pinecone.match_metadata m = Some md ∧ md !! "created_at" = Some (Py.VStr ts).

(** The same, as a test. *)
Definition is_job_record (m : Pinecone.scored_match) : bool :=
  match Pinecone.match_metadata m with
  | Some md => match md !! "created_at" with Some (Py.VStr _) => true | _ => false end
  | None => false
  end.

(** The record returned for a match: its metadata with the similarity
    score stored under [key]. *)
Definition annotated (key : string) (m : Pinecone.scored_match) : Py.dict :=
  <[key := Py.VFloat (Pinecone.match_score m)]> (default ∅ (Pinecone.match_metadata m)).

(** The list a [try ... except Exception: return []] block returns. *)
Definition or_empty {A} (o : outcome (list A)) : list A :=
  match o with
  | Returns l => l
  | Raises _ => []
  end.

(** The embedding call or, after it, the query raises. *)
Definition call_fails (sv : Pinecone.services) (text : string)
    (query : list float → outcome (list Pinecone.scored_match)) : Prop :=
  (∃ e, Pinecone.encode sv text = Raises e) ∨
  (∃ query_embedding e, Pinecone.encode sv text = Returns query_embedding ∧
                        query query_embedding = Raises e).

(** What a run of [create_job] returned (nothing if it raised). *)
Definition returned (run : outcome (gmap string string) * Pinecone.world)
  : gmap string string :=
  match run.1 with
  | Returns r => r
  | Raises _ => ∅
  end.

(** The job id in what a run of [create_job] returned. *)
Definition returned_job_id (run : outcome (gmap string string) * Pinecone.world)
  : option string :=
  match run.1 with
  | Returns r => r !! "job_id"
  | Raises _ => None
  end.

(** The state after a successful [update_job_status]: the record of
    [job_id] is replaced and the clock has been read once. *)
Definition updated_world (w : Pinecone.world) (job_id : string) (embedding : list float)
    (metadata : Py.dict) : Pinecone.world :=
  Pinecone.World
    (<["jobs" := <[job_id := Pinecone.Vector job_id embedding metadata]> (Pinecone.jobs w)]>
       (Pinecone.job_index w))
    (Pinecone.content_index w) (S (Pinecone.clock_reads w)).

(** ** The report file of the crew's task ([create_crew]) *)

Module Report.

(** [s.replace(old, new)] for two one-character strings. *)
Fixpoint replace_char (old new : ascii) (s : string) : string :=
  match s with
  | EmptyString => EmptyString
  | String c s' =>
      String (if Ascii.eqb c old then new else c) (replace_char old new s')
  end.

(** [output_file=f"report_{topic.replace(' ', '_')}.md"] *)
Definition output_file (topic : string) : string :=
  "report_" +:+ replace_char " " "_" topic +:+ ".md".

End Report.

(** Two more crews for examples: one that answers at once, one whose
    first kickoff hits an empty response and whose second answers. *)
Definition healthy_crew : Crew.crew :=
  {| Crew.kickoff_outcome := λ topic _, Returns ("# Report on " +:+ topic) |}.

Definition flaky_crew : Crew.crew :=
  {| Crew.kickoff_outcome := λ topic n,
       match n with
       | 0 => Raises (Exn "ValueError" "Invalid response from LLM call - None or empty.")
       | _ => Returns ("# Report on " +:+ topic)
       end |}.

(** ** More predicates used in the statements *)

(** The seconds slept along a trace. *)
Fixpoint sleep_total (tr : list Crew.event) : nat :=
  match tr with
  | [] => 0
  | Crew.ESleep n :: tr' => n + sleep_total tr'
  | Crew.EKickoff _ :: tr' => sleep_total tr'
  end.

(** The error is one that [run_research] retries. *)
Definition retried (e : exn) : bool := Crew.is_rate_limit e || Crew.is_empty_response e.

Definition is_hex_digit (c : ascii) : bool :=
  let n := N_of_ascii c in
  ((48 <=? n) && (n <=? 57) || (97 <=? n) && (n <=? 102))%N.

Fixpoint all_chars (p : ascii → bool) (s : string) : bool :=
  match s with
  | EmptyString => true
  | String c s' => p c && all_chars p s'
  end.

(** A byte. *)
Definition byte_range (b : Z) : Prop := (0 ≤ b < 256)%Z.

(** The metadata of a job as [create_job] writes it. *)
Definition pending_metadata (job_id topic user_id created_at updated_at : string) : Py.dict :=
  list_to_map
    [("job_id", Py.VStr job_id); ("topic", Py.VStr topic); ("user_id", Py.VStr user_id);
     ("job_type", Py.VStr "research"); ("status", Py.VStr "pending");
     ("created_at", Py.VStr created_at); ("updated_at", Py.VStr updated_at);
     ("namespace", Py.VStr ("job_" +:+ job_id)); ("source_count", Py.VInt 0);
     ("processing_time_seconds", Py.VInt 0); ("report", Py.VStr "");
     ("error_message", Py.VStr "")].

(** The record [create_job] stores when it starts at the state [w]. *)
Definition created_record (sv : Pinecone.services) (topic user_id : string)
    (embedding : list float) (w : Pinecone.world) : Pinecone.vector :=
  let job_id := Pinecone.job_id_of "research" topic
                  (Pinecone.clock sv (Pinecone.clock_reads w)) in
  Pinecone.Vector job_id embedding
    (pending_metadata job_id topic user_id
       (Pinecone.clock sv (S (Pinecone.clock_reads w)))
       (Pinecone.clock sv (S (S (Pinecone.clock_reads w))))).

(** The state after a successful [create_job]: the record is stored under
    its id and the clock has been read three times. *)
Definition created_world (sv : Pinecone.services) (topic user_id : string)
    (embedding : list float) (w : Pinecone.world) : Pinecone.world :=
  let v := created_record sv topic user_id embedding w in
  Pinecone.World
    (<["jobs" := <[Pinecone.v_id v := v]> (Pinecone.jobs w)]> (Pinecone.job_index w))
    (Pinecone.content_index w) (S (S (S (Pinecone.clock_reads w)))).

(** The services work: the embedding model answers for every text and
    the store accepts every fetch and upsert. *)
Definition services_work (sv : Pinecone.services) : Prop :=
  (∀ text, ∃ embedding, Pinecone.encode sv text = Returns embedding) ∧
  (∀ n ids ns, Pinecone.fetch_outcome sv n ids ns = Returns true) ∧
  (∀ n vs ns, Pinecone.upsert_fault sv n vs ns = None).

(** The match carries no creation timestamp: it has no metadata, or its
    metadata has no key ['created_at']. *)
Definition no_created_at (m : Pinecone.scored_match) : Prop :=
  ∀ md, Pinecone.match_metadata m = Some md → md !! "created_at" = None.

(** The key of a decorated element is the string [t]. *)
Definition key_is {A} (t : string) (p : Py.value * A) : bool :=
  match p.1 with
  | Py.VStr s => String.eqb s t
  | _ => false
  end.

(** The record was created at [t]. *)
Definition created_at_is (t : string) (d : Py.dict) : bool :=
  match d !! "created_at" with
  | Some (Py.VStr s) => String.eqb s t
  | _ => false
  end.

(** Strings are compared with strings, numbers with numbers. *)
Definition is_str (v : Py.value) : bool :=
  match v with
  | Py.VStr _ => true
  | _ => false
  end.


(** Services whose query surfaces two records, the second without a
    creation timestamp. *)
Definition partial_matches : list Pinecone.scored_match :=
  [Pinecone.Match "89691093eed5" 1%float
     (Some (pending_metadata "89691093eed5" "quantum computing" "alice"
              "2024-05-01T10:00:00.001001" "2024-05-01T10:00:00.001002"));
   Pinecone.Match "legacy" 0.5%float (Some {["topic" := Py.VStr "an older record"]})].

Definition partial_services : Pinecone.services :=
  {| Pinecone.encode := λ _, Returns [];
     Pinecone.clock := Pinecone.ticking_clock;
     Pinecone.fetch_outcome := λ _ _ _, Returns true;
     Pinecone.upsert_fault := λ _ _ _, None;
     Pinecone.query_outcome := λ _ _ _ _ _ _, Returns partial_matches;
     Pinecone.repr_float := λ _, "1.0" |}.

(** All the keys of a decorated list are strings, or none is. *)
Definition homogeneous {A} (l : list (Py.value * A)) : Prop :=
  ∃ b, Forall (λ p, is_str p.1 = b) l.

(** Services whose query surfaces three records, the first two created
    at the same instant. *)
Definition tied_matches : list Pinecone.scored_match :=
  [Pinecone.Match "aaaaaaaaaaaa" 0.75%float
     (Some (pending_metadata "aaaaaaaaaaaa" "graph databases" "bob"
              "2024-05-01T10:00:00.001001" "2024-05-01T10:00:00.001002"));
   Pinecone.Match "bbbbbbbbbbbb" 0.5%float
     (Some (pending_metadata "bbbbbbbbbbbb" "protein folding" "alice"
              "2024-05-01T10:00:00.001001" "2024-05-01T10:00:00.001005"));
   Pinecone.Match "cccccccccccc" 0.25%float
     (Some (pending_metadata "cccccccccccc" "quantum computing" "carol"
              "2024-05-01T10:00:00.001007" "2024-05-01T10:00:00.001008"))].

Definition tied_services : Pinecone.services :=
  {| Pinecone.encode := λ _, Returns [];
     Pinecone.clock := Pinecone.ticking_clock;
     Pinecone.fetch_outcome := λ _ _ _, Returns true;
     Pinecone.upsert_fault := λ _ _ _, None;
     Pinecone.query_outcome := λ _ _ _ _ _ _, Returns tied_matches;
     Pinecone.repr_float := λ _, "1.0" |}.


(** ** Storing sources ([ContentManager.store_source]) *)

Module Content.
Import Py Pinecone.

(** [f"{job_id}_{hashlib.md5(url.encode()).hexdigest()[:8]}"] *)
Definition source_id_of (job_id url : string) : string :=
  job_id +:+ "_" +:+ PyStr.take 8 (Hashlib.md5_hexdigest (Hashlib.encode url)).

(** [type(v).__name__]; [None] stands for Python's [None]. *)
Definition type_name (v : option value) : string :=
  match v with
  | None => "NoneType"
  | Some (VStr _) => "str"
  | Some (VInt _) => "int"
  | Some (VFloat _) => "float"
  end.

(** [url.encode()] exists on strings only: on another value the lookup
    of the attribute raises, with the text CPython gives. *)
Definition encodable (url : option value) : outcome string :=
  match url with
  | Some (VStr u) => Returns u
  | _ => Raises (Exn "AttributeError"
                   ("'" +:+ type_name url +:+ "' object has no attribute 'encode'"))
  end.

(** [content[:1000]], which comes before [len(content)], exists on
    strings only. *)
Definition sliceable (content : value) : outcome string :=
  match content with
  | VStr c => Returns c
  | _ => Raises (Exn "TypeError"
                   ("'" +:+ type_name (Some content) +:+ "' object is not subscriptable"))
  end.

(** [str(title)] in the f-string. *)
Definition title_text (repr : float → string) (title : option value) : string :=
  match title with
  | Some t => Py.str repr t
  | None => "None"
  end.

(** The metadata of a source.  A title that is [None] is no metadata
    value and has no entry. *)
Definition source_metadata (source_id job_id url : string) (title : option value)
    (content : string) (credibility_score : value) (scraped_at : string) : dict :=
  let fields : dict :=
    list_to_map
      [("source_id", VStr source_id); ("job_id", VStr job_id); ("url", VStr url);
       ("content_preview", VStr (PyStr.take 1000 content));
       ("credibility_score", credibility_score);
       ("scraped_at", VStr scraped_at);
       ("content_length", VInt (Z.of_nat (String.length content)));
       ("source_type", VStr "web_article")] in
  match title with
  | Some t => <["title" := t]> fields
  | None => fields
  end.

Section WithServices.
Context (sv : services).

(** [store_source(job_id, url, title, content, credibility_score)], on
    the values a caller may pass. *)
Definition store_source (job_id : string) (url title : option value)
    (content credibility_score : value) : M world string :=
  url_str ← lift_outcome (encodable url);
  let source_id := source_id_of job_id url_str in
  content_str ← lift_outcome (sliceable content);
  scraped_at ← now sv;
  let metadata :=
    source_metadata source_id job_id url_str title content_str credibility_score scraped_at in
  let embedding_text :=
    "Title: " +:+ title_text (repr_float sv) title +:+ " Content: " +:+ content_str in
  embedding ← _generate_embedding sv embedding_text;
  upsert sv ContentIndex [Vector source_id embedding metadata] (job_namespace job_id);;
  mret source_id.

End WithServices.

End Content.

(** The sources of a job, stored under the namespace ["job_" + job_id]. *)
Definition sources (w : Pinecone.world) (job_id : string) : gmap string Pinecone.vector :=
  Pinecone.namespace_of (Pinecone.content_index w) (Pinecone.job_namespace job_id).

(** The state after a successful [store_source]. *)
Definition stored_world (w : Pinecone.world) (job_id : string) (v : Pinecone.vector)
  : Pinecone.world :=
  Pinecone.World (Pinecone.job_index w)
    (<[Pinecone.job_namespace job_id := <[Pinecone.v_id v := v]> (sources w job_id)]>
       (Pinecone.content_index w))
    (S (Pinecone.clock_reads w)).


(** ** The search tool ([SerpAPISearchTool._run]) *)

Module Search.
Import Py Pinecone.

(** The tool: its API key, and whether [pinecone_ops] is set. *)
Record tool := { api_key : string; pinecone_ops : bool }.

(** [GoogleSearch({"q": q, "api_key": key, "num": num}).get_dict()], an
    external call. *)
Record search_api := { get_dict : string → string → Z → outcome Tools.raw_results }.

Section WithServices.
Context (api : search_api) (sv : services).

(** The loop over the formatted results. *)
Fixpoint store_results (job_id : string) (formatted_results : list dict) : M world unit :=
  match formatted_results with
  | [] => mret tt
  | result :: rest =>
      Content.store_source sv job_id (result !! "url") (result !! "title")
        (get result "snippet" (VStr "")) (get result "relevance_score" (VFloat 0.5));;
      store_results job_id rest
  end.

Definition _run (t : tool) (query : string) (job_id : option string) (max_results : Z)
  : M world (list dict) :=
  results ← lift_outcome (get_dict api query (api_key t) max_results);
  formatted_results ← lift_outcome (Tools._format_results results);
  (if str_truthy job_id && pinecone_ops t
      && match formatted_results with [] => false | _ => true end
   then store_results (default "" job_id) formatted_results
   else mret tt);;
  mret formatted_results.

End WithServices.

(** A search API that answers every query with [Tools.sample_response]. *)
Definition sample_api : search_api := {| get_dict := λ _ _ _, Returns Tools.sample_response |}.

End Search.

(** What [_format_results] makes of an organic result at position [p]. *)
Definition formatted_result (r : Py.dict) (p : Z) : Py.dict :=
  list_to_map
    [("url", Py.get r "link" (Py.VStr ""));
     ("title", Py.get r "title" (Py.VStr ""));
     ("snippet", Py.get r "snippet" (Py.VStr ""));
     ("content", Py.get r "snippet" (Py.VStr ""));
     ("relevance_score", Py.VFloat (Py.int_truediv 1 p))].

(** An organic result as the search API sends it: an integer position
    from 1 upwards, and strings for the link and the snippet where it has
    them. *)
Definition organic (r : Py.dict) (p : Z) (link snippet : string) : Prop :=
  r !! "position" = Some (Py.VInt p) ∧ (1 ≤ p)%Z ∧
  Py.get r "link" (Py.VStr "") = Py.VStr link ∧
  Py.get r "snippet" (Py.VStr "") = Py.VStr snippet.

Definition is_organic (r : Py.dict) : Prop := ∃ p link snippet, organic r p link snippet.

(** The id under which the search tool stores the organic result [r]. *)
Definition result_source_id (job_id : string) (r : Py.dict) : string :=
  match Py.get r "link" (Py.VStr "") with
  | Py.VStr link => Content.source_id_of job_id link
  | _ => EmptyString
  end.


(** ** The retrieval tool ([src/tools/rag_tool.py]) *)

Module Rag.
Import Py Pinecone.

(** The line feed. *)
Definition nl : string := String (ascii_of_nat 10) EmptyString.

(** [float(z)], which raises when [z] is too large. *)
Definition float_of_int (z : Z) : outcome float :=
  let f := SF2Prim (binary_normalize prec emax z 0 false) in
  if PrimFloat.is_infinity f
  then Raises (Exn "OverflowError" "int too large to convert to float")
  else Returns f.

(** [f"{v:.3f}"]; [fixed3] prints a float with three decimals, an
    external function. *)
Definition format_3f (fixed3 : float → string) (v : value) : outcome string :=
  match v with
  | VFloat f => Returns (fixed3 f)
  | VInt z => f ← float_of_int z; Returns (fixed3 f)
  | VStr _ => Raises (Exn "ValueError" "Unknown format code 'f' for object of type 'str'")
  end.

Section WithServices.
Context (sv : services) (fixed3 : float → string).

(** [PineconeRAGTool._run] *)
Definition _run (query : string) (job_id : option string) (top_k : Z) : M world (list dict) :=
  try_except
    (contexts ← search_content sv query job_id top_k;
     mret contexts)
    (λ e, mret [ {["error" := VStr ("RAG retrieval failed: " +:+ exn_str e)]} ]).

(** The loop [for i, ctx in enumerate(contexts, 1)] of
    [get_context_string]: the text it appends. *)
Fixpoint render (i : nat) (contexts : list dict) : outcome string :=
  match contexts with
  | [] => Returns EmptyString
  | ctx :: rest =>
      title ← getitem ctx "title";
      url ← getitem ctx "url";
      preview ← getitem ctx "content_preview";
      score ← getitem ctx "relevance_score";
      relevance ← format_3f fixed3 score;
      tail ← render (S i) rest;
      Returns ("Source " +:+ pretty i +:+ ": " +:+ Py.str (repr_float sv) title +:+ nl +:+
               "URL: " +:+ Py.str (repr_float sv) url +:+ nl +:+
               "Content: " +:+ Py.str (repr_float sv) preview +:+ nl +:+
               "Relevance: " +:+ relevance +:+ nl +:+ nl +:+ tail)
  end.

Definition get_context_string (query : string) (job_id : option string) (top_k : Z)
  : M world string :=
  contexts ← _run query job_id top_k;
  match contexts with
  | [] => mret "No relevant context found."
  | first :: _ =>
      if bool_decide (is_Some (first !! "error")) then mret "No relevant context found."
      else
        body ← lift_outcome (render 1 contexts);
        mret ("Relevant context:" +:+ nl +:+ nl +:+ body)
  end.

Definition get_similar_research (topic : string) (limit : Z) : M world (list dict) :=
  try_except
    (similar_jobs ← search_jobs_by_topic sv topic limit;
     mret similar_jobs)
    (λ e, mret [ {["error" := VStr ("Similar research search failed: " +:+ exn_str e)]} ]).

End WithServices.

End Rag.

(** The match carries a source as [store_source] files it, title
    included. *)
Definition source_record (m : Pinecone.scored_match) : Prop :=
  ∃ source_id job_id url title content credibility_score scraped_at,
    Pinecone.match_metadata m =
      Some (Content.source_metadata source_id job_id url (Some title) content
              credibility_score scraped_at).

(** Services whose query surfaces two sources of the job [89691093eed5],
    as [store_source] files them. *)
Definition library_matches : list Pinecone.scored_match :=
  [Pinecone.Match "89691093eed5_f5a3a4cd" 0.75%float
     (Some (Content.source_metadata "89691093eed5_f5a3a4cd" "89691093eed5"
              "https://a.example/qc" (Some (Py.VStr "Quantum computing")) "An overview."
              (Py.VFloat 1) "2024-05-01T10:00:00.001003"));
   Pinecone.Match "89691093eed5_0c1d2e3f" 0.5%float
     (Some (Content.source_metadata "89691093eed5_0c1d2e3f" "89691093eed5"
              "https://b.example/qubits" (Some (Py.VStr "Qubits")) "What a qubit is."
              (Py.VFloat 0.5) "2024-05-01T10:00:00.001004"))].

Definition library_services : Pinecone.services :=
  {| Pinecone.encode := λ _, Returns [];
     Pinecone.clock := Pinecone.ticking_clock;
     Pinecone.fetch_outcome := λ _ _ _, Returns true;
     Pinecone.upsert_fault := λ _ _ _, None;
     Pinecone.query_outcome := λ _ _ _ _ _ _, Returns library_matches;
     Pinecone.repr_float := λ _, "1.0" |}.


(** ** The error handler ([src/utils/helpers.py]) *)

Module Handler.
Import Py Pinecone.

Inductive ErrorType :=
| NETWORK_ERROR | API_ERROR | PARSING_ERROR | PINECONE_ERROR
| AGENT_ERROR | TIMEOUT_ERROR | EMBEDDING_ERROR.

(** [ErrorType.value] *)
Definition error_type_value (t : ErrorType) : string :=
  match t with
  | NETWORK_ERROR => "network_error"
  | API_ERROR => "api_error"
  | PARSING_ERROR => "parsing_error"
  | PINECONE_ERROR => "pinecone_error"
  | AGENT_ERROR => "agent_error"
  | TIMEOUT_ERROR => "timeout_error"
  | EMBEDDING_ERROR => "embedding_error"
  end.

(** The exception handed to [handle_error]: a [ResearchError] with its
    three attributes, or an instance of another class. *)
Inductive error :=
| ResearchError (error_type : ErrorType) (message : string) (details : dict)
| OtherError (e : exn).

(** [ResearchError.__init__], where [details or {}] turns [None] into the
    empty dictionary. *)
Definition new_research_error (error_type : ErrorType) (message : string)
    (details : option dict) : error :=
  ResearchError error_type message (default ∅ details).

(** The dictionary with the keys ['type'], ['message'] and ['details']. *)
Record error_info := ErrorInfo {
  info_type : string;
  info_message : string;
  info_details : dict
}.

Definition describe (error : error) : error_info :=
  match error with
  | ResearchError error_type message details =>
      ErrorInfo (error_type_value error_type) message details
  | OtherError e =>
      ErrorInfo "unknown_error" (exn_str e) {["exception_type" := VStr (exn_class e)]}
  end.

Section WithServices.
Context (sv : services).

(** [PineconeErrorHandler.handle_error].  [PineconeOperations] sets the
    attributes [research_manager] and [content_manager] only, so reading
    [self.pinecone_ops.sql_manager] raises [AttributeError]. *)
Definition handle_error (job_id : string) (error : error) : M world error_info :=
  let error_info := describe error in
  try_except
    (if String.prefix "sql_" job_id
     then raise (Exn "AttributeError"
                   "'PineconeOperations' object has no attribute 'sql_manager'")
     else
       _ ← update_job_status sv job_id "error" None (Some (info_message error_info)) None;
       mret tt)
    (λ update_error, mret tt);;
  mret error_info.

(** [get_user_friendly_message] on a member of [ErrorType]. *)
Definition get_user_friendly_message (error_type : ErrorType) : string :=
  match error_type with
  | NETWORK_ERROR => "Unable to connect to external services. Please try again later."
  | API_ERROR => "External API is currently unavailable. Please try again later."
  | PARSING_ERROR => "Unable to process the retrieved content. Please try a different topic."
  | PINECONE_ERROR => "Vector database error. Please contact support."
  | AGENT_ERROR => "AI agent encountered an error. Please try again with a more specific topic."
  | TIMEOUT_ERROR => "Request timed out. Please try again or contact support."
  | EMBEDDING_ERROR => "Text embedding generation failed. Please try again."
  end.

End WithServices.

End Handler.

(** A store with one job whose id starts with [sql_]. *)
Definition sql_job_world : Pinecone.world :=
  Pinecone.World
    {["jobs" := {["sql_7f3a" :=
        Pinecone.Vector "sql_7f3a" []
          (pending_metadata "sql_7f3a" "monthly revenue" "anonymous"
             "2024-05-01T10:00:00.001000" "2024-05-01T10:00:00.001001")]} ]}
    ∅ 2.

(** The record of the job of [one_job_world]. *)
Definition one_job_record : Pinecone.vector :=
  Eval vm_compute in
    default (Pinecone.Vector "" [] ∅)
      (Pinecone.jobs Pinecone.one_job_world !! Pinecone.one_job_id).


(** ** Index creation ([PineconeDataManager._initialize_indexes])

    The state is the list of indexes of the account, oldest first; the
    three calls of the client library may fail. *)

Module Setup.

Record index_model := IndexModel {
  name : string;
  dimension : Z;
  metric : string;
  cloud : string;
  region : string
}.

Abbreviation account := (list index_model).

Record control_plane := {
  list_indexes_fault : option exn;
  create_index_fault : index_model → option exn;
  connect_fault : string → option exn
}.

(** [self.indexes], in the order of its items. *)
Definition indexes : list (string * string) :=
  [("research_jobs", "cognito-jobs"); ("research_content", "cognito-content")].

Section WithControlPlane.
Context (pc : control_plane).

Definition list_indexes : M account (list index_model) :=
  match list_indexes_fault pc with
  | Some e => raise e
  | None => get_state
  end.

Definition create_index (spec : index_model) : M account unit :=
  match create_index_fault pc spec with
  | Some e => raise e
  | None => modify_state (λ a, a ++ [spec])
  end.

(** [self.pc.Index(name)] *)
Definition Index (pinecone_name : string) : M account string :=
  match connect_fault pc pinecone_name with
  | Some e => raise e
  | None => mret pinecone_name
  end.

(** The loop [for index_name, pinecone_name in self.indexes.items()]. *)
Fixpoint create_missing (existing_indexes : list string) (items : list (string * string))
  : M account unit :=
  match items with
  | [] => mret tt
  | (index_name, pinecone_name) :: rest =>
      (if bool_decide (pinecone_name ∈ existing_indexes) then mret tt
       else create_index (IndexModel pinecone_name 384 "cosine" "aws" "us-east-1"));;
      create_missing existing_indexes rest
  end.

(** [_initialize_indexes]; the result is the pair of [self.job_index]
    and [self.content_index]. *)
Definition _initialize_indexes : M account (string * string) :=
  listed ← list_indexes;
  let existing_indexes := name <$> listed in
  create_missing existing_indexes indexes;;
  job_index ← Index "cognito-jobs";
  content_index ← Index "cognito-content";
  mret (job_index, content_index).

End WithControlPlane.

(** A control plane without faults, and an account that already has an
    index of the name [cognito-jobs], of another dimension. *)
Definition reliable_plane : control_plane :=
  {| list_indexes_fault := None;
     create_index_fault := λ _, None;
     connect_fault := λ _, None |}.

Definition legacy_account : account :=
  [IndexModel "cognito-jobs" 768 "euclidean" "gcp" "us-west1"].

End Setup.

(** None of the calls of the client library fails. *)
Definition plane_works (pc : Setup.control_plane) : Prop :=
  Setup.list_indexes_fault pc = None ∧
  (∀ spec, Setup.create_index_fault pc spec = None) ∧
  (∀ n, Setup.connect_fault pc n = None).

(** The index is as [_initialize_indexes] creates one. *)
Definition as_created (spec : Setup.index_model) : Prop :=
  (Setup.name spec = "cognito-jobs" ∨ Setup.name spec = "cognito-content") ∧
  Setup.dimension spec = 384%Z ∧ Setup.metric spec = "cosine" ∧
  Setup.cloud spec = "aws" ∧ Setup.region spec = "us-east-1".


(** ** The button handler of the page ([src/app.py])

    The calls that only draw on the page are left out.  The state is the
    vector store together with [st.session_state.current_job_id]. *)

Module App.
Import Py Pinecone.

Record app_state := AppState {
  store : world;
  current_job_id : option string
}.

Definition on_store {A} (c : M world A) : M app_state A := λ s,
  match c (store s) with
  | (o, w') => (o, AppState w' (current_job_id s))
  end.

Definition set_current_job_id (job_id : string) : M app_state unit :=
  modify_state (λ s, AppState (store s) (Some job_id)).

Section WithServices.
Context (sv : services).

(** The outcome of [PineconeOperations(...)], which loads the embedding
    model and creates the indexes. *)
Context (construct : outcome unit).

(** Steps 3 to 5 of the [try] block for a topic and a job id: the tools
    are built, the agent framework runs the crew, and the result is
    filed and shown. *)
Context (research : string → string → M app_state unit).

(** The [except] branch.  The name [pinecone_ops] is bound only when
    the constructor has returned. *)
Definition error_branch (pinecone_ops_bound : bool) (e : exn) : M app_state unit :=
  s ← get_state;
  if str_truthy (current_job_id s) then
    if pinecone_ops_bound then
      _ ← on_store (update_research_job sv (default "" (current_job_id s)) "error"
                      None (Some (exn_str e)) None);
      mret tt
    else raise (Exn "NameError" "name 'pinecone_ops' is not defined")
  else mret tt.

(** What [if st.button("Start Research"):] runs; [keys_given] is
    [all([serpapi_api_key, pinecone_api_key, groq_api_key])]. *)
Definition start_research (topic : string) (keys_given : bool) : M app_state unit :=
  if str_truthy (Some topic) then
    if negb keys_given then mret tt
    else
      match construct with
      | Raises e => error_branch false e
      | Returns _ =>
          try_except
            (job_info ← on_store (create_research_job sv topic "anonymous");
             match job_info !! "job_id" with
             | None => raise (Exn "KeyError" "'job_id'")
             | Some job_id =>
                 set_current_job_id job_id;;
                 research topic job_id
             end)
            (error_branch true)
      end
  else mret tt.

End WithServices.

(** An embedding model that fails on the text of a job that is being
    created. *)
Definition create_failing_services : services :=
  {| encode := λ text,
       if PyStr.contains "Status: pending" text
       then Raises (Exn "RuntimeError" "out of memory")
       else Returns [];
     clock := ticking_clock;
     fetch_outcome := λ _ _ _, Returns true;
     upsert_fault := λ _ _ _, None;
     query_outcome := mock_query;
     repr_float := λ _, "1.0" |}.

End App.

(** Steps 3 to 5 raise [e] for this topic and job, and touch neither the
    job id of the session nor the record of the job. *)
Definition research_fails (research : string → string → M App.app_state unit)
    (topic job_id : string) (e : exn) : Prop :=
  ∀ s, ∃ s',
    research topic job_id s = (Raises e, s') ∧
    App.current_job_id s' = App.current_job_id s ∧
    Pinecone.jobs (App.store s') !! job_id = Pinecone.jobs (App.store s) !! job_id.

(** Steps 3 to 5 when every kickoff of the crew is rate-limited. *)
Definition rate_limited_research : string → string → M App.app_state unit :=
  λ _ _, raise (Exn "RateLimitError" "Error code: 429 - Rate_Limit reached for model").

(** A session that holds the job of [one_job_world], and the store after
    a failed creation and after the failure has been filed. *)
Definition earlier_session : App.app_state :=
  App.AppState Pinecone.one_job_world (Some Pinecone.one_job_id).

Definition after_failed_create : Pinecone.world :=
  Eval vm_compute in
    (Pinecone.create_research_job App.create_failing_services "graph databases" "anonymous"
       Pinecone.one_job_world).2.

Definition after_marking : Pinecone.world :=
  Eval vm_compute in
    (Pinecone.update_research_job App.create_failing_services Pinecone.one_job_id "error"
       None (Some "out of memory") None after_failed_create).2.

(** The store after the job of [one_job_world] has been completed with a
    report, a note on a skipped source and three sources. *)
Definition reported_job_world : Pinecone.world :=
  Eval vm_compute in
    (Pinecone.update_job_status Pinecone.mock_services Pinecone.one_job_id "complete"
       (Some "# Findings") (Some "1 source skipped") (Some 3%Z) Pinecone.one_job_world).2.

(** * Properties *)

(** ** The model on known values

    The digests are those of RFC 1321 and of CPython's [hashlib]; the
    quotients are those of CPython ([(1/3).hex()] is
    [0x1.5555555555555p-2]). *)

Example md5_known_digests :
  Hashlib.md5_hexdigest (Hashlib.encode "") = "d41d8cd98f00b204e9800998ecf8427e" ∧
  Hashlib.md5_hexdigest (Hashlib.encode "abc") = "900150983cd24fb0d6963f7d28e17f72" ∧
  Hashlib.md5_hexdigest
    (Hashlib.encode "research_test topic_2024-01-01T12:00:00.123456")
    = "a95a599bcf03ce5b5c477d1f9d40c82d".
Proof. repeat split; vm_compute; reflexivity. Qed.

Example int_truediv_known_quotients :
  Py.int_truediv 1 1 = 1%float ∧
  Py.int_truediv 1 2 = 0.5%float ∧
  Py.int_truediv 1 3 = 0x1.5555555555555p-2%float ∧
  Py.int_truediv 1 (10 ^ 400) = 0%float.
Proof. repeat split; vm_compute; reflexivity. Qed.

Example lower_and_contains :
  PyStr.lower "Error code: 429 - Rate_Limit reached" = "error code: 429 - rate_limit reached" ∧
  PyStr.contains "rate_limit" "error code: 429 - rate_limit reached" = true ∧
  PyStr.contains "ratelimit" "error code: 429 - rate_limit reached" = false.
Proof. repeat split; vm_compute; reflexivity. Qed.

(** The stored examples are what [create_job] produces. *)
Example example_worlds_are_created :
  let create := Pinecone.create_job Pinecone.mock_services in
  (create "quantum computing" "alice" Pinecone.empty_world).2 = Pinecone.one_job_world ∧
  returned_job_id (create "quantum computing" "alice" Pinecone.empty_world)
    = Some Pinecone.one_job_id ∧
  (create "quantum computing" "carol"
     (create "protein folding" "alice"
        (create "graph databases" "bob" Pinecone.one_job_world).2).2).2
    = Pinecone.four_jobs_world ∧
  Pinecone.mock_query Pinecone.JobIndex (Pinecone.job_index Pinecone.four_jobs_world) [] 10
    (Some "jobs") (Some (Pinecone.history_filter None)) = Returns Pinecone.four_jobs_matches ∧
  length Pinecone.four_jobs_matches = 4.
Proof. repeat split; vm_compute; reflexivity. Qed.

Example slice_to_examples :
  Py.slice_to 2 [1; 2; 3] = [1; 2] ∧ Py.slice_to 5 [1; 2; 3] = [1; 2; 3] ∧
  Py.slice_to (-1) [1; 2; 3] = [1; 2] ∧ Py.slice_to (-7) [1; 2; 3] = [].
Proof. repeat split; reflexivity. Qed.

(** The sort is stable, and it raises on keys that [<] does not compare. *)
Example sort_desc_examples :
  Py.sort_desc [(Py.VStr "b", 1); (Py.VStr "c", 2); (Py.VStr "b", 3); (Py.VStr "a", 4)]
    = Returns [(Py.VStr "c", 2); (Py.VStr "b", 1); (Py.VStr "b", 3); (Py.VStr "a", 4)] ∧
  Py.sort_desc [(Py.VInt 1, 1); (Py.VStr "a", 2)]
    = Raises (Exn "TypeError" "'<' not supported between instances").
Proof. split; vm_compute; reflexivity. Qed.

(** A response without the key ['organic_results'] formats to the empty
    list; a result at position 0 makes the division raise. *)
Example format_results_edge_cases :
  Tools._format_results {| Tools.organic_results := None |} = Returns [] ∧
  Tools._format_results {| Tools.organic_results := Some [{["position" := Py.VInt 0]}] |}
    = Raises (Exn "ZeroDivisionError" "division by zero").
Proof. split; vm_compute; reflexivity. Qed.

(** ** The retry loop *)

Section RunResearch.
Import Crew.
Variable c : crew.
Variable topic : string.

Lemma sleep_run n (tr : trace) : sleep n tr = (Returns tt, tr ++ [ESleep n]).
Proof. reflexivity. Qed.

Lemma kickoff_count_app (tr1 tr2 : trace) :
  kickoff_count (tr1 ++ tr2) = kickoff_count tr1 + kickoff_count tr2.
Proof. unfold kickoff_count. by rewrite List.filter_app, length_app. Qed.

(** One iteration whose kickoff raises an error that is retried: the
    loop goes on iff attempts remain, and only then sleeps. *)
Lemma attempt_body_retryable maxr delay attempt (tr : trace) e :
  kickoff_outcome c topic
    (kickoff_count (if 0 <? attempt then tr ++ [ESleep delay] else tr)) = Raises e →
  is_rate_limit e || is_empty_response e = true →
  attempt_body c topic maxr delay attempt tr =
    let tr' := (if 0 <? attempt then tr ++ [ESleep delay] else tr) ++ [EKickoff topic] in
    if attempt <? maxr - 1 then (Returns None, tr' ++ [ESleep delay])
    else (Raises e, tr').
Proof.
  intros Hk Hr.
  unfold attempt_body, try_except, mbind, M_bind, kickoff, sleep, modify_state, mret, M_ret, raise.
  destruct (0 <? attempt); cbv beta iota zeta; rewrite Hk;
    destruct (is_rate_limit e); cbn [orb] in Hr; try rewrite Hr;
    destruct (attempt <? maxr - 1); reflexivity.
Qed.

(** One iteration whose kickoff raises any other error. *)
Lemma attempt_body_fatal maxr delay attempt (tr : trace) e :
  kickoff_outcome c topic
    (kickoff_count (if 0 <? attempt then tr ++ [ESleep delay] else tr)) = Raises e →
  is_rate_limit e = false → is_empty_response e = false →
  attempt_body c topic maxr delay attempt tr =
    (Raises e, (if 0 <? attempt then tr ++ [ESleep delay] else tr) ++ [EKickoff topic]).
Proof.
  intros Hk H1 H2.
  unfold attempt_body, try_except, mbind, M_bind, kickoff, sleep, modify_state, mret, M_ret, raise.
  destruct (0 <? attempt); cbv beta iota zeta; rewrite Hk, H1, H2; reflexivity.
Qed.

Lemma kickoff_count_presleep delay attempt (tr : trace) :
  kickoff_count (if 0 <? attempt then tr ++ [ESleep delay] else tr) = kickoff_count tr.
Proof.
  destruct (0 <? attempt); [|done].
  rewrite kickoff_count_app. cbn. lia.
Qed.

(** The loop over the attempts [a, a+1, ..., a+n-1], entered after [a]
    kickoffs: when the attempts before the [k]-th fail with retried
    errors and the [k]-th fails with another error, the loop stops
    there. *)
Lemma retry_loop_fatal maxr delay k e :
  k < maxr →
  (∀ j, j < k → ∃ e', kickoff_outcome c topic j = Raises e' ∧
                      is_rate_limit e' || is_empty_response e' = true) →
  kickoff_outcome c topic k = Raises e →
  is_rate_limit e = false → is_empty_response e = false →
  ∀ n a (tr : trace),
    kickoff_count tr = a → a ≤ k → k < a + n →
    ∃ tr', for_each (seq a n) (attempt_body c topic maxr delay) tr
             = (Raises e, tr' ++ [EKickoff topic])
           ∧ kickoff_count tr' = k.
Proof.
  intros Hk Hbefore Hat Hrl Hemp.
  induction n as [|n IH]; intros a tr Hcount Hle Hlt; [lia|].
  cbn [seq for_each]. unfold mbind at 1, M_bind at 1.
  destruct (decide (a = k)) as [->|Hne].
  - rewrite attempt_body_fatal with (e := e);
      rewrite ?kickoff_count_presleep, ?Hcount; try done.
    eexists; split; [reflexivity|]. by rewrite kickoff_count_presleep.
  - destruct (Hbefore a) as (e' & Hout & Hretry); [lia|].
    rewrite attempt_body_retryable with (e := e');
      rewrite ?kickoff_count_presleep, ?Hcount; try done.
    cbv zeta. replace (a <? maxr - 1) with true
      by (symmetry; apply Nat.ltb_lt; lia).
    apply IH; [|lia|lia].
    rewrite !kickoff_count_app, kickoff_count_presleep, Hcount. cbn. lia.
Qed.

End RunResearch.

(** C2.  With the attempt budget of 2, when every kickoff fails with a
    rate-limit error, [run_research] raises the error of the second
    attempt.  The trace is the initial cooldown, the first kickoff, the
    cooldown after the failure, the cooldown before the retry and the
    second kickoff: nothing is slept and nothing is attempted after the
    second failure. *)
Theorem run_research_rate_limit_exhausted (c : Crew.crew) (topic : string) :
  (∀ n, ∃ e, Crew.kickoff_outcome c topic n = Raises e ∧ Crew.is_rate_limit e = true) →
  ∃ e, Crew.kickoff_outcome c topic 1 = Raises e ∧
       Crew.run_research c topic [] =
         (Raises e, [Crew.ESleep 15; Crew.EKickoff topic; Crew.ESleep 60;
                     Crew.ESleep 60; Crew.EKickoff topic]).
Proof.
  intros Hall.
  destruct (Hall 0) as (e0 & H0 & R0), (Hall 1) as (e1 & H1 & R1).
  exists e1. split; [done|].
  unfold Crew.run_research, Crew.retry_loop, Crew.max_retries.
  cbn [seq for_each]. unfold mbind, M_bind. rewrite sleep_run.
  rewrite attempt_body_retryable with (e := e0); [|done|by rewrite R0].
  cbn -[Crew.attempt_body].
  rewrite attempt_body_retryable with (e := e1); [|done|by rewrite R1].
  reflexivity.
Qed.

Lemma run_research_rate_limit_exhausted_witness :
  ∃ e, Crew.kickoff_outcome Crew.rate_limited_crew "llm agents" 1 = Raises e ∧
       Crew.run_research Crew.rate_limited_crew "llm agents" [] =
         (Raises e, [Crew.ESleep 15; Crew.EKickoff "llm agents"; Crew.ESleep 60;
                     Crew.ESleep 60; Crew.EKickoff "llm agents"]).
Proof.
  apply (run_research_rate_limit_exhausted Crew.rate_limited_crew "llm agents").
  intros n. eexists. split; reflexivity.
Defined.

(** C6.  When the [k]-th kickoff is reached (the earlier ones failed with
    retried errors) and raises an error whose lower-cased text carries
    neither a rate-limit marker nor an empty/invalid-response marker,
    [run_research] raises that very error, and the trace ends with that
    kickoff: no retry and no cooldown follow it. *)
Theorem run_research_other_error_propagates (c : Crew.crew) (topic : string) (k : nat) (e : exn) :
  k < Crew.max_retries →
  (∀ j, j < k → ∃ e', Crew.kickoff_outcome c topic j = Raises e' ∧
                      Crew.is_rate_limit e' || Crew.is_empty_response e' = true) →
  Crew.kickoff_outcome c topic k = Raises e →
  Crew.is_rate_limit e = false →
  Crew.is_empty_response e = false →
  ∃ tr, Crew.run_research c topic [] = (Raises e, tr ++ [Crew.EKickoff topic]) ∧
        Crew.kickoff_count tr = k.
Proof.
  intros Hk Hbefore Hat Hrl Hemp.
  unfold Crew.run_research, Crew.retry_loop.
  unfold mbind at 1, M_bind at 1. rewrite sleep_run.
  eapply retry_loop_fatal; eauto; cbn; lia.
Qed.

Lemma run_research_other_error_propagates_witness :
  ∃ tr, Crew.run_research Crew.unauthorized_crew "llm agents" [] =
          (Raises (Exn "AuthenticationError" "Error code: 401 - Invalid API Key"),
           tr ++ [Crew.EKickoff "llm agents"]) ∧
        Crew.kickoff_count tr = 1.
Proof.
  apply (run_research_other_error_propagates Crew.unauthorized_crew "llm agents" 1).
  - unfold Crew.max_retries. lia.
  - intros j Hj. assert (j = 0) as -> by lia. eexists. split; reflexivity.
  - reflexivity.
  - reflexivity.
  - reflexivity.
Defined.

(** ** Job updates *)

Section JobUpdates.
Import Py Pinecone.
Context (sv : services).

Lemma fetch_single_lookup (m : gmap string vector) (job_id : string) :
  filter (λ kv : string * vector, kv.1 ∈ [job_id]) m !! job_id = m !! job_id.
Proof.
  destruct (m !! job_id) as [v|] eqn:Hm.
  - apply map_lookup_filter_Some. split; [done|]. cbn. set_solver.
  - apply map_lookup_filter_None. by left.
Qed.

(** [get_job] never raises and leaves the state alone: it answers with the
    stored record when the fetch works, and with [None] otherwise. *)
Lemma get_job_run job_id w :
  get_job sv job_id w =
    (Returns (match fetch_outcome sv JobIndex [job_id] "jobs" with
              | Returns true => jobs w !! job_id
              | _ => None
              end), w).
Proof.
  unfold get_job, try_except, fetch, mbind, M_bind, lift_outcome, get_state, mret, M_ret.
  destruct (fetch_outcome sv JobIndex [job_id] "jobs") as [[]|]; try reflexivity.
  cbn. by rewrite fetch_single_lookup.
Qed.

Lemma update_job_status_true_inv job_id status report error_message source_count w w' :
  update_job_status sv job_id status report error_message source_count w = (Returns true, w') →
  ∃ old embedding,
    jobs w !! job_id = Some old ∧
    w' = updated_world w job_id embedding
           (merge_update (v_metadata old) status (clock sv (clock_reads w))
              report error_message source_count).
Proof.
  unfold update_job_status, try_except.
  unfold mbind at 1, M_bind at 1. rewrite get_job_run.
  destruct (match fetch_outcome sv JobIndex [job_id] "jobs" with
            | Returns true => jobs w !! job_id | _ => None end) as [old|] eqn:Hold;
    [|cbn; congruence].
  assert (jobs w !! job_id = Some old) as Hjob.
  { destruct (fetch_outcome sv JobIndex [job_id] "jobs") as [[]|]; congruence. }
  unfold mbind, M_bind, now, _generate_embedding, lift_outcome, upsert, modify_state,
    mret, M_ret, raise.
  cbn [clock_reads job_index content_index].
  destruct (getitem _ "topic") as [topic|]; [|congruence].
  destruct (encode sv _) as [embedding|]; [|congruence].
  destruct (upsert_fault sv _ _ _) as [e|]; [congruence|].
  intros [= <-]. exists old, embedding. split; [done|]. reflexivity.
Qed.

(** What [merge_update] stores under each key. *)
Lemma merge_update_status md status ts report err sc :
  merge_update md status ts report err sc !! "status" = Some (VStr status).
Proof. unfold merge_update. repeat case_match; by simplify_map_eq. Qed.

Lemma merge_update_updated_at md status ts report err sc :
  merge_update md status ts report err sc !! "updated_at" = Some (VStr ts).
Proof. unfold merge_update. repeat case_match; by simplify_map_eq. Qed.

Lemma merge_update_report md status ts report err sc :
  merge_update md status ts report err sc !! "report" =
    if str_truthy report then Some (VStr (default "" report)) else md !! "report".
Proof. unfold merge_update. repeat case_match; by simplify_map_eq. Qed.

Lemma merge_update_error_message md status ts report err sc :
  merge_update md status ts report err sc !! "error_message" =
    if str_truthy err then Some (VStr (default "" err)) else md !! "error_message".
Proof. unfold merge_update. repeat case_match; by simplify_map_eq. Qed.

Lemma merge_update_source_count md status ts report err sc :
  merge_update md status ts report err sc !! "source_count" =
    match sc with Some n => Some (VInt n) | None => md !! "source_count" end.
Proof. unfold merge_update. repeat case_match; by simplify_map_eq. Qed.

Lemma merge_update_other md status ts report err sc (k : string) :
  k ∉ ["status"; "updated_at"; "report"; "error_message"; "source_count"] →
  merge_update md status ts report err sc !! k = md !! k.
Proof.
  intros Hk. unfold merge_update.
  assert (k ≠ "status" ∧ k ≠ "updated_at" ∧ k ≠ "report" ∧ k ≠ "error_message"
          ∧ k ≠ "source_count") as (? & ? & ? & ? & ?)
    by (repeat split; intros ->; apply Hk; set_solver).
  repeat case_match; by simplify_map_eq.
Qed.

Lemma updated_world_lookup w job_id embedding metadata :
  jobs (updated_world w job_id embedding metadata) !! job_id
    = Some (Vector job_id embedding metadata).
Proof. unfold jobs at 1, namespace_of, updated_world. by simplify_map_eq. Qed.

End JobUpdates.

(** C1.  For a job id under which no job record is stored,
    [update_job_status] returns [False] whatever the status and the
    optional arguments are; it does not raise, and it leaves the store
    and the clock untouched. *)
Theorem update_job_status_missing_job (sv : Pinecone.services) (job_id status : string)
    (report error_message : option string) (source_count : option Z) (w : Pinecone.world) :
  Pinecone.jobs w !! job_id = None →
  Pinecone.update_job_status sv job_id status report error_message source_count w
    = (Returns false, w).
Proof.
  intros Hmissing.
  unfold Pinecone.update_job_status, try_except.
  unfold mbind at 1, M_bind at 1. rewrite get_job_run, Hmissing.
  by destruct (Pinecone.fetch_outcome sv Pinecone.JobIndex [job_id] "jobs") as [[]|].
Qed.

Lemma update_job_status_missing_job_witness :
  Pinecone.update_job_status Pinecone.mock_services "0123456789ab" "complete"
      (Some "# Report") None (Some 3%Z) Pinecone.one_job_world
    = (Returns false, Pinecone.one_job_world).
Proof.
  apply (update_job_status_missing_job Pinecone.mock_services "0123456789ab").
  vm_compute. reflexivity.
Defined.

(** C5.  A successful [update_job_status] of a stored job rewrites its
    record so that every metadata key other than [status], [updated_at],
    [report], [error_message] and [source_count] keeps its value, in
    particular [job_id], [topic], [user_id], [job_type], [created_at],
    [namespace] and [processing_time_seconds]; [status] and [updated_at]
    take their new values, and each of [report], [error_message] and
    [source_count] that was not supplied keeps its value too. *)
Theorem update_job_status_frame (sv : Pinecone.services) (job_id status : string)
    (report error_message : option string) (source_count : option Z) (w w' : Pinecone.world) :
  Pinecone.update_job_status sv job_id status report error_message source_count w
    = (Returns true, w') →
  ∃ old new,
    Pinecone.jobs w !! job_id = Some old ∧
    Pinecone.jobs w' !! job_id = Some new ∧
    (∀ k : string,
       k ∉ ["status"; "updated_at"; "report"; "error_message"; "source_count"] →
       Pinecone.v_metadata new !! k = Pinecone.v_metadata old !! k) ∧
    Forall (λ k : string, Pinecone.v_metadata new !! k = Pinecone.v_metadata old !! k)
      ["job_id"; "topic"; "user_id"; "job_type"; "created_at"; "namespace";
       "processing_time_seconds"] ∧
    Pinecone.v_metadata new !! "status" = Some (Py.VStr status) ∧
    Pinecone.v_metadata new !! "updated_at"
      = Some (Py.VStr (Pinecone.clock sv (Pinecone.clock_reads w))) ∧
    (report = None →
     Pinecone.v_metadata new !! "report" = Pinecone.v_metadata old !! "report") ∧
    (error_message = None →
     Pinecone.v_metadata new !! "error_message" = Pinecone.v_metadata old !! "error_message") ∧
    (source_count = None →
     Pinecone.v_metadata new !! "source_count" = Pinecone.v_metadata old !! "source_count").
Proof.
  intros Hrun.
  apply update_job_status_true_inv in Hrun as (old & embedding & Hold & ->).
  eexists old, _. split; [done|]. split; [apply updated_world_lookup|].
  cbn [Pinecone.v_metadata].
  assert (∀ k : string,
    k ∉ ["status"; "updated_at"; "report"; "error_message"; "source_count"] →
    Pinecone.merge_update (Pinecone.v_metadata old) status
      (Pinecone.clock sv (Pinecone.clock_reads w)) report error_message source_count !! k
    = Pinecone.v_metadata old !! k) as Hframe
    by (intros k Hk; by apply merge_update_other).
  repeat split.
  - exact Hframe.
  - repeat constructor; apply Hframe; intros Hin;
      repeat (apply elem_of_cons in Hin as [Hin|Hin]; [discriminate Hin|]);
      by apply elem_of_nil in Hin.
  - apply merge_update_status.
  - apply merge_update_updated_at.
  - intros ->. by rewrite merge_update_report.
  - intros ->. by rewrite merge_update_error_message.
  - intros ->. by rewrite merge_update_source_count.
Qed.

Lemma update_job_status_frame_witness :
  let w := Pinecone.one_job_world in
  let w' := (Pinecone.update_job_status Pinecone.mock_services Pinecone.one_job_id "complete"
               (Some "# Findings") None (Some 3%Z) w).2 in
  ∃ old new,
    Pinecone.jobs w !! Pinecone.one_job_id = Some old ∧
    Pinecone.jobs w' !! Pinecone.one_job_id = Some new ∧
    (∀ k : string,
       k ∉ ["status"; "updated_at"; "report"; "error_message"; "source_count"] →
       Pinecone.v_metadata new !! k = Pinecone.v_metadata old !! k) ∧
    Forall (λ k : string, Pinecone.v_metadata new !! k = Pinecone.v_metadata old !! k)
      ["job_id"; "topic"; "user_id"; "job_type"; "created_at"; "namespace";
       "processing_time_seconds"] ∧
    Pinecone.v_metadata new !! "status" = Some (Py.VStr "complete") ∧
    Pinecone.v_metadata new !! "updated_at"
      = Some (Py.VStr (Pinecone.clock Pinecone.mock_services (Pinecone.clock_reads w))) ∧
    (Some "# Findings" = None →
     Pinecone.v_metadata new !! "report" = Pinecone.v_metadata old !! "report") ∧
    (@None string = None →
     Pinecone.v_metadata new !! "error_message" = Pinecone.v_metadata old !! "error_message") ∧
    (Some 3%Z = None →
     Pinecone.v_metadata new !! "source_count" = Pinecone.v_metadata old !! "source_count").
Proof.
  intros w w'.
  apply (update_job_status_frame Pinecone.mock_services Pinecone.one_job_id "complete"
           (Some "# Findings") None (Some 3%Z) w w').
  vm_compute. reflexivity.
Defined.

(** C10.  In a successful [update_job_status], a [report] equal to the
    empty string leaves the stored [report] as it was, and so does an
    empty [error_message] for the stored [error_message]; a non-empty
    string is written; a supplied [source_count] is written, 0
    included. *)
Theorem update_job_status_empty_strings (sv : Pinecone.services) (job_id status : string)
    (report error_message : option string) (source_count : option Z) (w w' : Pinecone.world) :
  Pinecone.update_job_status sv job_id status report error_message source_count w
    = (Returns true, w') →
  ∃ old new,
    Pinecone.jobs w !! job_id = Some old ∧
    Pinecone.jobs w' !! job_id = Some new ∧
    (report = Some EmptyString →
     Pinecone.v_metadata new !! "report" = Pinecone.v_metadata old !! "report") ∧
    (error_message = Some EmptyString →
     Pinecone.v_metadata new !! "error_message" = Pinecone.v_metadata old !! "error_message") ∧
    (∀ r, report = Some r → r ≠ EmptyString →
          Pinecone.v_metadata new !! "report" = Some (Py.VStr r)) ∧
    (∀ m, error_message = Some m → m ≠ EmptyString →
          Pinecone.v_metadata new !! "error_message" = Some (Py.VStr m)) ∧
    (source_count = Some 0%Z →
     Pinecone.v_metadata new !! "source_count" = Some (Py.VInt 0)) ∧
    (∀ n, source_count = Some n →
          Pinecone.v_metadata new !! "source_count" = Some (Py.VInt n)).
Proof.
  intros Hrun.
  apply update_job_status_true_inv in Hrun as (old & embedding & Hold & ->).
  eexists old, _. split; [done|]. split; [apply updated_world_lookup|].
  cbn [Pinecone.v_metadata].
  repeat split.
  - intros ->. by rewrite merge_update_report.
  - intros ->. by rewrite merge_update_error_message.
  - intros r -> Hr. rewrite merge_update_report. by destruct r.
  - intros m -> Hm. rewrite merge_update_error_message. by destruct m.
  - intros ->. by rewrite merge_update_source_count.
  - intros n ->. by rewrite merge_update_source_count.
Qed.

Lemma update_job_status_empty_strings_witness :
  let w := reported_job_world in
  let w' := (Pinecone.update_job_status Pinecone.mock_services Pinecone.one_job_id "error"
               (Some EmptyString) (Some EmptyString) (Some 0%Z) w).2 in
  (∃ stored,
     Pinecone.jobs w !! Pinecone.one_job_id = Some stored ∧
     Pinecone.v_metadata stored !! "report" = Some (Py.VStr "# Findings") ∧
     Pinecone.v_metadata stored !! "error_message" = Some (Py.VStr "1 source skipped") ∧
     Pinecone.v_metadata stored !! "source_count" = Some (Py.VInt 3)) ∧
  ∃ old new,
    Pinecone.jobs w !! Pinecone.one_job_id = Some old ∧
    Pinecone.jobs w' !! Pinecone.one_job_id = Some new ∧
    (Some EmptyString = Some EmptyString →
     Pinecone.v_metadata new !! "report" = Pinecone.v_metadata old !! "report") ∧
    (Some EmptyString = Some EmptyString →
     Pinecone.v_metadata new !! "error_message" = Pinecone.v_metadata old !! "error_message") ∧
    (∀ r, Some EmptyString = Some r → r ≠ EmptyString →
          Pinecone.v_metadata new !! "report" = Some (Py.VStr r)) ∧
    (∀ m, Some EmptyString = Some m → m ≠ EmptyString →
          Pinecone.v_metadata new !! "error_message" = Some (Py.VStr m)) ∧
    (Some 0%Z = Some 0%Z →
     Pinecone.v_metadata new !! "source_count" = Some (Py.VInt 0)) ∧
    (∀ n, Some 0%Z = Some n →
          Pinecone.v_metadata new !! "source_count" = Some (Py.VInt n)).
Proof.
  intros w w'. split.
  - eexists. split; [vm_compute; reflexivity|].
    split; [vm_compute; reflexivity|]. split; vm_compute; reflexivity.
  - apply (update_job_status_empty_strings Pinecone.mock_services Pinecone.one_job_id "error"
             (Some EmptyString) (Some EmptyString) (Some 0%Z) w w').
    vm_compute. reflexivity.
Defined.

(** On that store the three fields show which are kept and which are
    written: the report and the error message stay, the source count
    becomes 0. *)
Example update_job_status_empty_strings_on_report :
  let w' := (Pinecone.update_job_status Pinecone.mock_services Pinecone.one_job_id "error"
               (Some EmptyString) (Some EmptyString) (Some 0%Z) reported_job_world).2 in
  let field k := (Pinecone.v_metadata <$> Pinecone.jobs w' !! Pinecone.one_job_id)
                   ≫= λ md : Py.dict, md !! k in
  field "status" = Some (Py.VStr "error") ∧
  field "report" = Some (Py.VStr "# Findings") ∧
  field "error_message" = Some (Py.VStr "1 source skipped") ∧
  field "source_count" = Some (Py.VInt 0).
Proof. cbv zeta. split_and!; vm_compute; reflexivity. Qed.

(** ** Sorting by creation date *)

Section StringOrder.
Import PyStr.

Lemma ltb_asym a b : ltb a b = true → ltb b a = false.
Proof.
  revert b; induction a as [|x a IH]; intros [|y b]; cbn [ltb]; try done.
  destruct (N.ltb_spec (N_of_ascii x) (N_of_ascii y)),
           (N.ltb_spec (N_of_ascii y) (N_of_ascii x)); try done; try lia; eauto.
Qed.

Lemma ltb_ge_trans a b c : ltb a b = false → ltb b c = false → ltb a c = false.
Proof.
  revert b c; induction a as [|x a IH]; intros [|y b] [|z c]; cbn [ltb]; try done.
  destruct (N.ltb_spec (N_of_ascii x) (N_of_ascii y)),
           (N.ltb_spec (N_of_ascii y) (N_of_ascii x)),
           (N.ltb_spec (N_of_ascii y) (N_of_ascii z)),
           (N.ltb_spec (N_of_ascii z) (N_of_ascii y)),
           (N.ltb_spec (N_of_ascii x) (N_of_ascii z)),
           (N.ltb_spec (N_of_ascii z) (N_of_ascii x)); try done; try lia; eauto.
Qed.

End StringOrder.

Section SortDesc.
Import Py.
Context {A : Type}.
Implicit Types (x y z : value * A) (l : list (value * A)).

Lemma key_ge_trans x y z : key_ge x y → key_ge y z → key_ge x z.
Proof.
  intros (a & b & Ha & Hb & Hab) (b' & c & Hb' & Hc & Hbc).
  rewrite Hb in Hb'. injection Hb' as <-.
  exists a, c. eauto using ltb_ge_trans.
Qed.

Lemma insert_desc_sorted (x : value * A) (l : list (value * A)) :
  str_key x → Forall str_key l → StronglySorted key_ge l →
  ∃ r, insert_desc x l = Returns r ∧ Permutation r (x :: l) ∧ StronglySorted key_ge r.
Proof.
  intros [a Ha] Hkeys Hsorted.
  induction l as [|y l IH]; cbn [insert_desc].
  - exists [x]. repeat split; [done|]. repeat constructor.
  - apply Forall_cons in Hkeys as [[b Hb] Hkeys].
    apply StronglySorted_inv in Hsorted as [Hsorted Hy].
    rewrite Ha, Hb. cbn [lt mbind outcome_bind].
    destruct (PyStr.ltb a b) eqn:Hlt.
    + destruct (IH Hkeys Hsorted) as (r & -> & Hperm & Hr).
      cbn. exists (y :: r). repeat split.
      * rewrite Hperm. apply perm_swap.
      * constructor; [done|].
        rewrite Forall_forall. intros z Hz.
        rewrite Hperm in Hz.
        apply elem_of_cons in Hz as [->|Hz].
        -- exists b, a. eauto using ltb_asym.
        -- rewrite Forall_forall in Hy. by apply Hy.
    + cbn. exists (x :: y :: l). repeat split; [done|].
      assert (key_ge x y) as Hxy by (exists a, b; eauto).
      constructor; [by constructor|].
      constructor; [done|].
      eapply Forall_impl; [exact Hy|]. intros z Hz. by eapply key_ge_trans.
Qed.

Lemma sort_desc_sorted (l : list (value * A)) :
  Forall str_key l →
  ∃ r, sort_desc l = Returns r ∧ Permutation r l ∧ StronglySorted key_ge r.
Proof.
  induction l as [|x l IH]; intros Hkeys; cbn [sort_desc].
  - exists []. repeat split; [done|constructor].
  - apply Forall_cons in Hkeys as [Hx Hkeys].
    destruct (IH Hkeys) as (r & -> & Hperm & Hr). cbn [mbind outcome_bind].
    destruct (insert_desc_sorted x r) as (r' & -> & Hperm' & Hr'); [done| |done|].
    + by rewrite Hperm.
    + exists r'. repeat split; [|done]. by rewrite Hperm', Hperm.
Qed.

(** Sorting a list that is already in descending order changes nothing. *)
Lemma sort_desc_fixed (l : list (value * A)) :
  StronglySorted key_ge l → sort_desc l = Returns l.
Proof.
  induction 1 as [|x l Hsorted IH Hx]; cbn [sort_desc]; [done|].
  rewrite IH. cbn [mbind outcome_bind].
  destruct l as [|y l]; [done|]. cbn [insert_desc].
  apply Forall_cons in Hx as [(a & b & -> & -> & Hab) _].
  cbn [lt mbind outcome_bind]. by rewrite Hab.
Qed.

End SortDesc.

Section SortByKey.
Import Py.
Context (k : string).

Lemma with_keys_run (l : list dict) :
  Forall (has_str_key k) l →
  ∃ dec, with_keys k l = Returns dec ∧ snd <$> dec = l ∧
         Forall (keyed k) dec ∧ Forall str_key dec.
Proof.
  induction 1 as [|d l [s Hd] _ (dec & IH & Hsnd & Hkeyed & Hstr)]; cbn [with_keys].
  - by exists [].
  - unfold getitem. rewrite Hd, IH. cbn [mbind outcome_bind mret outcome_ret].
    exists ((VStr s, d) :: dec). repeat split.
    + cbn. by rewrite Hsnd.
    + by constructor.
    + constructor; [by exists s|done].
Qed.

Lemma keyed_desc (p q : value * dict) :
  keyed k p → keyed k q → key_ge p q ↔ desc_by k p.2 q.2.
Proof.
  unfold keyed, key_ge, desc_by. intros Hp Hq. rewrite Hp, Hq.
  split; intros (a & b & ? & ? & ?); exists a, b; repeat split; congruence.
Qed.

Lemma keyed_sorted (dec : list (value * dict)) :
  Forall (keyed k) dec →
  StronglySorted key_ge dec ↔ StronglySorted (desc_by k) (snd <$> dec).
Proof.
  induction 1 as [|p dec Hp Hdec IH]; cbn [fmap list_fmap].
  - split; constructor.
  - split; intros [Hs Hall]%StronglySorted_inv; constructor; try (by apply IH).
    + rewrite Forall_fmap. rewrite Forall_forall in Hall, Hdec.
      apply Forall_forall. intros q Hq. apply keyed_desc; auto.
    + rewrite Forall_fmap in Hall. rewrite Forall_forall in Hall, Hdec.
      apply Forall_forall. intros q Hq. apply keyed_desc; auto.
      by apply Hall.
Qed.

(** On records that all carry a string under [k], the sort succeeds and
    gives a rearrangement of the list in descending order of that key. *)
Lemma sort_by_key_desc_sorted (l : list dict) :
  Forall (has_str_key k) l →
  ∃ r, sort_by_key_desc k l = Returns r ∧ Permutation r l ∧ StronglySorted (desc_by k) r.
Proof.
  intros Hl. unfold sort_by_key_desc.
  destruct (with_keys_run l Hl) as (dec & -> & <- & Hkeyed & Hstr).
  destruct (sort_desc_sorted dec Hstr) as (sorted & Hsort & Hperm & Hsorted).
  cbn [mbind outcome_bind]. rewrite Hsort. cbn [mbind outcome_bind].
  exists (snd <$> sorted). repeat split.
  - by rewrite Hperm.
  - apply keyed_sorted; [|done]. by rewrite Hperm.
Qed.

(** On such records already in descending order, the sort is the identity. *)
Lemma sort_by_key_desc_fixed (l : list dict) :
  Forall (has_str_key k) l → StronglySorted (desc_by k) l → sort_by_key_desc k l = Returns l.
Proof.
  intros Hl Hsorted. unfold sort_by_key_desc.
  destruct (with_keys_run l Hl) as (dec & -> & <- & Hkeyed & Hstr).
  cbn [mbind outcome_bind].
  rewrite sort_desc_fixed; [done|]. by apply keyed_sorted.
Qed.

Lemma desc_by_take (n : nat) (l : list dict) :
  StronglySorted (desc_by k) l → StronglySorted (desc_by k) (take n l).
Proof.
  intros Hl. revert n. induction Hl as [|d l Hl IH Hd]; intros [|n]; cbn; try constructor.
  - apply IH.
  - eapply Forall_take in Hd. exact Hd.
Qed.

Lemma desc_by_slice_to (limit : Z) (l : list dict) :
  StronglySorted (desc_by k) l → StronglySorted (desc_by k) (slice_to limit l).
Proof. unfold slice_to. case_match; apply desc_by_take. Qed.

End SortByKey.

(** ** Reading the store *)

Section Reads.
Import Py Pinecone.
Context (sv : services).

Lemma annotate_all_run key ms :
  Forall (λ m, is_Some (match_metadata m)) ms →
  annotate_all key ms = Returns (annotated key <$> ms).
Proof.
  induction 1 as [|m ms [md Hm] _ IH]; cbn [annotate_all]; [done|].
  unfold annotate. rewrite Hm, IH.
  cbn [mbind outcome_bind mret outcome_ret fmap list_fmap].
  unfold annotated. by rewrite Hm.
Qed.

(** Each read operation is a [try] block whose handler returns the empty
    list: it returns what its body returns, and [[]] when the body
    raises; the state is not changed. *)
Lemma get_job_history_run user_id limit w :
  get_job_history sv user_id limit w =
    (Returns (or_empty (
       query_embedding ← encode sv (history_query_text user_id);
       matches ← query_outcome sv JobIndex (job_index w) query_embedding limit
                   (Some "jobs") (Some (history_filter user_id));
       jobs ← annotate_all "score" matches;
       sort_by_key_desc "created_at" jobs)), w).
Proof.
  unfold get_job_history, try_except, query, _generate_embedding, get_state, lift_outcome,
    mbind, M_bind, outcome_bind, mret, M_ret.
  destruct (encode sv _); [|done]. cbn [get_index].
  destruct (query_outcome sv _ _ _ _ _ _); [|done].
  destruct (annotate_all _ _); [|done].
  by destruct (sort_by_key_desc _ _).
Qed.

Lemma search_jobs_by_topic_run search_topic limit w :
  search_jobs_by_topic sv search_topic limit w =
    (Returns (or_empty (
       query_embedding ← encode sv ("Research topic: " +:+ search_topic);
       matches ← query_outcome sv JobIndex (job_index w) query_embedding limit
                   (Some "jobs") None;
       annotate_all "similarity_score" matches)), w).
Proof.
  unfold search_jobs_by_topic, try_except, query, _generate_embedding, get_state, lift_outcome,
    mbind, M_bind, outcome_bind, mret, M_ret.
  destruct (encode sv _); [|done]. cbn [get_index].
  destruct (query_outcome sv _ _ _ _ _ _); [|done].
  by destruct (annotate_all _ _).
Qed.

Lemma get_job_sources_run job_id limit w :
  get_job_sources sv job_id limit w =
    (Returns (or_empty (
       query_embedding ← encode sv "research sources content";
       matches ← query_outcome sv ContentIndex (content_index w) query_embedding limit
                   (Some (job_namespace job_id)) None;
       Returns (match_metadata <$> (matches : list scored_match)))), w).
Proof.
  unfold get_job_sources, try_except, query, _generate_embedding, get_state, lift_outcome,
    mbind, M_bind, outcome_bind, mret, M_ret.
  destruct (encode sv _); [|done]. cbn [get_index].
  by destruct (query_outcome sv _ _ _ _ _ _).
Qed.

Lemma search_content_run query_text job_id top_k w :
  search_content sv query_text job_id top_k w =
    (Returns (or_empty (
       query_embedding ← encode sv query_text;
       matches ← query_outcome sv ContentIndex (content_index w) query_embedding top_k
                   (if str_truthy job_id then Some (job_namespace (default "" job_id)) else None)
                   None;
       annotate_all "relevance_score" matches)), w).
Proof.
  unfold search_content, try_except, query, _generate_embedding, get_state, lift_outcome,
    mbind, M_bind, outcome_bind, mret, M_ret.
  destruct (encode sv _); [|done]. cbn [get_index].
  destruct (query_outcome sv _ _ _ _ _ _); [|done].
  by destruct (annotate_all _ _).
Qed.

Lemma is_job_record_true m : is_job_record m = true → job_record m.
Proof.
  unfold is_job_record, job_record.
  destruct (match_metadata m) as [md|]; [|done].
  destruct (md !! "created_at") as [[ts| |]|] eqn:Hts; try done.
  intros _. by exists md, ts.
Qed.

Lemma forallb_job_record ms : forallb is_job_record ms = true → Forall job_record ms.
Proof.
  induction ms as [|m ms IH]; cbn [forallb]; [constructor|].
  intros [Hm Hms]%andb_prop. constructor; [by apply is_job_record_true|by apply IH].
Qed.

Lemma job_record_annotated m :
  job_record m → has_str_key "created_at" (annotated "score" m).
Proof.
  intros (md & ts & Hmd & Hts). exists ts. unfold annotated. rewrite Hmd. cbn.
  by rewrite lookup_insert_ne.
Qed.

End Reads.

(** C3.  Whatever the user filter and the limit are, when the similarity
    query answers with job records, [ResearchJobManager.get_job_history]
    returns exactly those records, each with its score added, rearranged
    in descending order of [created_at].  [PineconeOperations.get_job_history]
    returns the first [limit] of them, again in descending order, which
    is all of them when the query answered with at most [limit] records. *)
Theorem get_job_history_sorted (sv : Pinecone.services) (user_id : option string) (limit : Z)
    (w : Pinecone.world) (query_embedding : list float) (matches : list Pinecone.scored_match) :
  Pinecone.encode sv (Pinecone.history_query_text user_id) = Returns query_embedding →
  Pinecone.query_outcome sv Pinecone.JobIndex (Pinecone.job_index w) query_embedding limit
    (Some "jobs") (Some (Pinecone.history_filter user_id)) = Returns matches →
  Forall job_record matches →
  ∃ jobs,
    Pinecone.get_job_history sv user_id limit w = (Returns jobs, w) ∧
    Permutation jobs (annotated "score" <$> matches) ∧
    StronglySorted (desc_by "created_at") jobs ∧
    Pinecone.operations_get_job_history sv user_id limit w
      = (Returns (Py.slice_to limit jobs), w) ∧
    StronglySorted (desc_by "created_at") (Py.slice_to limit jobs) ∧
    ((Z.of_nat (length matches) ≤ limit)%Z → Py.slice_to limit jobs = jobs).
Proof.
  intros Henc Hquery Hrecords.
  assert (Forall (has_str_key "created_at") (annotated "score" <$> matches)) as Hkeys.
  { rewrite Forall_fmap. eapply Forall_impl; [exact Hrecords|].
    intros m Hm. by apply job_record_annotated. }
  destruct (sort_by_key_desc_sorted "created_at" _ Hkeys) as (jobs & Hsort & Hperm & Hsorted).
  assert (Pinecone.get_job_history sv user_id limit w = (Returns jobs, w)) as Hrun.
  { rewrite get_job_history_run, Henc. cbn [mbind outcome_bind]. rewrite Hquery.
    cbn [mbind outcome_bind]. rewrite annotate_all_run.
    - cbn [mbind outcome_bind]. by rewrite Hsort.
    - eapply Forall_impl; [exact Hrecords|]. intros m (md & ts & -> & _). by eexists. }
  exists jobs. repeat split; try done.
  - unfold Pinecone.operations_get_job_history.
    unfold mbind at 1, M_bind at 1. rewrite Hrun.
    unfold mbind, M_bind, lift_outcome.
    rewrite sort_by_key_desc_fixed; [done| |done]. by rewrite Hperm.
  - by apply desc_by_slice_to.
  - intros Hlen. unfold Py.slice_to.
    assert (length jobs = length matches) as Hjobs
      by (rewrite (Permutation_length Hperm); apply length_fmap).
    destruct (0 <=? limit)%Z eqn:Hlimit; apply take_ge; lia.
Qed.

Lemma get_job_history_sorted_witness :
  ∃ jobs,
    Pinecone.get_job_history Pinecone.mock_services None 10 Pinecone.four_jobs_world
      = (Returns jobs, Pinecone.four_jobs_world) ∧
    Permutation jobs (annotated "score" <$> Pinecone.four_jobs_matches) ∧
    StronglySorted (desc_by "created_at") jobs ∧
    Pinecone.operations_get_job_history Pinecone.mock_services None 10 Pinecone.four_jobs_world
      = (Returns (Py.slice_to 10 jobs), Pinecone.four_jobs_world) ∧
    StronglySorted (desc_by "created_at") (Py.slice_to 10 jobs) ∧
    ((Z.of_nat (length Pinecone.four_jobs_matches) ≤ 10)%Z → Py.slice_to 10 jobs = jobs).
Proof.
  apply (get_job_history_sorted Pinecone.mock_services None 10 Pinecone.four_jobs_world []
           Pinecone.four_jobs_matches).
  - reflexivity.
  - vm_compute. reflexivity.
  - apply forallb_job_record. vm_compute. reflexivity.
Defined.

(** C9.  [get_job_history], [search_jobs_by_topic], [get_job_sources] and
    [search_content] never raise: each returns a list and leaves the
    state as it was, and each returns the empty list when the embedding
    call or the vector-store query raises. *)
Theorem read_operations_swallow_errors (sv : Pinecone.services) (w : Pinecone.world) :
  (∀ user_id limit,
     (∃ l, Pinecone.get_job_history sv user_id limit w = (Returns l, w)) ∧
     (call_fails sv (Pinecone.history_query_text user_id)
        (λ v, Pinecone.query_outcome sv Pinecone.JobIndex (Pinecone.job_index w) v limit
                (Some "jobs") (Some (Pinecone.history_filter user_id))) →
      Pinecone.get_job_history sv user_id limit w = (Returns [], w))) ∧
  (∀ search_topic limit,
     (∃ l, Pinecone.search_jobs_by_topic sv search_topic limit w = (Returns l, w)) ∧
     (call_fails sv ("Research topic: " +:+ search_topic)
        (λ v, Pinecone.query_outcome sv Pinecone.JobIndex (Pinecone.job_index w) v limit
                (Some "jobs") None) →
      Pinecone.search_jobs_by_topic sv search_topic limit w = (Returns [], w))) ∧
  (∀ job_id limit,
     (∃ l, Pinecone.get_job_sources sv job_id limit w = (Returns l, w)) ∧
     (call_fails sv "research sources content"
        (λ v, Pinecone.query_outcome sv Pinecone.ContentIndex (Pinecone.content_index w) v limit
                (Some (Pinecone.job_namespace job_id)) None) →
      Pinecone.get_job_sources sv job_id limit w = (Returns [], w))) ∧
  (∀ query_text job_id top_k,
     (∃ l, Pinecone.search_content sv query_text job_id top_k w = (Returns l, w)) ∧
     (call_fails sv query_text
        (λ v, Pinecone.query_outcome sv Pinecone.ContentIndex (Pinecone.content_index w) v top_k
                (if Py.str_truthy job_id
                 then Some (Pinecone.job_namespace (default "" job_id)) else None) None) →
      Pinecone.search_content sv query_text job_id top_k w = (Returns [], w))).
Proof.
  repeat split; try (eexists; first
    [ apply get_job_history_run | apply search_jobs_by_topic_run
    | apply get_job_sources_run | apply search_content_run ]).
  - intros [[e He]|(v & e & Hv & He)]; rewrite get_job_history_run, ?He, ?Hv;
      cbn [mbind outcome_bind]; by rewrite ?He.
  - intros [[e He]|(v & e & Hv & He)]; rewrite search_jobs_by_topic_run, ?He, ?Hv;
      cbn [mbind outcome_bind]; by rewrite ?He.
  - intros [[e He]|(v & e & Hv & He)]; rewrite get_job_sources_run, ?He, ?Hv;
      cbn [mbind outcome_bind]; by rewrite ?He.
  - intros [[e He]|(v & e & Hv & He)]; rewrite search_content_run, ?He, ?Hv;
      cbn [mbind outcome_bind]; by rewrite ?He.
Qed.

Lemma read_operations_swallow_errors_witness :
  let sv := Pinecone.offline_services in
  let w := Pinecone.four_jobs_world in
  Pinecone.get_job_history sv (Some "alice") 10 w = (Returns [], w) ∧
  Pinecone.search_jobs_by_topic sv "quantum" 10 w = (Returns [], w) ∧
  Pinecone.get_job_sources sv Pinecone.one_job_id 10 w = (Returns [], w) ∧
  Pinecone.search_content sv "qubits" None 5 w = (Returns [], w).
Proof.
  intros sv w.
  destruct (read_operations_swallow_errors sv w) as (H1 & H2 & H3 & H4).
  split; [|split; [|split]].
  - apply H1. left. eexists. reflexivity.
  - apply H2. left. eexists. reflexivity.
  - apply H3. left. eexists. reflexivity.
  - apply H4. left. eexists. reflexivity.
Defined.

(** ** Job identifiers *)

Section CreateJob.
Import Py Pinecone.
Context (sv : services).

(** A successful [create_job] reads the clock three times and returns the
    id derived from the topic and the first reading. *)
Lemma create_job_returns topic user_id w r w' :
  create_job sv topic user_id w = (Returns r, w') →
  r !! "job_id" = Some (job_id_of "research" topic (clock sv (clock_reads w))) ∧
  clock_reads w' = clock_reads w + 3.
Proof.
  unfold create_job, _generate_job_id, _generate_embedding, upsert, now, lift_outcome,
    modify_state, raise, mbind, M_bind, mret, M_ret.
  cbn [clock_reads job_index content_index].
  destruct (encode sv _) as [embedding|]; [|congruence].
  destruct (upsert_fault sv _ _ _) as [e|]; [congruence|].
  intros [= <- <-]. split; [by simplify_map_eq|]. cbn. lia.
Qed.

End CreateJob.

(** With a clock that advances between the two calls the two ids differ
    here. *)
Lemma create_job_ticking_clock :
  returned_job_id
    (Pinecone.create_job Pinecone.mock_services "quantum computing" "alice" Pinecone.empty_world)
    = Some "89691093eed5" ∧
  returned_job_id
    (Pinecone.create_job Pinecone.mock_services "quantum computing" "alice"
       (Pinecone.create_job Pinecone.mock_services "quantum computing" "alice"
          Pinecone.empty_world).2)
    = Some "2ffc91a03026".
Proof. split; vm_compute; reflexivity. Qed.

(** C7.  Where the clock shows the same instant to both calls, the
    code does not do what [_generate_job_id] documents ("Generate unique
    job ID"): two calls of [create_job] with the same topic return the
    same job id, and the record of the second call replaces that of the
    first, so one job is left in the store. *)
Lemma create_job_frozen_clock_same_id :
  let run1 := Pinecone.create_job Pinecone.frozen_services "quantum computing" "alice"
                Pinecone.empty_world in
  let run2 := Pinecone.create_job Pinecone.frozen_services "quantum computing" "bob" run1.2 in
  returned_job_id run1 = Some "89691093eed5" ∧
  returned_job_id run2 = Some "89691093eed5" ∧
  size (Pinecone.jobs run1.2) = 1 ∧
  size (Pinecone.jobs run2.2) = 1 ∧
  (Pinecone.v_metadata <$> Pinecone.jobs run2.2 !! "89691093eed5")
    ≫= (λ md : Py.dict, md !! "user_id") = Some (Py.VStr "bob").
Proof. cbv zeta. split_and!; vm_compute; reflexivity. Qed.

(** ** The tool adapters *)

Section StringAppend.

Lemma string_length_app (a b : string) :
  String.length (a +:+ b) = String.length a + String.length b.
Proof.
  induction a as [|c a IH]; [done|].
  change (S (String.length (a +:+ b)) = S (String.length a) + String.length b).
  by rewrite IH.
Qed.

Lemma string_app_inv_tail (a b t : string) : a +:+ t = b +:+ t → a = b.
Proof.
  revert b. induction a as [|c a IH]; intros [|d b] H.
  - done.
  - apply (f_equal String.length) in H. rewrite !string_length_app in H. cbn in H. lia.
  - apply (f_equal String.length) in H. rewrite !string_length_app in H. cbn in H. lia.
  - change (String c (a +:+ t) = String d (b +:+ t)) in H.
    injection H as -> H. f_equal. by apply IH.
Qed.

End StringAppend.

(** C8, as it fails: the outputs for two URLs differ. *)
Lemma scraper_run_depends_on_url :
  Tools.scraper_run "https://a.example" ≠ Tools.scraper_run "https://b.example".
Proof. intros H. vm_compute in H. discriminate H. Qed.

(** C8 (as amended).  [_run] scrapes nothing: it returns the fixed
    placeholder text with the input URL inserted into it, so its output
    is the same for two URLs exactly when the URLs are the same. *)
Theorem scraper_run_placeholder (url1 url2 : string) :
  Tools.scraper_run url1 =
    "Placeholder content for " +:+ url1 +:+ ". This tool is not fully implemented yet." ∧
  (Tools.scraper_run url1 = Tools.scraper_run url2 ↔ url1 = url2).
Proof.
  split; [reflexivity|]. split; [|by intros ->].
  unfold Tools.scraper_run. intros H.
  apply (inj (String.app _)) in H. by apply string_app_inv_tail in H.
Qed.

(** ** Search results *)

Section FormatResults.
Import Py Tools.

Lemma format_result_run (result : dict) (p : Z) :
  result !! "position" = Some (VInt p) → p ≠ 0%Z →
  ∃ d, format_result result = Returns d ∧
       d !! "relevance_score" = Some (VFloat (int_truediv 1 p)).
Proof.
  intros Hpos Hp. unfold format_result, get. rewrite Hpos.
  change (default (VInt 1) (Some (VInt p))) with (VInt p).
  unfold one_over. destruct (Z.eqb_spec p 0) as [|_]; [done|].
  eexists. split; [reflexivity|]. by simplify_map_eq.
Qed.

(** Results and formatted results correspond one to one, in order. *)
Lemma format_all_run (results : list dict) :
  Forall (λ r, ∃ p, r !! "position" = Some (VInt p) ∧ (1 ≤ p)%Z) results →
  ∃ out, format_all results = Returns out ∧
    Forall2 (λ r d, ∀ p, r !! "position" = Some (VInt p) →
                         d !! "relevance_score" = Some (VFloat (int_truediv 1 p)))
            results out.
Proof.
  induction 1 as [|r results (p & Hp & Hge) _ (out & IH & Hall)]; cbn [format_all].
  - exists []. split; [done|constructor].
  - destruct (format_result_run r p Hp) as (d & -> & Hd); [lia|].
    rewrite IH. cbn [mbind outcome_bind mret outcome_ret].
    exists (d :: out). split; [done|]. constructor; [|done].
    intros p' Hp'. rewrite Hp in Hp'. by injection Hp' as <-.
Qed.

End FormatResults.

(** C4.  When every organic result carries an integer position from 1
    upwards, [_format_results] returns one formatted result per organic
    result, in order, whose [relevance_score] is the float [1 / position];
    and the score of a result at position 1 is strictly greater than the
    score of a result at position 2. *)
Theorem format_results_relevance (raw : Tools.raw_results) (results : list Py.dict) :
  Tools.organic_results raw = Some results →
  Forall (λ r, ∃ p, r !! "position" = Some (Py.VInt p) ∧ (1 ≤ p)%Z) results →
  ∃ out,
    Tools._format_results raw = Returns out ∧
    length out = length results ∧
    (∀ i r d p, results !! i = Some r → out !! i = Some d →
                r !! "position" = Some (Py.VInt p) →
                d !! "relevance_score" = Some (Py.VFloat (Py.int_truediv 1 p))) ∧
    (∀ i j r1 r2 d1 d2,
       results !! i = Some r1 → results !! j = Some r2 →
       out !! i = Some d1 → out !! j = Some d2 →
       r1 !! "position" = Some (Py.VInt 1) → r2 !! "position" = Some (Py.VInt 2) →
       ∃ s1 s2, d1 !! "relevance_score" = Some (Py.VFloat s1) ∧
                d2 !! "relevance_score" = Some (Py.VFloat s2) ∧
                PrimFloat.ltb s2 s1 = true).
Proof.
  intros Hraw Hpos. unfold Tools._format_results. rewrite Hraw.
  destruct (format_all_run results Hpos) as (out & -> & Hall).
  assert (∀ i r d p, results !! i = Some r → out !! i = Some d →
                     r !! "position" = Some (Py.VInt p) →
                     d !! "relevance_score" = Some (Py.VFloat (Py.int_truediv 1 p))) as Hscore.
  { intros i r d p Hr Hd. by apply (Forall2_lookup_lr _ _ _ _ _ _ Hall Hr Hd). }
  exists out. repeat split.
  - symmetry. by eapply Forall2_length.
  - exact Hscore.
  - intros i j r1 r2 d1 d2 Hr1 Hr2 Hd1 Hd2 Hp1 Hp2.
    exists (Py.int_truediv 1 1), (Py.int_truediv 1 2). repeat split; eauto.
Qed.

Lemma format_results_relevance_witness :
  ∃ out,
    Tools._format_results Tools.sample_response = Returns out ∧
    length out = 3 ∧
    (∀ i r d p, default [] (Tools.organic_results Tools.sample_response) !! i = Some r →
                out !! i = Some d →
                r !! "position" = Some (Py.VInt p) →
                d !! "relevance_score" = Some (Py.VFloat (Py.int_truediv 1 p))) ∧
    (∀ i j r1 r2 d1 d2,
       default [] (Tools.organic_results Tools.sample_response) !! i = Some r1 →
       default [] (Tools.organic_results Tools.sample_response) !! j = Some r2 →
       out !! i = Some d1 → out !! j = Some d2 →
       r1 !! "position" = Some (Py.VInt 1) → r2 !! "position" = Some (Py.VInt 2) →
       ∃ s1 s2, d1 !! "relevance_score" = Some (Py.VFloat s1) ∧
                d2 !! "relevance_score" = Some (Py.VFloat s2) ∧
                PrimFloat.ltb s2 s1 = true).
Proof.
  apply (format_results_relevance Tools.sample_response
           (default [] (Tools.organic_results Tools.sample_response))).
  - reflexivity.
  - repeat constructor; eexists; (split; [reflexivity|lia]).
Defined.

(** ** The retry loop, continued *)

Section RunResearchCases.
Import Crew.
Variable c : crew.
Variable topic : string.

(** One iteration whose kickoff succeeds returns its result. *)
Lemma attempt_body_success maxr delay attempt (tr : trace) r :
  kickoff_outcome c topic
    (kickoff_count (if 0 <? attempt then tr ++ [ESleep delay] else tr)) = Returns r →
  attempt_body c topic maxr delay attempt tr =
    (Returns (Some r), (if 0 <? attempt then tr ++ [ESleep delay] else tr) ++ [EKickoff topic]).
Proof.
  intros Hk.
  unfold attempt_body, try_except, mbind, M_bind, kickoff, sleep, modify_state, mret, M_ret.
  destruct (0 <? attempt); cbv beta iota zeta; rewrite Hk; reflexivity.
Qed.

(** The whole behaviour of [run_research] on a fresh crew, by cases on
    the outcomes of the first two kickoffs. *)
Lemma run_research_cases :
  run_research c topic [] =
    match kickoff_outcome c topic 0 with
    | Returns r => (Returns (Some r), [ESleep 15; EKickoff topic])
    | Raises e0 =>
        if retried e0 then
          match kickoff_outcome c topic 1 with
          | Returns r =>
              (Returns (Some r),
               [ESleep 15; EKickoff topic; ESleep 60; ESleep 60; EKickoff topic])
          | Raises e1 =>
              (Raises e1,
               [ESleep 15; EKickoff topic; ESleep 60; ESleep 60; EKickoff topic])
          end
        else (Raises e0, [ESleep 15; EKickoff topic])
    end.
Proof.
  unfold run_research, retry_loop, max_retries.
  cbn [seq for_each]. unfold mbind at 1, M_bind at 1. rewrite sleep_run.
  unfold mbind at 1, M_bind at 1.
  destruct (kickoff_outcome c topic 0) as [r|e0] eqn:H0.
  - by rewrite attempt_body_success with (r := r).
  - unfold retried. destruct (is_rate_limit e0 || is_empty_response e0) eqn:Hretry.
    + rewrite attempt_body_retryable with (e := e0); [|done|done].
      cbn -[attempt_body]. unfold mbind at 1, M_bind at 1.
      destruct (kickoff_outcome c topic 1) as [r|e1] eqn:H1.
      * by rewrite attempt_body_success with (r := r).
      * destruct (is_rate_limit e1 || is_empty_response e1) eqn:Hretry1.
        -- by rewrite attempt_body_retryable with (e := e1).
        -- apply orb_false_elim in Hretry1 as [? ?].
           by rewrite attempt_body_fatal with (e := e1).
    + apply orb_false_elim in Hretry as [? ?].
      by rewrite attempt_body_fatal with (e := e0).
Qed.

End RunResearchCases.

(** X1.  When the first kickoff succeeds, [run_research] returns its
    result after the initial cooldown alone: one kickoff, 15 seconds
    slept, no retry delay. *)
Theorem run_research_first_attempt (c : Crew.crew) (topic r : string) :
  Crew.kickoff_outcome c topic 0 = Returns r →
  Crew.run_research c topic [] =
    (Returns (Some r), [Crew.ESleep 15; Crew.EKickoff topic]).
Proof. intros H. by rewrite run_research_cases, H. Qed.

Lemma run_research_first_attempt_witness :
  Crew.run_research healthy_crew "llm agents" [] =
    (Returns (Some "# Report on llm agents"), [Crew.ESleep 15; Crew.EKickoff "llm agents"]).
Proof.
  apply (run_research_first_attempt healthy_crew "llm agents"). reflexivity.
Defined.

(** X2.  When the first kickoff fails with a retried error (rate limit
    or empty response) and the second succeeds, [run_research] returns
    the second result; between the two kickoffs it sleeps the retry delay
    twice, once in the handler and once at the start of the next
    attempt, 120 seconds in all. *)
Theorem run_research_retry_succeeds (c : Crew.crew) (topic r : string) (e0 : exn) :
  Crew.kickoff_outcome c topic 0 = Raises e0 →
  retried e0 = true →
  Crew.kickoff_outcome c topic 1 = Returns r →
  Crew.run_research c topic [] =
    (Returns (Some r),
     [Crew.ESleep 15; Crew.EKickoff topic; Crew.ESleep 60; Crew.ESleep 60;
      Crew.EKickoff topic]).
Proof. intros H0 Hr H1. by rewrite run_research_cases, H0, Hr, H1. Qed.

Lemma run_research_retry_succeeds_witness :
  Crew.run_research flaky_crew "llm agents" [] =
    (Returns (Some "# Report on llm agents"),
     [Crew.ESleep 15; Crew.EKickoff "llm agents"; Crew.ESleep 60; Crew.ESleep 60;
      Crew.EKickoff "llm agents"]).
Proof.
  apply (run_research_retry_succeeds flaky_crew "llm agents" _
           (Exn "ValueError" "Invalid response from LLM call - None or empty."));
    reflexivity.
Defined.

(** X3.  After a first failure that is retried, whatever error the second
    kickoff raises is raised to the caller, be it a rate limit, an empty
    response or anything else: the second attempt is the last. *)
Theorem run_research_second_failure_raised (c : Crew.crew) (topic : string) (e0 e1 : exn) :
  Crew.kickoff_outcome c topic 0 = Raises e0 →
  retried e0 = true →
  Crew.kickoff_outcome c topic 1 = Raises e1 →
  Crew.run_research c topic [] =
    (Raises e1,
     [Crew.ESleep 15; Crew.EKickoff topic; Crew.ESleep 60; Crew.ESleep 60;
      Crew.EKickoff topic]).
Proof. intros H0 Hr H1. by rewrite run_research_cases, H0, Hr, H1. Qed.

Lemma run_research_second_failure_raised_witness :
  Crew.run_research Crew.unauthorized_crew "llm agents" [] =
    (Raises (Exn "AuthenticationError" "Error code: 401 - Invalid API Key"),
     [Crew.ESleep 15; Crew.EKickoff "llm agents"; Crew.ESleep 60; Crew.ESleep 60;
      Crew.EKickoff "llm agents"]).
Proof.
  apply (run_research_second_failure_raised Crew.unauthorized_crew "llm agents"
           (Exn "ValueError" "Invalid response from LLM call - None or empty."));
    reflexivity.
Defined.

(** X4.  Whatever the crew does, [run_research] kicks it off once or
    twice, sleeps 15 or 135 seconds in all, and ends with a result or an
    exception: it never falls out of the loop returning [None]. *)
Theorem run_research_bounds (c : Crew.crew) (topic : string) :
  ∃ out tr,
    Crew.run_research c topic [] = (out, tr) ∧
    1 ≤ Crew.kickoff_count tr ≤ 2 ∧
    (sleep_total tr = 15 ∨ sleep_total tr = 135) ∧
    out ≠ Returns None.
Proof.
  rewrite run_research_cases.
  destruct (Crew.kickoff_outcome c topic 0) as [r|e0].
  - eexists _, _. split; [reflexivity|]. cbn. repeat split; auto; lia.
  - destruct (retried e0).
    + destruct (Crew.kickoff_outcome c topic 1) as [r|e1];
        eexists _, _; (split; [reflexivity|]); cbn; repeat split; auto; lia.
    + eexists _, _. split; [reflexivity|]. cbn. repeat split; auto; lia.
Qed.

(** ** The report file *)

Section ReportFile.
Import Report.

Lemma replace_char_no_old (old new : ascii) (s : string) :
  old ≠ new → PyStr.contains (String old EmptyString) (replace_char old new s) = false.
Proof.
  intros Hne. induction s as [|ch s IH]; cbn [replace_char PyStr.contains]; [done|].
  rewrite IH, orb_false_r. cbn [String.prefix].
  destruct (Ascii.eqb_spec ch old) as [->|Hch].
  - destruct (ascii_dec old new) as [?|_]; [done|]. done.
  - destruct (ascii_dec old ch) as [->|_]; done.
Qed.

Lemma replace_char_idem (old new : ascii) (s : string) :
  old ≠ new → replace_char old new (replace_char old new s) = replace_char old new s.
Proof.
  intros Hne. induction s as [|ch s IH]; cbn [replace_char]; [done|].
  rewrite IH. f_equal.
  destruct (Ascii.eqb_spec ch old) as [->|Hch].
  - destruct (Ascii.eqb_spec new old); congruence.
  - destruct (Ascii.eqb_spec ch old); congruence.
Qed.

End ReportFile.

Section ReportFileName.
Import Report.

Lemma contains_char_app (c : ascii) (a b : string) :
  PyStr.contains (String c EmptyString) (a +:+ b)
  = PyStr.contains (String c EmptyString) a || PyStr.contains (String c EmptyString) b.
Proof.
  induction a as [|x a IH].
  - change (EmptyString +:+ b) with b. cbn [PyStr.contains String.prefix]. done.
  - change (String x a +:+ b) with (String x (a +:+ b)).
    cbn [PyStr.contains]. rewrite IH. cbn [String.prefix].
    assert (∀ s, String.prefix EmptyString s = true) as Hp by (by intros [|??]).
    rewrite !Hp. by destruct (ascii_dec c x).
Qed.

Lemma replace_char_changes (old new : ascii) (s : string) :
  old ≠ new → PyStr.contains (String old EmptyString) s = true → replace_char old new s ≠ s.
Proof.
  intros Hne Hin Heq. rewrite <- Heq in Hin.
  by rewrite replace_char_no_old in Hin.
Qed.

End ReportFileName.

(** X5.  The report file name of the task never contains a space; and a
    topic that contains a space shares its report file name with another
    topic, the one with underscores in place of the spaces. *)
Theorem output_file_spaces (topic : string) :
  PyStr.contains " " topic = true →
  PyStr.contains " " (Report.output_file topic) = false ∧
  Report.replace_char " " "_" topic ≠ topic ∧
  Report.output_file (Report.replace_char " " "_" topic) = Report.output_file topic.
Proof.
  intros Hspace. unfold Report.output_file. repeat split.
  - rewrite !contains_char_app, replace_char_no_old by done. reflexivity.
  - by apply replace_char_changes.
  - by rewrite replace_char_idem.
Qed.

Lemma output_file_spaces_witness :
  PyStr.contains " " (Report.output_file "large language models") = false ∧
  Report.replace_char " " "_" "large language models" ≠ "large language models" ∧
  Report.output_file (Report.replace_char " " "_" "large language models")
    = Report.output_file "large language models".
Proof. apply (output_file_spaces "large language models"). reflexivity. Defined.

(** ** The shape of job identifiers *)

Section DigestShape.
Import Hashlib.
Local Open Scope Z_scope.

Lemma le_bytes_length n x : length (le_bytes n x) = n.
Proof. revert x; induction n as [|n IH]; intros x; cbn [le_bytes length]; [done|]. by rewrite IH. Qed.

Lemma le_bytes_range n x : Forall byte_range (le_bytes n x).
Proof.
  revert x; induction n as [|n IH]; intros x; cbn [le_bytes]; constructor; [|apply IH].
  unfold byte_range. change 255 with (Z.ones 8). rewrite Z.land_ones by lia.
  apply Z.mod_pos_bound. lia.
Qed.

Lemma md5_shape data : length (md5 data) = 16%nat ∧ Forall byte_range (md5 data).
Proof.
  unfold md5. destruct (blocks _ _ _) as [a b c d]. split.
  - rewrite !length_app, !le_bytes_length. done.
  - rewrite !Forall_app. repeat split; apply le_bytes_range.
Qed.

Lemma hex_digit_is_hex n : 0 ≤ n < 16 → is_hex_digit (hex_digit n) = true.
Proof.
  intros Hn.
  assert (n = 0 ∨ n = 1 ∨ n = 2 ∨ n = 3 ∨ n = 4 ∨ n = 5 ∨ n = 6 ∨ n = 7 ∨ n = 8 ∨ n = 9
          ∨ n = 10 ∨ n = 11 ∨ n = 12 ∨ n = 13 ∨ n = 14 ∨ n = 15) as Hcases by lia.
  repeat (destruct Hcases as [->|Hcases]; [reflexivity|]). by subst.
Qed.

Lemma hex_shape bs :
  Forall byte_range bs →
  String.length (hex bs) = (2 * length bs)%nat ∧ all_chars is_hex_digit (hex bs) = true.
Proof.
  induction 1 as [|b bs Hb _ [IHlen IHhex]]; [done|].
  cbn [hex String.length length all_chars]. split; [lia|].
  rewrite IHhex, !hex_digit_is_hex; [done| |].
  - change 15 with (Z.ones 4). rewrite Z.land_ones by lia. apply Z.mod_pos_bound. lia.
  - unfold byte_range in Hb. rewrite Z.shiftr_div_pow2 by lia.
    split; [apply Z.div_pos; lia|apply Z.div_lt_upper_bound; lia].
Qed.

Lemma take_shape (p : ascii → bool) n s :
  all_chars p s = true →
  String.length (PyStr.take n s) = Nat.min n (String.length s) ∧
  all_chars p (PyStr.take n s) = true.
Proof.
  revert s; induction n as [|n IH]; intros [|ch s] Hs; cbn [PyStr.take]; try done.
  cbn [all_chars] in Hs. apply andb_prop in Hs as [Hc Hs].
  destruct (IH s Hs) as [IHlen IHp]. cbn [String.length all_chars].
  rewrite IHlen, IHp, Hc. done.
Qed.

End DigestShape.

(** X6.  Whatever the topic, the job type and the timestamp are, a job id
    is a string of exactly 12 characters, each a decimal digit or a
    letter from [a] to [f]. *)
Theorem job_id_shape (job_type topic timestamp : string) :
  String.length (Pinecone.job_id_of job_type topic timestamp) = 12 ∧
  all_chars is_hex_digit (Pinecone.job_id_of job_type topic timestamp) = true.
Proof.
  unfold Pinecone.job_id_of, Hashlib.md5_hexdigest.
  destruct (md5_shape (Hashlib.encode (job_type +:+ "_" +:+ topic +:+ "_" +:+ timestamp)))
    as [Hlen Hrange].
  destruct (hex_shape _ Hrange) as [Hhexlen Hhex].
  destruct (take_shape is_hex_digit 12 _ Hhex) as [Htake Hall].
  split; [|done]. rewrite Htake, Hhexlen, Hlen. reflexivity.
Qed.

(** ** Creating jobs *)

Section CreateJobRuns.
Import Py Pinecone.
Context (sv : services).

(** The whole behaviour of [create_job]: it reads the clock three times,
    then raises what the embedding model or the upsert raises, or stores
    the pending job. *)
Lemma create_job_run topic user_id w :
  create_job sv topic user_id w =
    let job_id := job_id_of "research" topic (clock sv (clock_reads w)) in
    let w3 := World (job_index w) (content_index w) (S (S (S (clock_reads w)))) in
    match encode sv ("Research job: " +:+ topic +:+ " Status: pending Type: research") with
    | Raises e => (Raises e, w3)
    | Returns embedding =>
        match upsert_fault sv JobIndex [created_record sv topic user_id embedding w] "jobs" with
        | Some e => (Raises e, w3)
        | None =>
            (Returns (list_to_map [("job_id", job_id); ("namespace", "job_" +:+ job_id)]),
             created_world sv topic user_id embedding w)
        end
    end.
Proof.
  unfold create_job, _generate_job_id, _generate_embedding, upsert, now, lift_outcome,
    modify_state, raise, mbind, M_bind, mret, M_ret.
  cbn [clock_reads job_index content_index].
  destruct (encode sv _) as [embedding|]; [|done].
  fold (pending_metadata (job_id_of "research" topic (clock sv (clock_reads w))) topic user_id
          (clock sv (S (clock_reads w))) (clock sv (S (S (clock_reads w))))).
  fold (created_record sv topic user_id embedding w).
  by destruct (upsert_fault sv _ _ _).
Qed.

Lemma created_world_lookup topic user_id embedding w :
  jobs (created_world sv topic user_id embedding w)
    !! job_id_of "research" topic (clock sv (clock_reads w))
  = Some (created_record sv topic user_id embedding w).
Proof.
  unfold jobs, namespace_of, created_world. cbn [job_index].
  rewrite lookup_insert_eq. cbn [default from_option id]. apply lookup_insert_eq.
Qed.

Lemma created_world_other topic user_id embedding w (other : string) :
  other ≠ job_id_of "research" topic (clock sv (clock_reads w)) →
  jobs (created_world sv topic user_id embedding w) !! other = jobs w !! other.
Proof.
  intros Hne. unfold jobs at 1, namespace_of, created_world. cbn [job_index].
  rewrite lookup_insert_eq. cbn [default from_option id]. by rewrite lookup_insert_ne.
Qed.

End CreateJobRuns.

(** X7.  A successful [create_job] returns the id derived from the topic
    and the first clock reading together with the namespace ["job_" + id];
    [get_job] on that id then answers with the pending record of the
    job, whatever was stored under the id before; every other job record
    and the content index are as they were. *)
Theorem create_job_round_trip (sv : Pinecone.services) (topic user_id : string)
    (w w' : Pinecone.world) (r : gmap string string) :
  let job_id := Pinecone.job_id_of "research" topic
                  (Pinecone.clock sv (Pinecone.clock_reads w)) in
  Pinecone.create_job sv topic user_id w = (Returns r, w') →
  Pinecone.fetch_outcome sv Pinecone.JobIndex [job_id] "jobs" = Returns true →
  r !! "job_id" = Some job_id ∧
  r !! "namespace" = Some ("job_" +:+ job_id) ∧
  (∃ embedding,
     Pinecone.get_job sv job_id w' =
       (Returns (Some (Pinecone.Vector job_id embedding
          (pending_metadata job_id topic user_id
             (Pinecone.clock sv (S (Pinecone.clock_reads w)))
             (Pinecone.clock sv (S (S (Pinecone.clock_reads w))))))), w')) ∧
  (∀ other : string, other ≠ job_id → Pinecone.jobs w' !! other = Pinecone.jobs w !! other) ∧
  Pinecone.content_index w' = Pinecone.content_index w.
Proof.
  intros job_id Hrun Hfetch. subst job_id. rewrite create_job_run in Hrun. cbv zeta in Hrun.
  destruct (Pinecone.encode sv _) as [embedding|]; [|done].
  destruct (Pinecone.upsert_fault sv _ _ _); [done|].
  injection Hrun as <- <-. split_and!.
  - reflexivity.
  - reflexivity.
  - exists embedding. rewrite get_job_run, Hfetch. by rewrite created_world_lookup.
  - intros other Hother. by apply created_world_other.
  - done.
Qed.

Lemma create_job_round_trip_witness :
  let sv := Pinecone.mock_services in
  let run := Pinecone.create_job sv "quantum computing" "alice" Pinecone.empty_world in
  let job_id := Pinecone.job_id_of "research" "quantum computing"
                  (Pinecone.clock sv (Pinecone.clock_reads Pinecone.empty_world)) in
  returned run !! "job_id" = Some job_id ∧
  returned run !! "namespace" = Some ("job_" +:+ job_id) ∧
  (∃ embedding,
     Pinecone.get_job sv job_id run.2 =
       (Returns (Some (Pinecone.Vector job_id embedding
          (pending_metadata job_id "quantum computing" "alice"
             (Pinecone.clock sv (S (Pinecone.clock_reads Pinecone.empty_world)))
             (Pinecone.clock sv (S (S (Pinecone.clock_reads Pinecone.empty_world))))))),
        run.2)) ∧
  (∀ other : string, other ≠ job_id →
     Pinecone.jobs run.2 !! other = Pinecone.jobs Pinecone.empty_world !! other) ∧
  Pinecone.content_index run.2 = Pinecone.content_index Pinecone.empty_world.
Proof.
  intros sv run job_id.
  apply (create_job_round_trip sv "quantum computing" "alice" Pinecone.empty_world
           run.2 (returned run)).
  - vm_compute. reflexivity.
  - reflexivity.
Defined.

(** X8.  [create_job] has no handler: when the embedding model raises, or
    the upsert does, the exception reaches the caller; the clock has been
    read three times and neither index has changed. *)
Theorem create_job_propagates (sv : Pinecone.services) (topic user_id : string)
    (w : Pinecone.world) (e : exn) :
  (Pinecone.encode sv ("Research job: " +:+ topic +:+ " Status: pending Type: research")
     = Raises e ∨
   ∃ embedding,
     Pinecone.encode sv ("Research job: " +:+ topic +:+ " Status: pending Type: research")
       = Returns embedding ∧
     Pinecone.upsert_fault sv Pinecone.JobIndex
       [created_record sv topic user_id embedding w] "jobs" = Some e) →
  Pinecone.create_job sv topic user_id w =
    (Raises e, Pinecone.World (Pinecone.job_index w) (Pinecone.content_index w)
                 (S (S (S (Pinecone.clock_reads w))))).
Proof.
  intros [Henc|(embedding & Henc & Hup)]; rewrite create_job_run; cbv zeta; rewrite Henc;
    [done|by rewrite Hup].
Qed.

Lemma create_job_propagates_witness :
  Pinecone.create_job Pinecone.offline_services "quantum computing" "alice"
      Pinecone.one_job_world =
    (Raises (Exn "RuntimeError" "embedding model is not loaded"),
     Pinecone.World (Pinecone.job_index Pinecone.one_job_world)
       (Pinecone.content_index Pinecone.one_job_world)
       (S (S (S (Pinecone.clock_reads Pinecone.one_job_world))))).
Proof.
  apply (create_job_propagates Pinecone.offline_services "quantum computing" "alice").
  left. reflexivity.
Defined.

(** ** Updating jobs, continued *)

Section UpdateRuns.
Import Py Pinecone.
Context (sv : services).

(** The whole behaviour of [update_job_status]. *)
Lemma update_job_status_run job_id status report error_message source_count w :
  update_job_status sv job_id status report error_message source_count w =
    match (match fetch_outcome sv JobIndex [job_id] "jobs" with
           | Returns true => jobs w !! job_id
           | _ => None
           end) with
    | None => (Returns false, w)
    | Some old =>
        let w1 := World (job_index w) (content_index w) (S (clock_reads w)) in
        let metadata :=
          merge_update (v_metadata old) status (clock sv (clock_reads w))
            report error_message source_count in
        match getitem metadata "topic" with
        | Raises _ => (Returns false, w1)
        | Returns topic =>
            match encode sv (update_embedding_text sv topic status report) with
            | Raises _ => (Returns false, w1)
            | Returns embedding =>
                match upsert_fault sv JobIndex [Vector job_id embedding metadata] "jobs" with
                | Some _ => (Returns false, w1)
                | None => (Returns true, updated_world w job_id embedding metadata)
                end
            end
        end
    end.
Proof.
  unfold update_job_status, try_except.
  unfold mbind at 1, M_bind at 1. rewrite get_job_run.
  destruct (match fetch_outcome sv JobIndex [job_id] "jobs" with
            | Returns true => jobs w !! job_id | _ => None end) as [old|]; [|done].
  unfold mbind, M_bind, now, _generate_embedding, lift_outcome, upsert, modify_state,
    mret, M_ret, raise.
  cbn [clock_reads job_index content_index]. cbv zeta.
  destruct (getitem _ "topic") as [topic|]; [|done].
  destruct (encode sv _) as [embedding|]; [|done].
  by destruct (upsert_fault sv _ _ _).
Qed.

End UpdateRuns.

(** X9.  [update_job_status] never raises: it returns a boolean whatever
    the embedding model and the store do.  It never touches the content
    index, it reads the clock at most once, and when it returns [False]
    the job index is exactly as before. *)
Theorem update_job_status_total (sv : Pinecone.services) (job_id status : string)
    (report error_message : option string) (source_count : option Z) (w : Pinecone.world) :
  ∃ b w',
    Pinecone.update_job_status sv job_id status report error_message source_count w
      = (Returns b, w') ∧
    Pinecone.content_index w' = Pinecone.content_index w ∧
    Pinecone.clock_reads w ≤ Pinecone.clock_reads w' ≤ S (Pinecone.clock_reads w) ∧
    (b = false → Pinecone.job_index w' = Pinecone.job_index w).
Proof.
  rewrite update_job_status_run.
  destruct (match Pinecone.fetch_outcome sv Pinecone.JobIndex [job_id] "jobs" with
            | Returns true => Pinecone.jobs w !! job_id | _ => None end) as [old|].
  - cbv zeta. destruct (Py.getitem _ "topic") as [topic|].
    + destruct (Pinecone.encode sv _) as [embedding|].
      * destruct (Pinecone.upsert_fault sv _ _ _).
        -- eexists _, _. split; [reflexivity|]. cbn. repeat split; auto; lia.
        -- eexists _, _. split; [reflexivity|]. cbn. repeat split; auto; try lia.
      * eexists _, _. split; [reflexivity|]. cbn. repeat split; auto; lia.
    + eexists _, _. split; [reflexivity|]. cbn. repeat split; auto; lia.
  - eexists _, _. split; [reflexivity|]. repeat split; auto; lia.
Qed.

(** X10.  A successful [update_job_status] rewrites one record only:
    every other job record, every other namespace of the job index and
    the whole content index are unchanged, and the clock has been read
    once. *)
Theorem update_job_status_other_jobs (sv : Pinecone.services) (job_id status : string)
    (report error_message : option string) (source_count : option Z) (w w' : Pinecone.world) :
  Pinecone.update_job_status sv job_id status report error_message source_count w
    = (Returns true, w') →
  (∀ other : string, other ≠ job_id → Pinecone.jobs w' !! other = Pinecone.jobs w !! other) ∧
  (∀ ns : string, ns ≠ "jobs" → Pinecone.job_index w' !! ns = Pinecone.job_index w !! ns) ∧
  Pinecone.content_index w' = Pinecone.content_index w ∧
  Pinecone.clock_reads w' = S (Pinecone.clock_reads w).
Proof.
  intros Hrun.
  apply update_job_status_true_inv in Hrun as (old & embedding & Hold & ->).
  unfold updated_world. repeat split.
  - intros other Hother. unfold Pinecone.jobs at 1, Pinecone.namespace_of.
    cbn [Pinecone.job_index]. rewrite lookup_insert_eq. cbn [default from_option id].
    by rewrite lookup_insert_ne.
  - intros ns Hns. cbn [Pinecone.job_index]. by rewrite lookup_insert_ne.
Qed.

Lemma update_job_status_other_jobs_witness :
  let w := Pinecone.four_jobs_world in
  let w' := (Pinecone.update_job_status Pinecone.mock_services Pinecone.one_job_id "complete"
               (Some "# Findings") None (Some 3%Z) w).2 in
  (∀ other : string, other ≠ Pinecone.one_job_id →
     Pinecone.jobs w' !! other = Pinecone.jobs w !! other) ∧
  (∀ ns : string, ns ≠ "jobs" → Pinecone.job_index w' !! ns = Pinecone.job_index w !! ns) ∧
  Pinecone.content_index w' = Pinecone.content_index w ∧
  Pinecone.clock_reads w' = S (Pinecone.clock_reads w).
Proof.
  intros w w'.
  apply (update_job_status_other_jobs Pinecone.mock_services Pinecone.one_job_id "complete"
           (Some "# Findings") None (Some 3%Z) w w').
  vm_compute. reflexivity.
Defined.

Section Lifecycle.
Import Py Pinecone.
Context (sv : services).

Lemma pending_metadata_topic job_id topic user_id created_at updated_at :
  pending_metadata job_id topic user_id created_at updated_at !! "topic" = Some (VStr topic).
Proof. reflexivity. Qed.

Lemma pending_metadata_fields job_id topic user_id created_at updated_at :
  let md := pending_metadata job_id topic user_id created_at updated_at in
  md !! "job_id" = Some (VStr job_id) ∧
  md !! "user_id" = Some (VStr user_id) ∧
  md !! "job_type" = Some (VStr "research") ∧
  md !! "status" = Some (VStr "pending") ∧
  md !! "created_at" = Some (VStr created_at) ∧
  md !! "updated_at" = Some (VStr updated_at) ∧
  md !! "namespace" = Some (VStr ("job_" +:+ job_id)) ∧
  md !! "source_count" = Some (VInt 0) ∧
  md !! "processing_time_seconds" = Some (VInt 0) ∧
  md !! "report" = Some (VStr "") ∧
  md !! "error_message" = Some (VStr "").
Proof. cbv zeta. split_and!; reflexivity. Qed.

(** With working services an update of a stored job that carries a topic
    succeeds. *)
Lemma update_job_status_succeeds job_id status report error_message source_count w old :
  services_work sv →
  jobs w !! job_id = Some old →
  is_Some (v_metadata old !! "topic") →
  ∃ embedding,
    update_job_status sv job_id status report error_message source_count w =
      (Returns true,
       updated_world w job_id embedding
         (merge_update (v_metadata old) status (clock sv (clock_reads w))
            report error_message source_count)).
Proof.
  intros (Henc & Hfetch & Hupsert) Hold [topic Htopic].
  rewrite update_job_status_run, Hfetch, Hold. cbv zeta.
  unfold getitem. rewrite merge_update_other, Htopic.
  - destruct (Henc (update_embedding_text sv topic status report)) as [embedding ->].
    rewrite Hupsert. by exists embedding.
  - intros Hin. repeat (apply elem_of_cons in Hin as [Hin|Hin]; [discriminate Hin|]).
    by apply elem_of_nil in Hin.
Qed.

End Lifecycle.

(** X11.  With working services, a job that is created and then updated
    to ['complete'] with a non-empty report is found by [get_job] with
    the new status, the report and the source count, an [updated_at]
    equal to the fourth clock reading, and the topic, the user and the
    [created_at] it was created with. *)
Theorem job_lifecycle (sv : Pinecone.services) (topic user_id report : string) (n : Z)
    (w : Pinecone.world) :
  services_work sv →
  report ≠ EmptyString →
  let job_id := Pinecone.job_id_of "research" topic
                  (Pinecone.clock sv (Pinecone.clock_reads w)) in
  ∃ r w1 w2 v,
    Pinecone.create_job sv topic user_id w = (Returns r, w1) ∧
    r !! "job_id" = Some job_id ∧
    Pinecone.update_job_status sv job_id "complete" (Some report) None (Some n) w1
      = (Returns true, w2) ∧
    Pinecone.get_job sv job_id w2 = (Returns (Some v), w2) ∧
    Pinecone.v_metadata v !! "status" = Some (Py.VStr "complete") ∧
    Pinecone.v_metadata v !! "report" = Some (Py.VStr report) ∧
    Pinecone.v_metadata v !! "source_count" = Some (Py.VInt n) ∧
    Pinecone.v_metadata v !! "error_message" = Some (Py.VStr "") ∧
    Pinecone.v_metadata v !! "topic" = Some (Py.VStr topic) ∧
    Pinecone.v_metadata v !! "user_id" = Some (Py.VStr user_id) ∧
    Pinecone.v_metadata v !! "created_at"
      = Some (Py.VStr (Pinecone.clock sv (1 + Pinecone.clock_reads w))) ∧
    Pinecone.v_metadata v !! "updated_at"
      = Some (Py.VStr (Pinecone.clock sv (3 + Pinecone.clock_reads w))).
Proof.
  intros Hwork Hreport job_id. subst job_id.
  pose proof Hwork as (Henc & Hfetch & Hupsert).
  destruct (Henc ("Research job: " +:+ topic +:+ " Status: pending Type: research"))
    as [embedding Hemb].
  set (w1 := created_world sv topic user_id embedding w).
  destruct (update_job_status_succeeds sv
              (Pinecone.job_id_of "research" topic (Pinecone.clock sv (Pinecone.clock_reads w)))
              "complete" (Some report) None (Some n) w1
              (created_record sv topic user_id embedding w))
    as [embedding' Hupdate]; [done|apply created_world_lookup| |].
  { cbn [created_record Pinecone.v_metadata]. rewrite pending_metadata_topic. by eexists. }
  eexists _, w1, _, _. split_and!.
  - rewrite create_job_run. cbv zeta. by rewrite Hemb, Hupsert.
  - reflexivity.
  - exact Hupdate.
  - rewrite get_job_run, Hfetch. by rewrite updated_world_lookup.
  - cbn [Pinecone.v_metadata]. apply merge_update_status.
  - cbn [Pinecone.v_metadata]. rewrite merge_update_report. by destruct report.
  - cbn [Pinecone.v_metadata]. by rewrite merge_update_source_count.
  - cbn [Pinecone.v_metadata]. rewrite merge_update_error_message.
    apply pending_metadata_fields.
  - cbn [Pinecone.v_metadata]. rewrite merge_update_other; [apply pending_metadata_topic|].
    intros Hin. repeat (apply elem_of_cons in Hin as [Hin|Hin]; [discriminate Hin|]).
    by apply elem_of_nil in Hin.
  - cbn [Pinecone.v_metadata]. rewrite merge_update_other.
    + apply pending_metadata_fields.
    + intros Hin. repeat (apply elem_of_cons in Hin as [Hin|Hin]; [discriminate Hin|]).
      by apply elem_of_nil in Hin.
  - cbn [Pinecone.v_metadata]. rewrite merge_update_other.
    + apply pending_metadata_fields.
    + intros Hin. repeat (apply elem_of_cons in Hin as [Hin|Hin]; [discriminate Hin|]).
      by apply elem_of_nil in Hin.
  - cbn [Pinecone.v_metadata]. apply merge_update_updated_at.
Qed.

Lemma job_lifecycle_witness :
  let sv := Pinecone.mock_services in
  let job_id := Pinecone.job_id_of "research" "quantum computing"
                  (Pinecone.clock sv (Pinecone.clock_reads Pinecone.empty_world)) in
  ∃ r w1 w2 v,
    Pinecone.create_job sv "quantum computing" "alice" Pinecone.empty_world = (Returns r, w1) ∧
    r !! "job_id" = Some job_id ∧
    Pinecone.update_job_status sv job_id "complete" (Some "# Findings") None (Some 3%Z) w1
      = (Returns true, w2) ∧
    Pinecone.get_job sv job_id w2 = (Returns (Some v), w2) ∧
    Pinecone.v_metadata v !! "status" = Some (Py.VStr "complete") ∧
    Pinecone.v_metadata v !! "report" = Some (Py.VStr "# Findings") ∧
    Pinecone.v_metadata v !! "source_count" = Some (Py.VInt 3) ∧
    Pinecone.v_metadata v !! "error_message" = Some (Py.VStr "") ∧
    Pinecone.v_metadata v !! "topic" = Some (Py.VStr "quantum computing") ∧
    Pinecone.v_metadata v !! "user_id" = Some (Py.VStr "alice") ∧
    Pinecone.v_metadata v !! "created_at"
      = Some (Py.VStr (Pinecone.clock sv (1 + Pinecone.clock_reads Pinecone.empty_world))) ∧
    Pinecone.v_metadata v !! "updated_at"
      = Some (Py.VStr (Pinecone.clock sv (3 + Pinecone.clock_reads Pinecone.empty_world))).
Proof.
  intros sv.
  apply (job_lifecycle sv "quantum computing" "alice" "# Findings" 3 Pinecone.empty_world).
  - split_and!; [intros text; by eexists|done|done].
  - discriminate.
Defined.

(** ** Job history, continued *)

Section HistoryEdges.
Import Py Pinecone.

Lemma annotate_all_inv key ms jobs :
  annotate_all key ms = Returns jobs →
  Forall2 (λ m d, ∃ md, match_metadata m = Some md ∧ d = <[key := VFloat (match_score m)]> md)
    ms jobs.
Proof.
  revert jobs. induction ms as [|m ms IH]; intros jobs; cbn [annotate_all].
  - intros [= <-]. constructor.
  - unfold annotate. destruct (match_metadata m) as [md|] eqn:Hm; [|done].
    cbn [mbind outcome_bind]. destruct (annotate_all key ms) as [r|]; [|done].
    intros [= <-]. constructor; [by exists md|by apply IH].
Qed.

Lemma with_keys_missing k l :
  Exists (λ d : dict, d !! k = None) l → ∃ e, with_keys k l = Raises e.
Proof.
  induction l as [|d l IH]; intros Hex; [by apply Exists_nil in Hex|].
  cbn [with_keys]. unfold getitem.
  destruct (d !! k) eqn:Hd; [|by eexists].
  apply Exists_cons in Hex as [Hex|Hex]; [congruence|].
  destruct (IH Hex) as [e ->]. by eexists.
Qed.

End HistoryEdges.

(** X12.  One match without a creation timestamp (no metadata, or
    metadata without ['created_at']) makes [get_job_history] return the
    empty list: the error of the loop or of the sort is swallowed and all
    the records of the answer are dropped with it. *)
Theorem get_job_history_drops_all (sv : Pinecone.services) (user_id : option string)
    (limit : Z) (w : Pinecone.world) (query_embedding : list float)
    (matches : list Pinecone.scored_match) :
  Pinecone.encode sv (Pinecone.history_query_text user_id) = Returns query_embedding →
  Pinecone.query_outcome sv Pinecone.JobIndex (Pinecone.job_index w) query_embedding limit
    (Some "jobs") (Some (Pinecone.history_filter user_id)) = Returns matches →
  Exists no_created_at matches →
  Pinecone.get_job_history sv user_id limit w = (Returns [], w).
Proof.
  intros Henc Hquery Hbad.
  rewrite get_job_history_run, Henc. cbn [mbind outcome_bind]. rewrite Hquery.
  cbn [mbind outcome_bind].
  destruct (Pinecone.annotate_all "score" matches) as [jobs|] eqn:Hjobs; [|done].
  cbn [mbind outcome_bind].
  apply annotate_all_inv in Hjobs.
  assert (Exists (λ d : Py.dict, d !! "created_at" = None) jobs) as Hmissing.
  { clear Henc Hquery. induction Hjobs as [|m d ms jobs (md & Hmd & ->) _ IH].
    - by apply Exists_nil in Hbad.
    - apply Exists_cons in Hbad as [Hm|Hms].
      + apply Exists_cons_hd. rewrite lookup_insert_ne by done. by apply Hm.
      + apply Exists_cons_tl. by apply IH. }
  unfold Py.sort_by_key_desc.
  destruct (with_keys_missing "created_at" jobs Hmissing) as [e ->]. reflexivity.
Qed.

Lemma get_job_history_drops_all_witness :
  Pinecone.get_job_history partial_services None 10 Pinecone.empty_world
    = (Returns [], Pinecone.empty_world).
Proof.
  apply (get_job_history_drops_all partial_services None 10 Pinecone.empty_world []
           partial_matches).
  - reflexivity.
  - reflexivity.
  - apply Exists_cons_tl, Exists_cons_hd. intros md [= <-]. reflexivity.
Defined.

(** ** Ties in the history *)

Section Stability.
Import Py.
Context {A : Type}.
Implicit Types (x y : value * A) (l r : list (value * A)).

Lemma insert_desc_filter t x l r :
  insert_desc x l = Returns r →
  List.filter (key_is t) r = List.filter (key_is t) (x :: l).
Proof.
  revert r. induction l as [|y l IH]; intros r; cbn [insert_desc].
  - by intros [= <-].
  - destruct (lt x.1 y.1) as [[]|] eqn:Hlt; cbn [mbind outcome_bind]; [| |done].
    + destruct (insert_desc x l) as [r'|]; [|done]. cbn [mbind outcome_bind mret outcome_ret].
      intros [= <-]. cbn [List.filter]. rewrite (IH r' eq_refl). cbn [List.filter].
      destruct (key_is t y) eqn:Hy, (key_is t x) eqn:Hx; try done.
      exfalso. unfold key_is in Hx, Hy.
      destruct x.1 as [a| |], y.1 as [b| |]; try done.
      apply String.eqb_eq in Hx as ->. apply String.eqb_eq in Hy as ->.
      cbn [lt] in Hlt. injection Hlt as Hlt.
      pose proof (ltb_asym _ _ Hlt). congruence.
    + by intros [= <-].
Qed.

Lemma sort_desc_filter t l r :
  sort_desc l = Returns r →
  List.filter (key_is t) r = List.filter (key_is t) l.
Proof.
  revert r. induction l as [|x l IH]; intros r; cbn [sort_desc].
  - by intros [= <-].
  - destruct (sort_desc l) as [r'|]; [|done]. cbn [mbind outcome_bind].
    intros Hins. rewrite (insert_desc_filter t x r' r Hins).
    cbn [List.filter]. by rewrite (IH r' eq_refl).
Qed.

End Stability.

Section StableHistory.
Import Py.

Lemma filter_keyed t (l : list (value * dict)) :
  Forall (keyed "created_at") l →
  List.filter (created_at_is t) (snd <$> l) = snd <$> List.filter (key_is t) l.
Proof.
  induction 1 as [|[v d] l Hp _ IH]; [done|].
  assert (created_at_is t d = key_is t (v, d)) as Heq.
  { unfold created_at_is, key_is. unfold keyed in Hp. cbn [fst snd] in Hp |- *.
    by rewrite Hp. }
  change (snd <$> (v, d) :: l) with (d :: (snd <$> l)).
  cbn [List.filter]. rewrite Heq, IH. by destruct (key_is t (v, d)).
Qed.

End StableHistory.

(** X13.  Among records created at the same instant, [get_job_history]
    keeps the order in which the similarity query ranked them: the
    records of any one timestamp come out in the order they came in. *)
Theorem get_job_history_stable (sv : Pinecone.services) (user_id : option string) (limit : Z)
    (w : Pinecone.world) (query_embedding : list float) (matches : list Pinecone.scored_match) :
  Pinecone.encode sv (Pinecone.history_query_text user_id) = Returns query_embedding →
  Pinecone.query_outcome sv Pinecone.JobIndex (Pinecone.job_index w) query_embedding limit
    (Some "jobs") (Some (Pinecone.history_filter user_id)) = Returns matches →
  Forall job_record matches →
  ∃ jobs,
    Pinecone.get_job_history sv user_id limit w = (Returns jobs, w) ∧
    ∀ t, List.filter (created_at_is t) jobs
         = List.filter (created_at_is t) (annotated "score" <$> matches).
Proof.
  intros Henc Hquery Hrecords.
  assert (Forall (has_str_key "created_at") (annotated "score" <$> matches)) as Hkeys.
  { rewrite Forall_fmap. eapply Forall_impl; [exact Hrecords|].
    intros m Hm. by apply job_record_annotated. }
  destruct (with_keys_run "created_at" _ Hkeys) as (dec & Hdec & Hsnd & Hkeyed & Hstr).
  destruct (sort_desc_sorted dec Hstr) as (sorted & Hsort & Hperm & _).
  exists (snd <$> sorted). split.
  - rewrite get_job_history_run, Henc. cbn [mbind outcome_bind]. rewrite Hquery.
    cbn [mbind outcome_bind]. rewrite annotate_all_run.
    + cbn [mbind outcome_bind]. unfold Py.sort_by_key_desc. rewrite Hdec.
      cbn [mbind outcome_bind]. by rewrite Hsort.
    + eapply Forall_impl; [exact Hrecords|]. intros m (md & ts & -> & _). by eexists.
  - intros t. rewrite <- Hsnd, !filter_keyed; [|done|by rewrite Hperm].
    by rewrite (sort_desc_filter t dec sorted Hsort).
Qed.

(** ** The history of [PineconeOperations] *)

Section Resort.
Import Py.
Context {A : Type}.
Implicit Types (x y : value * A) (l r : list (value * A)).

Lemma lt_returns_kind (a b : value) c : lt a b = Returns c → is_str a = is_str b.
Proof. by destruct a, b. Qed.

Lemma lt_same_kind (a b : value) : is_str a = is_str b → ∃ c, lt a b = Returns c.
Proof. destruct a, b; cbn; intros; try done; by eexists. Qed.

Lemma insert_desc_perm x l r : insert_desc x l = Returns r → Permutation r (x :: l).
Proof.
  revert r. induction l as [|y l IH]; intros r; cbn [insert_desc].
  - by intros [= <-].
  - destruct (lt x.1 y.1) as [[]|]; cbn [mbind outcome_bind]; [| |done].
    + destruct (insert_desc x l) as [r'|]; [|done]. cbn [mbind outcome_bind mret outcome_ret].
      intros [= <-]. rewrite (IH r' eq_refl). apply perm_swap.
    + by intros [= <-].
Qed.

Lemma sort_desc_perm l r : sort_desc l = Returns r → Permutation r l.
Proof.
  revert r. induction l as [|x l IH]; intros r; cbn [sort_desc].
  - by intros [= <-].
  - destruct (sort_desc l) as [r'|]; [|done]. cbn [mbind outcome_bind].
    intros Hins%insert_desc_perm. by rewrite Hins, (IH r' eq_refl).
Qed.

Lemma insert_desc_total x l :
  Forall (λ y, is_str y.1 = is_str x.1) l → ∃ r, insert_desc x l = Returns r.
Proof.
  induction 1 as [|y l Hy _ [r IH]]; cbn [insert_desc]; [by eexists|].
  destruct (lt_same_kind x.1 y.1) as [[] ->]; [done| |]; cbn [mbind outcome_bind].
  - rewrite IH. by eexists.
  - by eexists.
Qed.

(** A sort that succeeds has compared keys of one kind only. *)
Lemma sort_desc_kind l r : sort_desc l = Returns r → homogeneous l.
Proof.
  revert r. induction l as [|x l IH]; intros r; cbn [sort_desc].
  - intros _. exists true. constructor.
  - destruct (sort_desc l) as [r'|] eqn:Hsort; [|done]. cbn [mbind outcome_bind].
    intros Hins. destruct (IH r' eq_refl) as [b Hb].
    pose proof (sort_desc_perm l r' Hsort) as Hperm.
    destruct r' as [|y r'].
    + apply Permutation_nil_l in Hperm as <-. exists (is_str x.1). by repeat constructor.
    + exists b. constructor; [|done].
      cbn [insert_desc] in Hins.
      destruct (lt x.1 y.1) as [c|] eqn:Hlt; [|done].
      apply lt_returns_kind in Hlt. rewrite Hlt.
      rewrite <- Hperm in Hb. by apply Forall_cons in Hb as [? _].
Qed.

Lemma sort_desc_total l : homogeneous l → ∃ r, sort_desc l = Returns r.
Proof.
  intros [b Hb]. induction Hb as [|x l Hx Hl [r IH]]; cbn [sort_desc]; [by eexists|].
  rewrite IH. cbn [mbind outcome_bind]. apply insert_desc_total.
  rewrite (sort_desc_perm l r IH). eapply Forall_impl; [exact Hl|].
  intros y Hy. congruence.
Qed.

End Resort.

Section ResortByKey.
Import Py.
Context (k : string).

Lemma with_keys_inv (l : list dict) dec :
  with_keys k l = Returns dec → snd <$> dec = l ∧ Forall (keyed k) dec.
Proof.
  revert dec. induction l as [|d l IH]; intros dec; cbn [with_keys].
  - by intros [= <-].
  - unfold getitem. destruct (d !! k) as [v|] eqn:Hd; [|done]. cbn [mbind outcome_bind].
    destruct (with_keys k l) as [r|]; [|done]. cbn [mbind outcome_bind mret outcome_ret].
    intros [= <-]. destruct (IH r eq_refl) as [<- Hr]. split; [done|]. by constructor.
Qed.

Lemma with_keys_of_keyed (dec : list (value * dict)) :
  Forall (keyed k) dec → with_keys k (snd <$> dec) = Returns dec.
Proof.
  induction 1 as [|[v d] dec Hp _ IH]; [done|].
  cbn [fmap list_fmap with_keys]. fold (fmap (M := list) (@snd value dict)).
  unfold keyed in Hp. cbn [fst snd] in Hp |- *. unfold getitem. by rewrite Hp, IH.
Qed.

(** What one sort returned can be sorted again. *)
Lemma sort_by_key_desc_again (l r : list dict) :
  sort_by_key_desc k l = Returns r →
  ∃ r', sort_by_key_desc k r = Returns r' ∧ length r' = length r.
Proof.
  unfold sort_by_key_desc.
  destruct (with_keys k l) as [dec|] eqn:Hdec; [|done]. cbn [mbind outcome_bind].
  destruct (sort_desc dec) as [sorted|] eqn:Hsort; [|done]. cbn [mbind outcome_bind].
  intros [= <-].
  apply with_keys_inv in Hdec as [_ Hkeyed].
  pose proof (sort_desc_perm dec sorted Hsort) as Hperm.
  rewrite with_keys_of_keyed by (by rewrite Hperm). cbn [mbind outcome_bind].
  destruct (sort_desc_total sorted) as [sorted' Hsorted'].
  { destruct (sort_desc_kind dec sorted Hsort) as [b Hb]. exists b. by rewrite Hperm. }
  rewrite Hsorted'. cbn [mbind outcome_bind]. eexists. split; [done|].
  rewrite !length_fmap. by rewrite (Permutation_length (sort_desc_perm _ _ Hsorted')).
Qed.

End ResortByKey.

(** X14.  [PineconeOperations.get_job_history] never raises, although its
    second sort stands outside every [try]: whatever the services do, it
    returns a list and leaves the state alone, and for a limit that is
    not negative the list has at most [limit] records. *)
Theorem operations_get_job_history_total (sv : Pinecone.services) (user_id : option string)
    (limit : Z) (w : Pinecone.world) :
  ∃ all_jobs,
    Pinecone.operations_get_job_history sv user_id limit w = (Returns all_jobs, w) ∧
    ((0 ≤ limit)%Z → (Z.of_nat (length all_jobs) ≤ limit)%Z).
Proof.
  unfold Pinecone.operations_get_job_history.
  unfold mbind at 1, M_bind at 1. rewrite get_job_history_run.
  assert (∃ r, Py.sort_by_key_desc "created_at"
                 (or_empty (
                    query_embedding ← Pinecone.encode sv (Pinecone.history_query_text user_id);
                    matches ← Pinecone.query_outcome sv Pinecone.JobIndex (Pinecone.job_index w)
                                query_embedding limit (Some "jobs")
                                (Some (Pinecone.history_filter user_id));
                    jobs ← Pinecone.annotate_all "score" matches;
                    Py.sort_by_key_desc "created_at" jobs)) = Returns r) as [r Hr].
  { destruct (Pinecone.encode sv _) as [v|]; [|by eexists]. cbn [mbind outcome_bind].
    destruct (Pinecone.query_outcome sv _ _ _ _ _ _) as [ms|]; [|by eexists].
    cbn [mbind outcome_bind].
    destruct (Pinecone.annotate_all "score" ms) as [jobs|]; [|by eexists].
    cbn [mbind outcome_bind].
    destruct (Py.sort_by_key_desc "created_at" jobs) as [l|] eqn:Hsort; [|by eexists].
    destruct (sort_by_key_desc_again "created_at" jobs l Hsort) as (r & Hr & _).
    by exists r. }
  revert Hr. generalize (or_empty (
    query_embedding ← Pinecone.encode sv (Pinecone.history_query_text user_id);
    matches ← Pinecone.query_outcome sv Pinecone.JobIndex (Pinecone.job_index w)
                query_embedding limit (Some "jobs")
                (Some (Pinecone.history_filter user_id));
    jobs ← Pinecone.annotate_all "score" matches;
    Py.sort_by_key_desc "created_at" jobs)).
  intros research_jobs Hr.
  unfold mbind, M_bind, lift_outcome. rewrite Hr.
  eexists. split; [reflexivity|].
  intros Hlimit. unfold Py.slice_to.
  destruct (Z.leb_spec 0 limit) as [_|]; [|lia].
  rewrite length_take. lia.
Qed.

Lemma get_job_history_stable_witness :
  ∃ jobs,
    Pinecone.get_job_history tied_services None 10 Pinecone.empty_world
      = (Returns jobs, Pinecone.empty_world) ∧
    ∀ t, List.filter (created_at_is t) jobs
         = List.filter (created_at_is t) (annotated "score" <$> tied_matches).
Proof.
  apply (get_job_history_stable tied_services None 10 Pinecone.empty_world [] tied_matches).
  - reflexivity.
  - reflexivity.
  - apply forallb_job_record. reflexivity.
Defined.

(** The tied records come out in the order of the query, behind the
    newer one. *)
Example tied_history :
  (λ d : Py.dict, d !! "job_id") <$>
    or_empty (Pinecone.get_job_history tied_services None 10 Pinecone.empty_world).1
  = [Some (Py.VStr "cccccccccccc"); Some (Py.VStr "aaaaaaaaaaaa"); Some (Py.VStr "bbbbbbbbbbbb")].
Proof. vm_compute. reflexivity. Qed.

(** ** Storing sources *)

Section StoreSource.
Import Py Pinecone Content.
Context (sv : services).

(** The whole behaviour of [store_source] on a string URL and a string
    content. *)
Lemma store_source_run job_id url title content credibility_score w :
  store_source sv job_id (Some (VStr url)) title (VStr content) credibility_score w =
    let source_id := source_id_of job_id url in
    let metadata :=
      source_metadata source_id job_id url title content credibility_score
        (clock sv (clock_reads w)) in
    let w1 := World (job_index w) (content_index w) (S (clock_reads w)) in
    match encode sv ("Title: " +:+ title_text (repr_float sv) title +:+
                     " Content: " +:+ content) with
    | Raises e => (Raises e, w1)
    | Returns embedding =>
        match upsert_fault sv ContentIndex [Vector source_id embedding metadata]
                (job_namespace job_id) with
        | Some e => (Raises e, w1)
        | None => (Returns source_id,
                   stored_world w job_id (Vector source_id embedding metadata))
        end
    end.
Proof.
  unfold store_source, _generate_embedding, upsert, now, lift_outcome, modify_state, raise,
    mbind, M_bind, mret, M_ret.
  cbn [encodable sliceable clock_reads job_index content_index]. cbv zeta.
  destruct (encode sv _) as [embedding|]; [|done].
  by destruct (upsert_fault sv _ _ _).
Qed.

Lemma stored_world_lookup w job_id v :
  sources (stored_world w job_id v) job_id !! v_id v = Some v.
Proof.
  unfold sources at 1, namespace_of, stored_world. cbn [content_index].
  rewrite lookup_insert_eq. cbn [default from_option id]. apply lookup_insert_eq.
Qed.

Lemma source_metadata_fields source_id job_id url title content credibility_score scraped_at :
  let md := source_metadata source_id job_id url title content credibility_score scraped_at in
  md !! "source_id" = Some (VStr source_id) ∧
  md !! "job_id" = Some (VStr job_id) ∧
  md !! "url" = Some (VStr url) ∧
  md !! "title" = title ∧
  md !! "content_preview" = Some (VStr (PyStr.take 1000 content)) ∧
  md !! "credibility_score" = Some credibility_score ∧
  md !! "scraped_at" = Some (VStr scraped_at) ∧
  md !! "content_length" = Some (VInt (Z.of_nat (String.length content))) ∧
  md !! "source_type" = Some (VStr "web_article").
Proof. cbv zeta. unfold source_metadata. destruct title; split_and!; reflexivity. Qed.

Lemma take_prefix n s : String.prefix (PyStr.take n s) s = true.
Proof.
  revert s. induction n as [|n IH]; intros [|c s]; cbn [PyStr.take String.prefix]; try done.
  destruct (ascii_dec c c); [apply IH|done].
Qed.

Lemma take_length n s : String.length (PyStr.take n s) = Nat.min n (String.length s).
Proof.
  revert s. induction n as [|n IH]; intros [|c s]; cbn [PyStr.take String.length]; try done.
  by rewrite IH.
Qed.

End StoreSource.

(** X15.  A successful [store_source] with a title returns the id made
    of the job id and the URL, and files the source under that id in the
    namespace of the job: the record carries the URL, the title, the credibility
    score, the clock reading, the whole length of the content and, as
    preview, the first 1000 characters of it at most.  The job index, the
    other sources of the job and the other namespaces are unchanged. *)
Theorem store_source_round_trip (sv : Pinecone.services) (job_id url content sid : string)
    (title credibility_score : Py.value) (w w' : Pinecone.world) :
  Content.store_source sv job_id (Some (Py.VStr url)) (Some title) (Py.VStr content)
    credibility_score w = (Returns sid, w') →
  sid = Content.source_id_of job_id url ∧
  (∃ v, sources w' job_id !! sid = Some v ∧
        Pinecone.v_id v = sid ∧
        Pinecone.v_metadata v !! "url" = Some (Py.VStr url) ∧
        Pinecone.v_metadata v !! "title" = Some title ∧
        Pinecone.v_metadata v !! "job_id" = Some (Py.VStr job_id) ∧
        Pinecone.v_metadata v !! "credibility_score" = Some credibility_score ∧
        Pinecone.v_metadata v !! "scraped_at"
          = Some (Py.VStr (Pinecone.clock sv (Pinecone.clock_reads w))) ∧
        Pinecone.v_metadata v !! "content_length"
          = Some (Py.VInt (Z.of_nat (String.length content))) ∧
        ∃ preview, Pinecone.v_metadata v !! "content_preview" = Some (Py.VStr preview) ∧
                   String.prefix preview content = true ∧
                   String.length preview = Nat.min 1000 (String.length content)) ∧
  (∀ other : string, other ≠ sid → sources w' job_id !! other = sources w job_id !! other) ∧
  (∀ ns : string, ns ≠ Pinecone.job_namespace job_id →
     Pinecone.content_index w' !! ns = Pinecone.content_index w !! ns) ∧
  Pinecone.job_index w' = Pinecone.job_index w.
Proof.
  rewrite store_source_run. cbv zeta.
  destruct (Pinecone.encode sv _) as [embedding|]; [|done].
  destruct (Pinecone.upsert_fault sv _ _ _); [done|].
  intros [= <- <-]. split_and!.
  - done.
  - eexists. split; [apply stored_world_lookup|].
    cbn [Pinecone.v_id Pinecone.v_metadata].
    pose proof (source_metadata_fields (Content.source_id_of job_id url) job_id url
                  (Some title) content credibility_score
                  (Pinecone.clock sv (Pinecone.clock_reads w)))
      as (_ & Hjob & Hurl & Htitle & Hpreview & Hcred & Hat & Hlen & _).
    split_and!; try done.
    eexists. split; [exact Hpreview|]. split; [apply take_prefix|apply take_length].
  - intros other Hother. unfold sources at 1, Pinecone.namespace_of, stored_world.
    cbn [Pinecone.content_index Pinecone.v_id]. rewrite lookup_insert_eq.
    cbn [default from_option id]. by rewrite lookup_insert_ne.
  - intros ns Hns. unfold stored_world. cbn [Pinecone.content_index].
    by rewrite lookup_insert_ne.
  - done.
Qed.

Lemma store_source_round_trip_witness :
  let sv := Pinecone.mock_services in
  let run := Content.store_source sv "89691093eed5" (Some (Py.VStr "https://a.example/qc"))
               (Some (Py.VStr "Quantum computing")) (Py.VStr "An overview.")
               (Py.VFloat 1) Pinecone.one_job_world in
  let sid := Content.source_id_of "89691093eed5" "https://a.example/qc" in
  sid = Content.source_id_of "89691093eed5" "https://a.example/qc" ∧
  (∃ v, sources run.2 "89691093eed5" !! sid = Some v ∧
        Pinecone.v_id v = sid ∧
        Pinecone.v_metadata v !! "url" = Some (Py.VStr "https://a.example/qc") ∧
        Pinecone.v_metadata v !! "title" = Some (Py.VStr "Quantum computing") ∧
        Pinecone.v_metadata v !! "job_id" = Some (Py.VStr "89691093eed5") ∧
        Pinecone.v_metadata v !! "credibility_score" = Some (Py.VFloat 1) ∧
        Pinecone.v_metadata v !! "scraped_at"
          = Some (Py.VStr (Pinecone.clock sv (Pinecone.clock_reads Pinecone.one_job_world))) ∧
        Pinecone.v_metadata v !! "content_length"
          = Some (Py.VInt (Z.of_nat (String.length "An overview."))) ∧
        ∃ preview, Pinecone.v_metadata v !! "content_preview" = Some (Py.VStr preview) ∧
                   String.prefix preview "An overview." = true ∧
                   String.length preview = Nat.min 1000 (String.length "An overview.")) ∧
  (∀ other : string, other ≠ sid →
     sources run.2 "89691093eed5" !! other
     = sources Pinecone.one_job_world "89691093eed5" !! other) ∧
  (∀ ns : string, ns ≠ Pinecone.job_namespace "89691093eed5" →
     Pinecone.content_index run.2 !! ns = Pinecone.content_index Pinecone.one_job_world !! ns) ∧
  Pinecone.job_index run.2 = Pinecone.job_index Pinecone.one_job_world.
Proof.
  intros sv run sid.
  apply (store_source_round_trip sv "89691093eed5" "https://a.example/qc" "An overview." sid
           (Py.VStr "Quantum computing") (Py.VFloat 1) Pinecone.one_job_world run.2).
  vm_compute. reflexivity.
Defined.

(** X16.  The id of a source depends on the job and the URL alone, so a
    second [store_source] of the same URL for the same job replaces the
    record of the first: the job has the same source ids as after the
    first call, and the record kept is the later one. *)
Theorem store_source_same_url (sv : Pinecone.services) (job_id url : string)
    (title1 title2 : Py.value) (content1 content2 sid1 sid2 : string)
    (score1 score2 : Py.value) (w w1 w2 : Pinecone.world) :
  Content.store_source sv job_id (Some (Py.VStr url)) (Some title1) (Py.VStr content1) score1 w
    = (Returns sid1, w1) →
  Content.store_source sv job_id (Some (Py.VStr url)) (Some title2) (Py.VStr content2) score2 w1
    = (Returns sid2, w2) →
  sid1 = sid2 ∧
  dom (sources w2 job_id) = dom (sources w1 job_id) ∧
  ∃ v, sources w2 job_id !! sid2 = Some v ∧
       Pinecone.v_metadata v !! "title" = Some title2 ∧
       Pinecone.v_metadata v !! "content_length"
         = Some (Py.VInt (Z.of_nat (String.length content2))) ∧
       Pinecone.v_metadata v !! "scraped_at"
         = Some (Py.VStr (Pinecone.clock sv (S (Pinecone.clock_reads w)))).
Proof.
  rewrite !store_source_run. cbv zeta.
  destruct (Pinecone.encode sv _) as [embedding1|]; [|done].
  destruct (Pinecone.upsert_fault sv _ _ _); [done|].
  intros [= <- <-].
  destruct (Pinecone.encode sv _) as [embedding2|]; [|done].
  destruct (Pinecone.upsert_fault sv _ _ _); [done|].
  intros [= <- <-]. split_and!.
  - done.
  - unfold sources at 1, Pinecone.namespace_of. unfold stored_world at 1.
    cbn [Pinecone.content_index Pinecone.v_id]. rewrite lookup_insert_eq.
    cbn [default from_option id]. rewrite dom_insert_L.
    assert (Content.source_id_of job_id url ∈ dom (sources (stored_world w job_id
      {| Pinecone.v_id := Content.source_id_of job_id url; Pinecone.v_values := embedding1;
         Pinecone.v_metadata := Content.source_metadata (Content.source_id_of job_id url)
           job_id url (Some title1) content1 score1
           (Pinecone.clock sv (Pinecone.clock_reads w)) |})
      job_id)) as Hin.
    { apply elem_of_dom. eexists.
      apply (stored_world_lookup w job_id
               (Pinecone.Vector (Content.source_id_of job_id url) embedding1 _)). }
    apply subseteq_union_1_L. by apply singleton_subseteq_l.
  - eexists. split; [apply stored_world_lookup|]. cbn [Pinecone.v_metadata].
    pose proof (source_metadata_fields (Content.source_id_of job_id url) job_id url
                  (Some title2) content2 score2
                  (Pinecone.clock sv (S (Pinecone.clock_reads w))))
      as (_ & _ & _ & Htitle & _ & _ & Hat & Hlen & _).
    split_and!; done.
Qed.



(** The texts of the two type errors are those of CPython. *)
Example store_source_type_error_texts :
  let store := Content.store_source Pinecone.mock_services "89691093eed5" in
  let w := Pinecone.one_job_world in
  store None (Some (Py.VStr "Qubits")) (Py.VInt 7) (Py.VFloat 1) w
    = (Raises (Exn "AttributeError" "'NoneType' object has no attribute 'encode'"), w) ∧
  store (Some (Py.VInt 404)) (Some (Py.VStr "Qubits")) (Py.VStr "text") (Py.VFloat 1) w
    = (Raises (Exn "AttributeError" "'int' object has no attribute 'encode'"), w) ∧
  store (Some (Py.VStr "https://b.example/qubits")) (Some (Py.VStr "Qubits")) (Py.VInt 7)
      (Py.VFloat 1) w
    = (Raises (Exn "TypeError" "'int' object is not subscriptable"), w) ∧
  store (Some (Py.VStr "https://b.example/qubits")) (Some (Py.VStr "Qubits")) (Py.VFloat 1)
      (Py.VFloat 1) w
    = (Raises (Exn "TypeError" "'float' object is not subscriptable"), w).
Proof. cbv zeta. split_and!; reflexivity. Qed.

Lemma store_source_same_url_witness :
  let sv := Pinecone.mock_services in
  let store := Content.store_source sv "89691093eed5" (Some (Py.VStr "https://a.example/qc")) in
  let run1 := store (Some (Py.VStr "Quantum computing")) (Py.VStr "An overview.")
                (Py.VFloat 1) Pinecone.one_job_world in
  let run2 := store (Some (Py.VStr "Quantum computing, revisited"))
                (Py.VStr "A longer overview.") (Py.VFloat 0.5) run1.2 in
  let sid := Content.source_id_of "89691093eed5" "https://a.example/qc" in
  sid = sid ∧
  dom (sources run2.2 "89691093eed5") = dom (sources run1.2 "89691093eed5") ∧
  ∃ v, sources run2.2 "89691093eed5" !! sid = Some v ∧
       Pinecone.v_metadata v !! "title" = Some (Py.VStr "Quantum computing, revisited") ∧
       Pinecone.v_metadata v !! "content_length"
         = Some (Py.VInt (Z.of_nat (String.length "A longer overview."))) ∧
       Pinecone.v_metadata v !! "scraped_at"
         = Some (Py.VStr (Pinecone.clock sv (S (Pinecone.clock_reads Pinecone.one_job_world)))).
Proof.
  intros sv store run1 run2 sid.
  apply (store_source_same_url sv "89691093eed5" "https://a.example/qc"
           (Py.VStr "Quantum computing") (Py.VStr "Quantum computing, revisited")
           "An overview." "A longer overview." sid sid (Py.VFloat 1) (Py.VFloat 0.5)
           Pinecone.one_job_world run1.2 run2.2).
  - vm_compute. reflexivity.
  - vm_compute. reflexivity.
Defined.

(** ** The search tool *)

Section SearchRuns.
Import Py Pinecone Content Search.
Context (api : search_api) (sv : services).

Lemma format_result_exact r p :
  r !! "position" = Some (VInt p) → p ≠ 0%Z →
  Tools.format_result r = Returns (formatted_result r p).
Proof.
  intros Hpos Hp. unfold Tools.format_result, formatted_result, get. rewrite Hpos.
  change (default (VInt 1) (Some (VInt p))) with (VInt p).
  unfold one_over. by destruct (Z.eqb_spec p 0).
Qed.

(** The formatted results of organic results. *)
Lemma format_all_exact (results : list dict) :
  Forall is_organic results →
  ∃ out, Tools.format_all results = Returns out ∧
         Forall2 (λ r d, ∃ p link snippet, organic r p link snippet ∧ d = formatted_result r p)
           results out.
Proof.
  induction 1 as [|r results (p & link & snippet & Hr) _ (out & IH & Hall)];
    cbn [Tools.format_all].
  - exists []. split; [done|constructor].
  - pose proof Hr as (Hpos & Hp & _).
    rewrite (format_result_exact r p Hpos) by lia. rewrite IH.
    exists (formatted_result r p :: out). split; [done|].
    constructor; [|done]. by exists p, link, snippet.
Qed.

(** One pass of the loop on the formatted result of an organic result. *)
Lemma store_formatted_run job_id r p link snippet w :
  organic r p link snippet →
  services_work sv →
  ∃ embedding,
    store_source sv job_id (formatted_result r p !! "url") (formatted_result r p !! "title")
      (get (formatted_result r p) "snippet" (VStr ""))
      (get (formatted_result r p) "relevance_score" (VFloat 0.5)) w =
    (Returns (source_id_of job_id link),
     stored_world w job_id
       (Vector (source_id_of job_id link) embedding
          (source_metadata (source_id_of job_id link) job_id link
             (Some (get r "title" (VStr ""))) snippet (VFloat (int_truediv 1 p))
             (clock sv (clock_reads w))))).
Proof.
  intros (Hpos & Hp & Hlink & Hsnippet) (Henc & _ & Hupsert).
  assert (formatted_result r p !! "url" = Some (VStr link)) as ->
    by (unfold formatted_result; rewrite Hlink; reflexivity).
  assert (formatted_result r p !! "title" = Some (get r "title" (VStr ""))) as ->
    by reflexivity.
  assert (get (formatted_result r p) "snippet" (VStr "") = VStr snippet) as ->
    by (unfold formatted_result; rewrite Hsnippet; reflexivity).
  assert (get (formatted_result r p) "relevance_score" (VFloat 0.5)
          = VFloat (int_truediv 1 p)) as -> by reflexivity.
  rewrite store_source_run. cbv zeta.
  destruct (Henc ("Title: " +:+ title_text (repr_float sv) (Some (get r "title" (VStr "")))
                  +:+ " Content: " +:+ snippet)) as [embedding ->].
  rewrite Hupsert. by exists embedding.
Qed.

End SearchRuns.

Section StoreResults.
Import Py Pinecone Content Search.
Context (sv : services).

Lemma stored_world_other w job_id v (other : string) :
  other ≠ v_id v → sources (stored_world w job_id v) job_id !! other = sources w job_id !! other.
Proof.
  intros Hne. unfold sources at 1, namespace_of, stored_world. cbn [content_index].
  rewrite lookup_insert_eq. cbn [default from_option id]. by rewrite lookup_insert_ne.
Qed.

Lemma stored_world_namespace w job_id v (ns : string) :
  ns ≠ job_namespace job_id →
  content_index (stored_world w job_id v) !! ns = content_index w !! ns.
Proof. intros Hne. unfold stored_world. cbn [content_index]. by rewrite lookup_insert_ne. Qed.

Lemma organic_source_id job_id r p link snippet :
  organic r p link snippet → result_source_id job_id r = source_id_of job_id link.
Proof. intros (_ & _ & Hlink & _). unfold result_source_id. by rewrite Hlink. Qed.

(** The loop of [_run] over the formatted results of organic results,
    with working services: one source per result, stored at one clock
    reading each; an id used by several results keeps the last of them. *)
Lemma store_results_run job_id (results out : list dict) w :
  services_work sv →
  Forall2 (λ r d, ∃ p link snippet, organic r p link snippet ∧ d = formatted_result r p)
    results out →
  ∃ w',
    store_results sv job_id out w = (Returns tt, w') ∧
    job_index w' = job_index w ∧
    clock_reads w' = clock_reads w + length results ∧
    (∀ ns : string, ns ≠ job_namespace job_id →
       content_index w' !! ns = content_index w !! ns) ∧
    (∀ sid : string,
       Forall (λ r, result_source_id job_id r ≠ sid) results →
       sources w' job_id !! sid = sources w job_id !! sid) ∧
    (∀ i r p link snippet,
       results !! i = Some r → organic r p link snippet →
       Forall (λ r', result_source_id job_id r' ≠ source_id_of job_id link)
         (drop (S i) results) →
       ∃ v, sources w' job_id !! source_id_of job_id link = Some v ∧
            v_id v = source_id_of job_id link ∧
            v_metadata v =
              source_metadata (source_id_of job_id link) job_id link
                (Some (get r "title" (VStr ""))) snippet (VFloat (int_truediv 1 p))
                (clock sv (clock_reads w + i))).
Proof.
  intros Hwork Hall. revert w.
  induction Hall as [|r d results out (p & link & snippet & Hr & ->) _ IH]; intros w.
  - exists w. cbn [store_results length]. split_and!; try done; lia.
  - cbn [store_results]. unfold mbind at 1, M_bind at 1.
    destruct (store_formatted_run sv job_id r p link snippet w Hr Hwork) as [embedding ->].
    set (v := Vector (source_id_of job_id link) embedding _).
    destruct (IH (stored_world w job_id v))
      as (w' & -> & Hjobs & Hclock & Hns & Hother & Hstored).
    exists w'. split_and!.
    + done.
    + by rewrite Hjobs.
    + rewrite Hclock. cbn [stored_world clock_reads length]. lia.
    + intros ns Hne. rewrite Hns by done. by apply stored_world_namespace.
    + intros sid [Hsid Hrest]%Forall_cons. rewrite Hother by done.
      apply stored_world_other. cbn [v_id v].
      rewrite (organic_source_id job_id r p link snippet Hr) in Hsid. congruence.
    + intros [|i] r' p' link' snippet' Hi Hr' Hlater.
      * cbn in Hi. injection Hi as <-.
        assert (link' = link ∧ snippet' = snippet ∧ p' = p) as (-> & -> & ->).
        { destruct Hr as (Hp & _ & Hl & Hs), Hr' as (Hp' & _ & Hl' & Hs').
          rewrite Hp in Hp'. rewrite Hl in Hl'. rewrite Hs in Hs'.
          by injection Hp' as <-; injection Hl' as <-; injection Hs' as <-. }
        cbn [drop] in Hlater. rewrite Hother by done.
        exists v. split; [apply (stored_world_lookup w job_id v)|]. split; [done|].
        cbn [v_metadata v]. by rewrite Nat.add_0_r.
      * cbn in Hi. cbn [drop] in Hlater.
        destruct (Hstored i r' p' link' snippet' Hi Hr' Hlater) as (v' & Hv' & Hid & Hmd).
        exists v'. split_and!; try done.
        rewrite Hmd. cbn [stored_world clock_reads]. do 2 f_equal. lia.
Qed.

End StoreResults.

(** X18.  Without a job id ([None] or the empty string) or without
    [pinecone_ops], the search tool stores nothing: [_run] returns the
    formatted results of the response, or raises what the search API or
    the formatting raises, and the state is unchanged. *)
Theorem search_run_without_store (api : Search.search_api) (sv : Pinecone.services)
    (t : Search.tool) (query : string) (job_id : option string) (max_results : Z)
    (w : Pinecone.world) :
  Py.str_truthy job_id && Search.pinecone_ops t = false →
  Search._run api sv t query job_id max_results w =
    (Search.get_dict api query (Search.api_key t) max_results ≫= Tools._format_results, w).
Proof.
  intros Hoff. unfold Search._run, lift_outcome, mbind, M_bind, outcome_bind, mret, M_ret.
  destruct (Search.get_dict api _ _ _) as [raw|]; [|done].
  destruct (Tools._format_results raw) as [out|]; [|done].
  by rewrite Hoff.
Qed.

Lemma search_run_without_store_witness :
  Search._run Search.sample_api Pinecone.mock_services
      {| Search.api_key := "key"; Search.pinecone_ops := true |}
      "quantum computing" (Some EmptyString) 5 Pinecone.one_job_world =
    (Search.get_dict Search.sample_api "quantum computing" "key" 5 ≫= Tools._format_results,
     Pinecone.one_job_world).
Proof.
  apply (search_run_without_store Search.sample_api Pinecone.mock_services
           {| Search.api_key := "key"; Search.pinecone_ops := true |}).
  reflexivity.
Defined.

(** X19.  With a job id, [pinecone_ops] and working services, [_run] on
    a response of organic results returns their formatted results and
    stores one source per result in the namespace of the job, at one
    clock reading each.  The source of a result whose URL does not come
    again later in the response carries its link, its title, its snippet
    and, as credibility score, its relevance [1 / position].  The job
    index, the other namespaces and the sources under other ids are
    unchanged. *)
Theorem search_run_stores (api : Search.search_api) (sv : Pinecone.services)
    (t : Search.tool) (query job_id : string) (max_results : Z) (w : Pinecone.world)
    (raw : Tools.raw_results) (results : list Py.dict) :
  services_work sv →
  Search.pinecone_ops t = true →
  job_id ≠ EmptyString →
  Search.get_dict api query (Search.api_key t) max_results = Returns raw →
  Tools.organic_results raw = Some results →
  Forall is_organic results →
  ∃ out w',
    Search._run api sv t query (Some job_id) max_results w = (Returns out, w') ∧
    Tools._format_results raw = Returns out ∧
    Pinecone.job_index w' = Pinecone.job_index w ∧
    Pinecone.clock_reads w' = Pinecone.clock_reads w + length results ∧
    (∀ ns : string, ns ≠ Pinecone.job_namespace job_id →
       Pinecone.content_index w' !! ns = Pinecone.content_index w !! ns) ∧
    (∀ sid : string,
       Forall (λ r, result_source_id job_id r ≠ sid) results →
       sources w' job_id !! sid = sources w job_id !! sid) ∧
    (∀ i r p link snippet,
       results !! i = Some r → organic r p link snippet →
       Forall (λ r', result_source_id job_id r' ≠ Content.source_id_of job_id link)
         (drop (S i) results) →
       ∃ v, sources w' job_id !! Content.source_id_of job_id link = Some v ∧
            Pinecone.v_id v = Content.source_id_of job_id link ∧
            Pinecone.v_metadata v =
              Content.source_metadata (Content.source_id_of job_id link) job_id link
                (Some (Py.get r "title" (Py.VStr ""))) snippet
                (Py.VFloat (Py.int_truediv 1 p))
                (Pinecone.clock sv (Pinecone.clock_reads w + i))).
Proof.
  intros Hwork Hops Hjob Hget Hraw Horganic.
  destruct (format_all_exact results Horganic) as (out & Hout & Hall).
  destruct (store_results_run sv job_id results out w Hwork Hall)
    as (w' & Hstore & Hjobs & Hclock & Hns & Hother & Hstored).
  exists out, w'. split_and!; try done.
  - unfold Search._run, lift_outcome, mbind, M_bind, mret, M_ret.
    rewrite Hget. unfold Tools._format_results. rewrite Hraw, Hout, Hops.
    assert (Py.str_truthy (Some job_id) = true) as -> by (by destruct job_id).
    cbn [andb default from_option id].
    destruct out as [|d out]; [|by rewrite Hstore].
    cbn in Hstore. by injection Hstore as <-.
  - unfold Tools._format_results. by rewrite Hraw.
Qed.

Lemma search_run_stores_witness :
  let sv := Pinecone.mock_services in
  let t := {| Search.api_key := "key"; Search.pinecone_ops := true |} in
  let w := Pinecone.one_job_world in
  let job_id := Pinecone.one_job_id in
  let results := default [] (Tools.organic_results Tools.sample_response) in
  ∃ out w',
    Search._run Search.sample_api sv t "quantum computing" (Some job_id) 5 w
      = (Returns out, w') ∧
    Tools._format_results Tools.sample_response = Returns out ∧
    Pinecone.job_index w' = Pinecone.job_index w ∧
    Pinecone.clock_reads w' = Pinecone.clock_reads w + length results ∧
    (∀ ns : string, ns ≠ Pinecone.job_namespace job_id →
       Pinecone.content_index w' !! ns = Pinecone.content_index w !! ns) ∧
    (∀ sid : string,
       Forall (λ r, result_source_id job_id r ≠ sid) results →
       sources w' job_id !! sid = sources w job_id !! sid) ∧
    (∀ i r p link snippet,
       results !! i = Some r → organic r p link snippet →
       Forall (λ r', result_source_id job_id r' ≠ Content.source_id_of job_id link)
         (drop (S i) results) →
       ∃ v, sources w' job_id !! Content.source_id_of job_id link = Some v ∧
            Pinecone.v_id v = Content.source_id_of job_id link ∧
            Pinecone.v_metadata v =
              Content.source_metadata (Content.source_id_of job_id link) job_id link
                (Some (Py.get r "title" (Py.VStr ""))) snippet
                (Py.VFloat (Py.int_truediv 1 p))
                (Pinecone.clock sv (Pinecone.clock_reads w + i))).
Proof.
  intros sv t w job_id results.
  apply (search_run_stores Search.sample_api sv t "quantum computing" job_id 5 w
           Tools.sample_response results).
  - split_and!; [intros text; by eexists|done|done].
  - reflexivity.
  - discriminate.
  - reflexivity.
  - reflexivity.
  - repeat constructor.
    + exists 1%Z, "https://a.example/qc", "An overview.". by split_and!.
    + exists 2%Z, "https://b.example/qubits", "What a qubit is.". by split_and!.
    + exists 3%Z, "https://c.example/shor", EmptyString. by split_and!.
Defined.

(** ** The retrieval tool *)

Section RagRuns.
Import Py Pinecone Rag.
Context (sv : services).

Lemma rag_run_eq query job_id top_k w :
  _run sv query job_id top_k w = search_content sv query job_id top_k w.
Proof. unfold _run, try_except, mbind, M_bind. by rewrite search_content_run. Qed.

Lemma get_similar_research_eq topic limit w :
  get_similar_research sv topic limit w = search_jobs_by_topic sv topic limit w.
Proof.
  unfold get_similar_research, try_except, mbind, M_bind.
  by rewrite search_jobs_by_topic_run.
Qed.

Lemma get_context_string_run fixed3 query job_id top_k w :
  get_context_string sv fixed3 query job_id top_k w =
    match or_empty (
            query_embedding ← encode sv query;
            matches ← query_outcome sv ContentIndex (content_index w) query_embedding top_k
                        (if str_truthy job_id
                         then Some (job_namespace (default "" job_id)) else None) None;
            annotate_all "relevance_score" matches) with
    | [] => (Returns "No relevant context found.", w)
    | first :: rest =>
        if bool_decide (is_Some (first !! "error"))
        then (Returns "No relevant context found.", w)
        else match render sv fixed3 1 (first :: rest) with
             | Returns body => (Returns ("Relevant context:" +:+ nl +:+ nl +:+ body), w)
             | Raises e => (Raises e, w)
             end
    end.
Proof.
  unfold get_context_string. unfold mbind at 1, M_bind at 1.
  rewrite rag_run_eq, search_content_run.
  destruct (or_empty _) as [|first rest]; [done|].
  destruct (bool_decide _); [done|].
  unfold mbind, M_bind, lift_outcome, mret, M_ret.
  by destruct (render sv fixed3 1 (first :: rest)).
Qed.

(** Sources as [store_source] files them, with the score added by
    [search_content], can always be rendered. *)
Lemma render_sources fixed3 (ms : list scored_match) i :
  Forall source_record ms →
  ∃ body, render sv fixed3 i (annotated "relevance_score" <$> ms) = Returns body.
Proof.
  intros Hall. revert i.
  induction Hall as [|m ms (sid & j & u & t & c & cs & at' & Hm) _ IH]; intros i.
  - by eexists.
  - change (annotated "relevance_score" <$> m :: ms)
      with (annotated "relevance_score" m :: (annotated "relevance_score" <$> ms)).
    assert (annotated "relevance_score" m =
            <["relevance_score" := VFloat (match_score m)]>
              (Content.source_metadata sid j u (Some t) c cs at')) as ->
      by (unfold annotated; by rewrite Hm).
    pose proof (source_metadata_fields sid j u (Some t) c cs at')
      as (_ & _ & Hurl & Htitle & Hpreview & _).
    set (ctx := <["relevance_score" := VFloat (match_score m)]> _).
    assert (ctx !! "title" = Some t) as H1 by (subst ctx; by rewrite lookup_insert_ne).
    assert (ctx !! "url" = Some (VStr u)) as H2 by (subst ctx; by rewrite lookup_insert_ne).
    assert (ctx !! "content_preview" = Some (VStr (PyStr.take 1000 c))) as H3
      by (subst ctx; by rewrite lookup_insert_ne).
    assert (ctx !! "relevance_score" = Some (VFloat (match_score m))) as H4
      by (subst ctx; apply lookup_insert_eq).
    cbn [render]. unfold getitem. rewrite H1, H2, H3, H4.
    cbn [mbind outcome_bind format_3f].
    destruct (IH (S i)) as [tail ->]. by eexists.
Qed.

End RagRuns.

(** X20.  The handlers of [PineconeRAGTool._run] and of
    [get_similar_research] are never entered, because [search_content]
    and [search_jobs_by_topic] swallow every exception themselves: the
    two tools return what these return, so a failure of the services
    shows as the empty list and never as an entry with the key
    ['error']. *)
Theorem rag_run_is_search (sv : Pinecone.services) (w : Pinecone.world) :
  (∀ query job_id top_k,
     Rag._run sv query job_id top_k w = Pinecone.search_content sv query job_id top_k w) ∧
  (∀ topic limit,
     Rag.get_similar_research sv topic limit w
     = Pinecone.search_jobs_by_topic sv topic limit w).
Proof. split; intros; [apply rag_run_eq|apply get_similar_research_eq]. Qed.

(** X21.  [get_context_string] answers ["No relevant context found."]
    when the query surfaces nothing and also when the embedding model or
    the query raises: the caller cannot tell a failure from an empty
    result. *)
Theorem get_context_string_no_context (sv : Pinecone.services) (fixed3 : float → string)
    (query : string) (job_id : option string) (top_k : Z) (w : Pinecone.world) :
  let run_query := λ v,
    Pinecone.query_outcome sv Pinecone.ContentIndex (Pinecone.content_index w) v top_k
      (if Py.str_truthy job_id
       then Some (Pinecone.job_namespace (default "" job_id)) else None) None in
  call_fails sv query run_query ∨
  (∃ v, Pinecone.encode sv query = Returns v ∧ run_query v = Returns []) →
  Rag.get_context_string sv fixed3 query job_id top_k w
    = (Returns "No relevant context found.", w).
Proof.
  intros run_query Hcase. rewrite get_context_string_run. subst run_query.
  cbv beta in Hcase.
  destruct Hcase as [[[e He]|(v & e & Hv & He)]|(v & Hv & He)].
  - by rewrite He.
  - rewrite Hv. cbn [mbind outcome_bind]. by rewrite He.
  - rewrite Hv. cbn [mbind outcome_bind]. by rewrite He.
Qed.

Lemma get_context_string_no_context_witness :
  Rag.get_context_string Pinecone.offline_services (λ _, "0.750") "qubits"
      (Some "89691093eed5") 5 Pinecone.one_job_world
    = (Returns "No relevant context found.", Pinecone.one_job_world).
Proof.
  apply (get_context_string_no_context Pinecone.offline_services (λ _, "0.750") "qubits"
           (Some "89691093eed5") 5 Pinecone.one_job_world).
  left. left. eexists. reflexivity.
Defined.

(** X22.  On sources as [store_source] files them, title included,
    [get_context_string] does not raise: when the query surfaces at
    least one such source it returns a text that starts with
    ["Relevant context:"] and two line feeds. *)
Theorem get_context_string_renders (sv : Pinecone.services) (fixed3 : float → string)
    (query : string) (job_id : option string) (top_k : Z) (w : Pinecone.world)
    (query_embedding : list float) (m : Pinecone.scored_match)
    (matches : list Pinecone.scored_match) :
  Pinecone.encode sv query = Returns query_embedding →
  Pinecone.query_outcome sv Pinecone.ContentIndex (Pinecone.content_index w) query_embedding
    top_k (if Py.str_truthy job_id
           then Some (Pinecone.job_namespace (default "" job_id)) else None) None
    = Returns (m :: matches) →
  Forall source_record (m :: matches) →
  ∃ body,
    Rag.get_context_string sv fixed3 query job_id top_k w
      = (Returns ("Relevant context:" +:+ Rag.nl +:+ Rag.nl +:+ body), w).
Proof.
  intros Henc Hquery Hsources.
  rewrite get_context_string_run, Henc. cbn [mbind outcome_bind]. rewrite Hquery.
  cbn [mbind outcome_bind]. rewrite annotate_all_run.
  - destruct (render_sources sv fixed3 (m :: matches) 1 Hsources) as [body Hbody].
    change (or_empty (Returns (annotated "relevance_score" <$> m :: matches)))
      with (annotated "relevance_score" m :: (annotated "relevance_score" <$> matches)).
    change (annotated "relevance_score" <$> m :: matches)
      with (annotated "relevance_score" m :: (annotated "relevance_score" <$> matches))
      in Hbody.
    apply Forall_cons in Hsources as [(sid & j & u & t & c & cs & at' & Hm) _].
    assert (annotated "relevance_score" m !! "error" = None) as Herror.
    { unfold annotated. rewrite Hm. cbn [default from_option id].
      rewrite lookup_insert_ne by done. reflexivity. }
    cbv beta iota.
    rewrite bool_decide_eq_false_2; [by rewrite Hbody; exists body|].
    rewrite Herror. by intros [? ?].
  - eapply Forall_impl; [exact Hsources|].
    intros m' (sid & j & u & t & c & cs & at' & ->). by eexists.
Qed.

Lemma get_context_string_renders_witness :
  ∃ body,
    Rag.get_context_string library_services (λ _, "0.750") "qubits"
        (Some "89691093eed5") 5 Pinecone.one_job_world
      = (Returns ("Relevant context:" +:+ Rag.nl +:+ Rag.nl +:+ body), Pinecone.one_job_world).
Proof.
  apply (get_context_string_renders library_services (λ _, "0.750") "qubits"
           (Some "89691093eed5") 5 Pinecone.one_job_world []
           (default (Pinecone.Match "" 0 None) (head library_matches))
           (tail library_matches)).
  - reflexivity.
  - reflexivity.
  - repeat constructor; by eexists _, _, _, _, _, _, _.
Defined.

(** ** The error handler *)

Section HandlerRuns.
Import Py Pinecone Handler.
Context (sv : services).

Lemma handle_error_run job_id error w :
  handle_error sv job_id error w =
    (Returns (describe error),
     if String.prefix "sql_" job_id then w
     else (update_job_status sv job_id "error" None
             (Some (info_message (describe error))) None w).2).
Proof.
  unfold handle_error. cbv zeta. unfold mbind at 1, M_bind at 1, try_except.
  destruct (String.prefix "sql_" job_id); [reflexivity|].
  unfold mbind, M_bind.
  by destruct (update_job_status sv job_id "error" None _ None w) as [[b|e] w'].
Qed.

End HandlerRuns.

(** X23.  [handle_error] never raises, whatever the services do: it
    returns the description of the error ([unknown_error] with the class
    name for an exception that is no [ResearchError]), the content index
    is untouched and the clock is read at most once. *)
Theorem handle_error_never_raises (sv : Pinecone.services) (job_id : string)
    (error : Handler.error) (w : Pinecone.world) :
  ∃ w',
    Handler.handle_error sv job_id error w = (Returns (Handler.describe error), w') ∧
    Pinecone.content_index w' = Pinecone.content_index w ∧
    Pinecone.clock_reads w ≤ Pinecone.clock_reads w' ≤ S (Pinecone.clock_reads w).
Proof.
  rewrite handle_error_run. eexists. split; [reflexivity|].
  destruct (String.prefix "sql_" job_id); [split; [done|lia]|].
  rewrite update_job_status_run.
  destruct (match Pinecone.fetch_outcome sv Pinecone.JobIndex [job_id] "jobs" with
            | Returns true => Pinecone.jobs w !! job_id | _ => None end) as [old|];
    [|cbn; split; [done|lia]].
  cbv zeta. destruct (Py.getitem _ "topic") as [topic|]; [|cbn; split; [done|lia]].
  destruct (Pinecone.encode sv _) as [embedding|]; [|cbn; split; [done|lia]].
  destruct (Pinecone.upsert_fault sv _ _ _); cbn; (split; [done|lia]).
Qed.

(** X24.  For a job id that starts with [sql_] the handler updates
    nothing: the branch reads an attribute that [PineconeOperations] does
    not have, the [AttributeError] is swallowed, and the store is left as
    it was, also when a job with that id is stored. *)
Theorem handle_error_sql_job (sv : Pinecone.services) (job_id : string)
    (error : Handler.error) (w : Pinecone.world) :
  String.prefix "sql_" job_id = true →
  Handler.handle_error sv job_id error w = (Returns (Handler.describe error), w).
Proof. intros Hsql. by rewrite handle_error_run, Hsql. Qed.

Lemma handle_error_sql_job_witness :
  Pinecone.jobs sql_job_world !! "sql_7f3a" ≠ None ∧
  Handler.handle_error Pinecone.mock_services "sql_7f3a"
      (Handler.new_research_error Handler.TIMEOUT_ERROR "query timed out" None) sql_job_world
    = (Returns (Handler.ErrorInfo "timeout_error" "query timed out" ∅), sql_job_world).
Proof.
  split; [by vm_compute|].
  apply (handle_error_sql_job Pinecone.mock_services "sql_7f3a"
           (Handler.new_research_error Handler.TIMEOUT_ERROR "query timed out" None)
           sql_job_world).
  reflexivity.
Defined.

(** X25.  With working services, for a stored job that carries a topic
    and whose id does not start with [sql_], the handler leaves the job
    with the status ['error'] and, when the message is not empty, with
    the message as [error_message]; an empty message leaves the stored
    [error_message] as it was.  The topic and the report are kept. *)
Theorem handle_error_marks_job (sv : Pinecone.services) (job_id : string)
    (error : Handler.error) (w : Pinecone.world) (old : Pinecone.vector) :
  services_work sv →
  String.prefix "sql_" job_id = false →
  Pinecone.jobs w !! job_id = Some old →
  is_Some (Pinecone.v_metadata old !! "topic") →
  let message := Handler.info_message (Handler.describe error) in
  ∃ w' v,
    Handler.handle_error sv job_id error w = (Returns (Handler.describe error), w') ∧
    Pinecone.jobs w' !! job_id = Some v ∧
    Pinecone.v_metadata v !! "status" = Some (Py.VStr "error") ∧
    Pinecone.v_metadata v !! "error_message"
      = (if decide (message = EmptyString)
         then Pinecone.v_metadata old !! "error_message"
         else Some (Py.VStr message)) ∧
    Pinecone.v_metadata v !! "topic" = Pinecone.v_metadata old !! "topic" ∧
    Pinecone.v_metadata v !! "report" = Pinecone.v_metadata old !! "report".
Proof.
  intros Hsv Hsql Hold Htopic message.
  destruct (update_job_status_succeeds sv job_id "error" None (Some message) None w old
              Hsv Hold Htopic) as [embedding Hupdate].
  eexists _, _. split_and!.
  - rewrite handle_error_run, Hsql. fold message. by rewrite Hupdate.
  - apply updated_world_lookup.
  - cbn [Pinecone.v_metadata]. apply merge_update_status.
  - cbn [Pinecone.v_metadata]. rewrite merge_update_error_message.
    destruct message; [done|]. by rewrite decide_False.
  - cbn [Pinecone.v_metadata]. apply merge_update_other.
    intros Hin. repeat (apply elem_of_cons in Hin as [Hin|Hin]; [discriminate Hin|]).
    by apply elem_of_nil in Hin.
  - cbn [Pinecone.v_metadata]. by rewrite merge_update_report.
Qed.

Lemma handle_error_marks_job_witness :
  let error := Handler.OtherError (Exn "RateLimitError" "rate_limit_exceeded") in
  ∃ w' v,
    Handler.handle_error Pinecone.mock_services Pinecone.one_job_id error
        Pinecone.one_job_world = (Returns (Handler.describe error), w') ∧
    Pinecone.jobs w' !! Pinecone.one_job_id = Some v ∧
    Pinecone.v_metadata v !! "status" = Some (Py.VStr "error") ∧
    Pinecone.v_metadata v !! "error_message" = Some (Py.VStr "rate_limit_exceeded") ∧
    Pinecone.v_metadata v !! "topic" = Some (Py.VStr "quantum computing") ∧
    Pinecone.v_metadata v !! "report" = Some (Py.VStr "").
Proof.
  intros error.
  apply (handle_error_marks_job Pinecone.mock_services Pinecone.one_job_id error
           Pinecone.one_job_world one_job_record).
  - split_and!; [intros text; by eexists|done|done].
  - reflexivity.
  - vm_compute. reflexivity.
  - eexists. vm_compute. reflexivity.
Defined.

(** ** Index creation *)

Section SetupRuns.
Import Setup.
Context (pc : control_plane) (Hpc : plane_works pc).

Lemma initialize_indexes_run (a : account) :
  let missing (n : string) :=
    if bool_decide (n ∈ name <$> a) then []
    else [IndexModel n 384 "cosine" "aws" "us-east-1"] in
  _initialize_indexes pc a =
    (Returns ("cognito-jobs", "cognito-content"),
     (a ++ missing "cognito-jobs") ++ missing "cognito-content").
Proof.
  destruct Hpc as (Hlist & Hcreate & Hconnect). intros missing. subst missing. cbv beta.
  unfold _initialize_indexes, list_indexes, Index. rewrite Hlist, !Hconnect.
  unfold mbind at 1, M_bind at 1, get_state. cbv zeta.
  unfold indexes. cbn [create_missing]. unfold create_index. rewrite !Hcreate.
  unfold mbind, M_bind, modify_state, mret, M_ret.
  destruct (bool_decide ("cognito-jobs" ∈ name <$> a));
    destruct (bool_decide ("cognito-content" ∈ name <$> a));
    by rewrite ?app_nil_r.
Qed.

End SetupRuns.

(** X26.  When no call of the client library fails, [_initialize_indexes]
    keeps every index of the account as it is, an index that already has
    one of the two names included, whatever its dimension; it adds at
    most two indexes, each of dimension 384 with the cosine metric and
    under a name the account did not have; afterwards both names exist,
    and a second run changes nothing. *)
Theorem initialize_indexes_creates_missing (pc : Setup.control_plane) (a : Setup.account) :
  plane_works pc →
  ∃ created,
    Setup._initialize_indexes pc a
      = (Returns ("cognito-jobs", "cognito-content"), a ++ created) ∧
    length created ≤ 2 ∧
    Forall (λ spec, as_created spec ∧ Setup.name spec ∉ Setup.name <$> a) created ∧
    "cognito-jobs" ∈ Setup.name <$> a ++ created ∧
    "cognito-content" ∈ Setup.name <$> a ++ created ∧
    Setup._initialize_indexes pc (a ++ created)
      = (Returns ("cognito-jobs", "cognito-content"), a ++ created).
Proof.
  intros Hpc.
  exists ((if bool_decide ("cognito-jobs" ∈ Setup.name <$> a) then []
           else [Setup.IndexModel "cognito-jobs" 384 "cosine" "aws" "us-east-1"]) ++
          (if bool_decide ("cognito-content" ∈ Setup.name <$> a) then []
           else [Setup.IndexModel "cognito-content" 384 "cosine" "aws" "us-east-1"])).
  rewrite !(initialize_indexes_run pc Hpc). cbv zeta.
  destruct (bool_decide_reflect ("cognito-jobs" ∈ Setup.name <$> a)) as [Hj|Hj];
    destruct (bool_decide_reflect ("cognito-content" ∈ Setup.name <$> a)) as [Hc|Hc];
    cbn [app length]; rewrite ?app_nil_r.
  - split_and!; [done|lia|constructor|done|done|].
    by rewrite !bool_decide_eq_true_2, !app_nil_r.
  - split_and!; [done|lia| | | |].
    + apply Forall_cons. split; [|by apply Forall_nil]. split; [|done].
      unfold as_created; cbn; split_and!; [by right|done..].
    + rewrite fmap_app. apply elem_of_app. by left.
    + rewrite fmap_app. apply elem_of_app. right. by apply list_elem_of_singleton.
    + rewrite !bool_decide_eq_true_2, !app_nil_r; [done| |].
      * rewrite fmap_app. apply elem_of_app. right. by apply list_elem_of_singleton.
      * rewrite fmap_app. apply elem_of_app. by left.
  - split_and!; [done|lia| | | |].
    + apply Forall_cons. split; [|by apply Forall_nil]. split; [|done].
      unfold as_created; cbn; split_and!; [by left|done..].
    + rewrite fmap_app. apply elem_of_app. right. by apply list_elem_of_singleton.
    + rewrite fmap_app. apply elem_of_app. by left.
    + rewrite !bool_decide_eq_true_2, !app_nil_r; [done| |].
      * rewrite fmap_app. apply elem_of_app. by left.
      * rewrite fmap_app. apply elem_of_app. right. by apply list_elem_of_singleton.
  - split_and!; [by rewrite <- app_assoc|lia| | | |].
    + apply Forall_cons. split; [split; [unfold as_created; cbn; split_and!; [by left|done..]|done]|].
      apply Forall_cons. split; [|by apply Forall_nil]. split; [|done].
      unfold as_created; cbn; split_and!; [by right|done..].
    + rewrite fmap_app. apply elem_of_app. right. cbn. apply elem_of_cons. by left.
    + rewrite fmap_app. apply elem_of_app. right. cbn. apply elem_of_cons. right.
      by apply list_elem_of_singleton.
    + rewrite !bool_decide_eq_true_2, !app_nil_r; [done| |].
      * rewrite fmap_app. apply elem_of_app. right. cbn. apply elem_of_cons. right.
        by apply list_elem_of_singleton.
      * rewrite fmap_app. apply elem_of_app. right. cbn. apply elem_of_cons. by left.
Qed.

Lemma initialize_indexes_creates_missing_witness :
  ∃ created,
    Setup._initialize_indexes Setup.reliable_plane Setup.legacy_account
      = (Returns ("cognito-jobs", "cognito-content"), Setup.legacy_account ++ created) ∧
    length created ≤ 2 ∧
    Forall (λ spec, as_created spec ∧ Setup.name spec ∉ Setup.name <$> Setup.legacy_account)
      created ∧
    "cognito-jobs" ∈ Setup.name <$> Setup.legacy_account ++ created ∧
    "cognito-content" ∈ Setup.name <$> Setup.legacy_account ++ created ∧
    Setup._initialize_indexes Setup.reliable_plane (Setup.legacy_account ++ created)
      = (Returns ("cognito-jobs", "cognito-content"), Setup.legacy_account ++ created).
Proof.
  apply (initialize_indexes_creates_missing Setup.reliable_plane Setup.legacy_account).
  by split_and!.
Defined.

(** ** The button handler *)

Lemma job_id_of_nonempty job_type topic timestamp :
  Pinecone.job_id_of job_type topic timestamp ≠ EmptyString.
Proof.
  assert (String.length (Pinecone.job_id_of job_type topic timestamp) = 12) as Hlen.
  { unfold Pinecone.job_id_of, Hashlib.md5_hexdigest.
    destruct (md5_shape (Hashlib.encode (job_type +:+ "_" +:+ topic +:+ "_" +:+ timestamp)))
      as [Hlen Hrange].
    destruct (hex_shape _ Hrange) as [Hhexlen Hhex].
    destruct (take_shape is_hex_digit 12 _ Hhex) as [Htake Hall].
    rewrite Htake, Hhexlen, Hlen. reflexivity. }
  intros Heq. by rewrite Heq in Hlen.
Qed.

Lemma str_truthy_nonempty (s : string) : s ≠ EmptyString → Py.str_truthy (Some s) = true.
Proof. by destruct s. Qed.

(** X27.  With working services, when the steps after the creation of
    the job raise an exception, the button handler does not raise: the
    job it has just created is left with the status ['error'] and with
    the text of the exception as its error message, and the session
    points to that job. *)
Theorem start_research_failure_marks_job (sv : Pinecone.services)
    (research : string → string → M App.app_state unit) (topic : string)
    (s : App.app_state) (e : exn) :
  let job_id := Pinecone.job_id_of "research" topic
                  (Pinecone.clock sv (Pinecone.clock_reads (App.store s))) in
  services_work sv →
  topic ≠ EmptyString →
  research_fails research topic job_id e →
  ∃ s' v,
    App.start_research sv (Returns tt) research topic true s = (Returns tt, s') ∧
    App.current_job_id s' = Some job_id ∧
    Pinecone.jobs (App.store s') !! job_id = Some v ∧
    Pinecone.v_metadata v !! "status" = Some (Py.VStr "error") ∧
    Pinecone.v_metadata v !! "error_message" = Some (Py.VStr (exn_str e)) ∧
    Pinecone.v_metadata v !! "topic" = Some (Py.VStr topic).
Proof.
  intros job_id Hsv Htopic Hfails.
  pose proof Hsv as (Henc & Hfetch & Hupsert).
  destruct (Henc ("Research job: " +:+ topic +:+ " Status: pending Type: research"))
    as [embedding Hemb].
  set (w1 := created_world sv topic "anonymous" embedding (App.store s)).
  destruct (Hfails (App.AppState w1 (Some job_id))) as (s2 & Hrun & Hid & Hjob).
  cbn [App.current_job_id App.store] in Hid, Hjob.
  assert (Pinecone.jobs (App.store s2) !! job_id
          = Some (created_record sv topic "anonymous" embedding (App.store s))) as Hold.
  { rewrite Hjob. apply created_world_lookup. }
  destruct (update_job_status_succeeds sv job_id "error" None (Some (exn_str e)) None
              (App.store s2) _ Hsv Hold) as [embedding' Hupdate].
  { cbn [created_record Pinecone.v_metadata]. rewrite pending_metadata_topic. by eexists. }
  eexists _, _. split_and!.
  - unfold App.start_research. rewrite (str_truthy_nonempty topic Htopic).
    cbn [negb]. unfold try_except, App.on_store, Pinecone.create_research_job.
    unfold mbind at 1, M_bind at 1.
    rewrite create_job_run. cbv zeta. rewrite Hemb, Hupsert.
    fold job_id. fold w1.
    change (list_to_map [("job_id", job_id); ("namespace", "job_" +:+ job_id)] !! "job_id")
      with (Some job_id).
    unfold App.set_current_job_id, modify_state.
    unfold mbind at 1, M_bind at 1. cbn [App.store App.current_job_id].
    rewrite Hrun.
    unfold App.error_branch, get_state. unfold mbind at 1, M_bind at 1.
    rewrite Hid, (str_truthy_nonempty job_id (job_id_of_nonempty _ _ _)).
    unfold App.on_store, Pinecone.update_research_job, mbind, M_bind.
    cbn [default from_option id]. rewrite Hupdate. reflexivity.
  - exact Hid.
  - cbn [App.store]. apply updated_world_lookup.
  - cbn [Pinecone.v_metadata]. apply merge_update_status.
  - cbn [Pinecone.v_metadata created_record]. rewrite merge_update_error_message.
    destruct (exn_str e); [|done]. apply pending_metadata_fields.
  - cbn [Pinecone.v_metadata created_record]. rewrite merge_update_other.
    + apply pending_metadata_topic.
    + intros Hin. repeat (apply elem_of_cons in Hin as [Hin|Hin]; [discriminate Hin|]).
      by apply elem_of_nil in Hin.
Qed.

Lemma start_research_failure_marks_job_witness :
  ∃ s' v,
    App.start_research Pinecone.mock_services (Returns tt) rate_limited_research
        "quantum computing" true (App.AppState Pinecone.empty_world None) = (Returns tt, s') ∧
    App.current_job_id s' = Some Pinecone.one_job_id ∧
    Pinecone.jobs (App.store s') !! Pinecone.one_job_id = Some v ∧
    Pinecone.v_metadata v !! "status" = Some (Py.VStr "error") ∧
    Pinecone.v_metadata v !! "error_message"
      = Some (Py.VStr "Error code: 429 - Rate_Limit reached for model") ∧
    Pinecone.v_metadata v !! "topic" = Some (Py.VStr "quantum computing").
Proof.
  apply (start_research_failure_marks_job Pinecone.mock_services rate_limited_research
           "quantum computing" (App.AppState Pinecone.empty_world None)
           (Exn "RateLimitError" "Error code: 429 - Rate_Limit reached for model")).
  - split_and!; [intros text; by eexists|done|done].
  - discriminate.
  - intros s. exists s. by split_and!.
Defined.

(** X28.  When the creation of the new job raises, the session still
    holds the job id of an earlier run, and the handler files the failure
    under that id: if the update goes through, the earlier job is left
    with the status ['error'] and the button handler returns normally. *)
Theorem start_research_marks_earlier_job (sv : Pinecone.services)
    (research : string → string → M App.app_state unit) (topic earlier : string)
    (s : App.app_state) (e : exn) (w1 w2 : Pinecone.world) :
  topic ≠ EmptyString →
  earlier ≠ EmptyString →
  App.current_job_id s = Some earlier →
  Pinecone.create_research_job sv topic "anonymous" (App.store s) = (Raises e, w1) →
  Pinecone.update_research_job sv earlier "error" None (Some (exn_str e)) None w1
    = (Returns true, w2) →
  App.start_research sv (Returns tt) research topic true s
    = (Returns tt, App.AppState w2 (Some earlier)) ∧
  ∃ v, Pinecone.jobs w2 !! earlier = Some v ∧
       Pinecone.v_metadata v !! "status" = Some (Py.VStr "error").
Proof.
  intros Htopic Hearlier Hid Hcreate Hupdate. split.
  - unfold App.start_research. rewrite (str_truthy_nonempty topic Htopic).
    cbn [negb]. unfold try_except, App.on_store.
    unfold mbind at 1, M_bind at 1. rewrite Hcreate.
    unfold App.error_branch, get_state. unfold mbind at 1, M_bind at 1.
    cbn [App.current_job_id App.store].
    rewrite Hid, (str_truthy_nonempty earlier Hearlier).
    unfold App.on_store, mbind, M_bind. cbn [default from_option id App.store].
    by rewrite Hupdate.
  - unfold Pinecone.update_research_job in Hupdate.
    apply update_job_status_true_inv in Hupdate as (old & embedding & _ & ->).
    eexists. split; [apply updated_world_lookup|].
    cbn [Pinecone.v_metadata]. apply merge_update_status.
Qed.

Lemma start_research_marks_earlier_job_witness :
  App.start_research App.create_failing_services (Returns tt) rate_limited_research
      "graph databases" true earlier_session
    = (Returns tt, App.AppState after_marking (Some Pinecone.one_job_id)) ∧
  ∃ v, Pinecone.jobs after_marking !! Pinecone.one_job_id = Some v ∧
       Pinecone.v_metadata v !! "status" = Some (Py.VStr "error").
Proof.
  apply (start_research_marks_earlier_job App.create_failing_services rate_limited_research
           "graph databases" Pinecone.one_job_id earlier_session
           (Exn "RuntimeError" "out of memory") after_failed_create after_marking).
  - discriminate.
  - discriminate.
  - reflexivity.
  - vm_compute. reflexivity.
  - vm_compute. reflexivity.
Defined.
